(** * Yomu: freshness filter, recency cache and schedule dispatcher

    A shallow embedding of the parts of the Yomu newsletter daemon that
    decide which articles are new and when the next newsletter goes out:

    - [yomu/utils.py]: date parsing and normalisation to UTC-naive;
    - [yomu/content/processor.py]: [ContentProcessor], its bounded deque of
      undated URLs and the timestamp filter;
    - [yomu/newsletter/service.py]: the per-source article limit;
    - [yomu/daemon/daemon.py] and [yomu/config/config.py]: the cron
      schedules, their validation and the next run time.

    Python objects that the code mutates ([self.non_dated_processed_urls],
    the [croniter] iterators, the result dictionary of the service) are
    threaded explicitly; exceptions are results of their own, so that
    [try ... except] is modelled and not assumed away.  Logging, and the
    counter [filtered_count] that only feeds a log message, are left out.
    The third-party
    calls the code makes ([datetime.strptime], [datetime.fromisoformat],
    [croniter]) are parameters of the development; small reference
    instances of them are given for running the model on concrete inputs. *)

From Stdlib Require Import ZArith Lia Ascii String.
From stdpp Require Import base option list strings gmap.

Local Open Scope string_scope.
Local Open Scope Z_scope.

Set Default Proof Using "Type".

(** ** Python exceptions and results *)

(** The exception classes the modelled code can meet.  All of them derive
    from [Exception]; [croniter]'s own errors derive from [ValueError]
    and are represented by it. *)
Inductive exn : Type :=
  | ValueError
  | TypeError
  | AttributeError
  | OverflowError
  | IndexError.

(** The result of evaluating a Python expression: a value or a raised
    exception. *)
Inductive outcome (A : Type) : Type :=
  | Return (a : A)
  | Raise (e : exn).
Arguments Return {A} a.
Arguments Raise {A} e.

Definition obind {A B} (m : outcome A) (k : A → outcome B) : outcome B :=
  match m with
  | Return a => k a
  | Raise e => Raise e
  end.

Notation "'let!' x ':=' m 'in' k" := (obind m (fun x => k))
  (at level 10, x pattern, m at level 100, k at level 200).

(** [try: m except Exception: h] for a computation without state. *)
Definition otry {A} (m : outcome A) (h : exn → outcome A) : outcome A :=
  match m with
  | Return a => Return a
  | Raise e => h e
  end.

(** Computations of a method that reads and mutates attributes of [self]:
    the state [St] is threaded, and a raised exception keeps the state
    reached when it was raised. *)
Definition M (St A : Type) : Type := St → outcome A * St.

Definition mret {St A} (a : A) : M St A := fun s => (Return a, s).
Definition mraise {St A} (e : exn) : M St A := fun s => (Raise e, s).
Definition mlift {St A} (o : outcome A) : M St A := fun s => (o, s).
Definition mget {St} : M St St := fun s => (Return s, s).
Definition mput {St} (s' : St) : M St unit := fun _ => (Return tt, s').

Definition mbind {St A B} (m : M St A) (k : A → M St B) : M St B :=
  fun s =>
    match m s with
    | (Return a, s') => k a s'
    | (Raise e, s') => (Raise e, s')
    end.

Notation "'do!' x ':=' m 'in' k" := (mbind m (fun x => k))
  (at level 10, x pattern, m at level 100, k at level 200).

(** [try: m except Exception: h]; the handler runs in the state the body
    left behind. *)
Definition mtry {St A} (m : M St A) (h : exn → M St A) : M St A :=
  fun s =>
    match m s with
    | (Return a, s') => (Return a, s')
    | (Raise e, s') => h e s'
    end.

(** ** Python values *)

(** The values stored in an article dictionary ([Dict[str, Any]]): the
    pipeline produces strings, and [None] and integers stand for what
    else a caller may put there. *)
Inductive pyval : Type :=
  | PNone
  | PStr (s : string)
  | PInt (n : Z).

Global Instance pyval_eq_dec : EqDecision pyval.
Proof. solve_decision. Defined.

(** Truth value testing: [None], the empty string and [0] are false. *)
Definition truthy (v : pyval) : bool :=
  match v with
  | PNone => false
  | PStr s => negb (String.eqb s "")
  | PInt n => negb (n =? 0)
  end.

(** [x == y] on these values is structural equality. *)
Definition py_eqb (x y : pyval) : bool := bool_decide (x = y).

(** Characters that [str.strip()] removes (the ASCII ones). *)
Definition is_space (c : ascii) : bool :=
  let n := Z.of_nat (nat_of_ascii c) in
  ((9 <=? n) && (n <=? 13)) || ((28 <=? n) && (n <=? 32)).

Fixpoint lstrip (s : string) : string :=
  match s with
  | String c s' => if is_space c then lstrip s' else s
  | EmptyString => EmptyString
  end.

Definition rev_string (s : string) : string :=
  string_of_list_ascii (rev (list_ascii_of_string s)).

(** [s.strip()] *)
Definition strip (s : string) : string :=
  rev_string (lstrip (rev_string (lstrip s))).

(** [s.replace("Z", "+00:00")] *)
Fixpoint replace_Z (s : string) : string :=
  match s with
  | String c s' =>
      if Ascii.eqb c "Z"%char then String.append "+00:00" (replace_Z s')
      else String c (replace_Z s')
  | EmptyString => EmptyString
  end.

(** [l[:k]] for a Python integer [k]: a negative [k] counts from the end. *)
Definition slice_to {A} (l : list A) (k : Z) : list A :=
  if 0 <=? k then take (Z.to_nat k) l
  else take (Z.to_nat (Z.of_nat (length l) + k)) l.

(** ** [datetime] *)

(** A [datetime.datetime]: its calendar fields and, when it is aware, the
    UTC offset of its fixed-offset [timezone] in microseconds. *)
Record datetime : Type := mk_datetime {
  year : Z;
  month : Z;
  day : Z;
  hour : Z;
  minute : Z;
  second : Z;
  microsecond : Z;
  tzinfo : option Z
}.

Global Instance datetime_eq_dec : EqDecision datetime.
Proof. solve_decision. Defined.

(** [timezone.utc] *)
Definition utc : Z := 0.

(** [dt.replace(tzinfo=tz)]: the fields stay, only the zone changes. *)
Definition replace_tzinfo (dt : datetime) (tz : option Z) : datetime :=
  mk_datetime (year dt) (month dt) (day dt) (hour dt) (minute dt)
    (second dt) (microsecond dt) tz.

Definition dt_key (dt : datetime) : list Z :=
  [year dt; month dt; day dt; hour dt; minute dt; second dt; microsecond dt].

Fixpoint lex_ltb (a b : list Z) : bool :=
  match a, b with
  | x :: a', y :: b' => (x <? y) || ((x =? y) && lex_ltb a' b')
  | [], _ :: _ => true
  | _, [] => false
  end.

(** [a < b] and [a > b] between two naive datetimes: the field tuples are
    compared lexicographically.  Every comparison of the modelled code is
    between naive values. *)
Definition dt_ltb (a b : datetime) : bool := lex_ltb (dt_key a) (dt_key b).
Definition dt_gtb (a b : datetime) : bool := dt_ltb b a.

(** The proleptic Gregorian calendar of the [datetime] module. *)
Definition is_leap (y : Z) : bool :=
  (y mod 4 =? 0) && (negb (y mod 100 =? 0) || (y mod 400 =? 0)).

Definition days_before_year (y : Z) : Z :=
  let p := y - 1 in p * 365 + p / 4 - p / 100 + p / 400.

Definition DAYS_IN_MONTH : list Z :=
  [31; 28; 31; 30; 31; 30; 31; 31; 30; 31; 30; 31].
Definition DAYS_BEFORE_MONTH : list Z :=
  [0; 31; 59; 90; 120; 151; 181; 212; 243; 273; 304; 334].

Definition days_in_month (y m : Z) : Z :=
  if (m =? 2) && is_leap y then 29
  else nth (Z.to_nat (m - 1)) DAYS_IN_MONTH 0.

Definition days_before_month (y m : Z) : Z :=
  nth (Z.to_nat (m - 1)) DAYS_BEFORE_MONTH 0
  + (if (2 <? m) && is_leap y then 1 else 0).

(** [date(y, m, d).toordinal()]: 1 for 0001-01-01. *)
Definition ymd2ord (y m d : Z) : Z :=
  days_before_year y + days_before_month y m + d.

Definition DI400Y : Z := 146097.
Definition DI100Y : Z := 36524.
Definition DI4Y : Z := 1461.

(** The inverse of [ymd2ord], as [datetime._ord2ymd] computes it. *)
Definition ord2ymd (ord : Z) : Z * Z * Z :=
  let n := ord - 1 in
  let n400 := n / DI400Y in
  let n := n mod DI400Y in
  let n100 := n / DI100Y in
  let n := n mod DI100Y in
  let n4 := n / DI4Y in
  let n := n mod DI4Y in
  let n1 := n / 365 in
  let n := n mod 365 in
  let y := n400 * 400 + 1 + n100 * 100 + n4 * 4 + n1 in
  if (n1 =? 4) || (n100 =? 4) then (y - 1, 12, 31)
  else
    let leapyear := (n1 =? 3) && (negb (n4 =? 24) || (n100 =? 3)) in
    let m := Z.shiftr (n + 50) 5 in
    let preceding :=
      nth (Z.to_nat (m - 1)) DAYS_BEFORE_MONTH 0
      + (if (2 <? m) && leapyear then 1 else 0) in
    if n <? preceding then
      let m' := m - 1 in
      let preceding' :=
        preceding
        - (nth (Z.to_nat (m' - 1)) DAYS_IN_MONTH 0
           + (if (m' =? 2) && leapyear then 1 else 0)) in
      (y, m', n - preceding' + 1)
    else (y, m, n - preceding + 1).

(** The month and the day that [ord2ymd] finds for the day [n] of a
    year, counted from 0, [leapyear] telling whether the year is leap. *)
Definition month_day (leapyear : bool) (n : Z) : Z * Z :=
  let m := Z.shiftr (n + 50) 5 in
  let preceding :=
    nth (Z.to_nat (m - 1)) DAYS_BEFORE_MONTH 0
    + (if (2 <? m) && leapyear then 1 else 0) in
  if n <? preceding then
    let m' := m - 1 in
    let preceding' :=
      preceding
      - (nth (Z.to_nat (m' - 1)) DAYS_IN_MONTH 0
         + (if (m' =? 2) && leapyear then 1 else 0)) in
    (m', n - preceding' + 1)
  else (m, n - preceding + 1).

(** The check of one entry of that table: the month and the day are in
    range and lie [n] days after the first of January. *)
Definition month_day_ok (leapyear : bool) (n : Z) : bool :=
  let '(m, d) := month_day leapyear n in
  (1 <=? m) && (m <=? 12) && (1 <=? d)
  && (d <=? (if (m =? 2) && leapyear then 29
             else nth (Z.to_nat (m - 1)) DAYS_IN_MONTH 0))
  && (nth (Z.to_nat (m - 1)) DAYS_BEFORE_MONTH 0
      + (if (2 <? m) && leapyear then 1 else 0) + d =? n + 1).

Definition US_PER_SECOND : Z := 1000000.
Definition US_PER_DAY : Z := 86400 * US_PER_SECOND.

(** [date.max.toordinal()]: the ordinal of 9999-12-31. *)
Definition MAXORDINAL : Z := 3652059.

(** Microseconds of the wall-clock fields since 0001-01-01T00:00:00. *)
Definition to_us (dt : datetime) : Z :=
  (ymd2ord (year dt) (month dt) (day dt) - 1) * US_PER_DAY
  + ((hour dt * 60 + minute dt) * 60 + second dt) * US_PER_SECOND
  + microsecond dt.

Definition of_us (u : Z) (tz : option Z) : datetime :=
  let '(y, m, d) := ord2ymd (u / US_PER_DAY + 1) in
  let r := u mod US_PER_DAY in
  let secs := r / US_PER_SECOND in
  mk_datetime y m d (secs / 3600) (secs / 60 mod 60) (secs mod 60)
    (r mod US_PER_SECOND) tz.

(** The ranges of the fields that the constructor of [datetime]
    enforces. *)
Definition valid_datetime (dt : datetime) : Prop :=
  1 ≤ year dt ≤ 9999
  ∧ 1 ≤ month dt ≤ 12
  ∧ 1 ≤ day dt ≤ days_in_month (year dt) (month dt)
  ∧ 0 ≤ hour dt ≤ 23
  ∧ 0 ≤ minute dt ≤ 59
  ∧ 0 ≤ second dt ≤ 59
  ∧ 0 ≤ microsecond dt ≤ 999999.

(** What strictly greater means for two timestamps, written without the
    comparison of the code: [a] is strictly later than [b] when the first
    field in which they differ, from the year down to the microsecond, is
    greater in [a]. *)
Definition strictly_later (a b : datetime) : Prop :=
  year b < year a
  ∨ year a = year b
    ∧ (month b < month a
       ∨ month a = month b
         ∧ (day b < day a
            ∨ day a = day b
              ∧ (hour b < hour a
                 ∨ hour a = hour b
                   ∧ (minute b < minute a
                      ∨ minute a = minute b
                        ∧ (second b < second a
                           ∨ second a = second b
                             ∧ microsecond b < microsecond a))))).

(** The instant a datetime stands for, in microseconds of UTC since
    0001-01-01T00:00:00: the wall-clock time less the offset of the zone,
    a naive value being taken as UTC. *)
Definition utc_instant (dt : datetime) : Z :=
  to_us dt - match tzinfo dt with Some off => off | None => 0 end.

(** [dt + delta] for a [timedelta] of [delta] microseconds: the result has
    to lie between [datetime.min] and [datetime.max], otherwise
    [OverflowError: date value out of range] is raised. *)
Definition add_timedelta (dt : datetime) (delta : Z) : outcome datetime :=
  let u := to_us dt + delta in
  if (0 <=? u) && (u <? MAXORDINAL * US_PER_DAY)
  then Return (of_us u (tzinfo dt))
  else Raise OverflowError.

(** [dt.astimezone(timezone.utc)] for an aware [dt] of UTC offset [off]:
    [dt - off], re-labelled as UTC. *)
Definition astimezone_utc (dt : datetime) (off : Z) : outcome datetime :=
  let! r := add_timedelta dt (- off) in
  Return (replace_tzinfo r (Some utc)).

(** ** [collections.deque] *)

(** A [deque(maxlen=...)]: the elements from left (oldest) to right, and
    the bound, [None] for an unbounded deque. *)
Record deque : Type := mk_deque {
  items : list pyval;
  maxlen : option nat
}.

(** The range of [Py_ssize_t] on a 64-bit build of CPython:
    [sys.maxsize] is [2**63 - 1]. *)
Definition PY_SSIZE_T_MAX : Z := 2 ^ 63 - 1.
Definition PY_SSIZE_T_MIN : Z := - 2 ^ 63.

(** [deque(maxlen=n)] for an [int] or [None]: the constructor converts
    [n] with [PyLong_AsSsize_t], which raises [OverflowError: Python int
    too large to convert to C ssize_t] outside the range of [Py_ssize_t];
    a negative [n] in that range then raises
    [ValueError: maxlen must be non-negative]. *)
Definition deque_new (n : option Z) : outcome deque :=
  match n with
  | None => Return (mk_deque [] None)
  | Some k =>
      if (k <? PY_SSIZE_T_MIN) || (PY_SSIZE_T_MAX <? k) then Raise OverflowError
      else if k <? 0 then Raise ValueError
      else Return (mk_deque [] (Some (Z.to_nat k)))
  end.

(** [x in d] *)
Definition deque_contains (d : deque) (x : pyval) : bool :=
  existsb (py_eqb x) (items d).

(** [d.append(x)]: [x] is added on the right and, when the bound is then
    exceeded, one element is dropped from the left. *)
Definition deque_append (d : deque) (x : pyval) : deque :=
  let l := (items d ++ [x])%list in
  match maxlen d with
  | None => mk_deque l None
  | Some m =>
      if (m <? length l)%nat then mk_deque (drop 1 l) (Some m)
      else mk_deque l (Some m)
  end.

(** ** Reference instances of the date functions of the standard library

    [datetime.strptime], [datetime.fromisoformat] and [datetime.isoformat]
    are parameters of the model below.  The instances here cover the
    numeric formats with two-digit fields (four digits for the year); on a
    string they accept they return what Python returns, and they reject
    every other string.  They serve to run the model on concrete inputs. *)

Definition digit_of (c : ascii) : option Z :=
  let n := Z.of_nat (nat_of_ascii c) in
  if (48 <=? n) && (n <=? 57) then Some (n - 48) else None.

(** Exactly [n] decimal digits at the front of [s]. *)
Fixpoint read_digits (n : nat) (acc : Z) (s : string) : option (Z * string) :=
  match n with
  | O => Some (acc, s)
  | S n' =>
      match s with
      | String c s' => d ← digit_of c; read_digits n' (acc * 10 + d) s'
      | EmptyString => None
      end
  end.

Definition read_char (c : ascii) (s : string) : option string :=
  match s with
  | String c' s' => if Ascii.eqb c c' then Some s' else None
  | EmptyString => None
  end.

(** [YYYY-MM-DD<sep>HH:MM:SS] with the checks of the [datetime]
    constructor; the rest of the string is returned. *)
Definition read_date_time (sep : ascii) (s : string)
  : option (datetime * string) :=
  '(y, s) ← read_digits 4 0 s;
  s ← read_char "-" s;
  '(m, s) ← read_digits 2 0 s;
  s ← read_char "-" s;
  '(d, s) ← read_digits 2 0 s;
  s ← read_char sep s;
  '(H, s) ← read_digits 2 0 s;
  s ← read_char ":" s;
  '(Mi, s) ← read_digits 2 0 s;
  s ← read_char ":" s;
  '(Se, s) ← read_digits 2 0 s;
  if (1 <=? y) && (1 <=? m) && (m <=? 12) && (1 <=? d)
     && (d <=? days_in_month y m) && (H <=? 23) && (Mi <=? 59) && (Se <=? 59)
  then Some (mk_datetime y m d H Mi Se 0 None, s)
  else None.

(** A UTC offset [+HH:MM], [-HH:MM], [+HHMM] or [-HHMM], in microseconds. *)
Definition read_offset (colon_optional : bool) (s : string)
  : option (Z * string) :=
  match s with
  | String c s =>
      sign ← (if Ascii.eqb c "+" then Some 1
              else if Ascii.eqb c "-" then Some (-1) else None);
      '(hh, s) ← read_digits 2 0 s;
      s ← (match read_char ":" s with
           | Some s' => Some s'
           | None => if colon_optional then Some s else None
           end);
      '(mm, s) ← read_digits 2 0 s;
      if (hh <=? 23) && (mm <=? 59)
      then Some (sign * ((hh * 60 + mm) * 60 * US_PER_SECOND), s)
      else None
  | EmptyString => None
  end.

Definition at_end {A} (r : A * string) : option A :=
  if String.eqb (snd r) "" then Some (fst r) else None.

(** [datetime.strptime(s, fmt)]; [None] stands for [ValueError]. *)
Definition strptime_ref (s fmt : string) : option datetime :=
  if String.eqb fmt "%Y-%m-%dT%H:%M:%SZ" then
    '(dt, s) ← read_date_time "T" s;
    s ← read_char "Z" s;
    at_end (dt, s)
  else if String.eqb fmt "%Y-%m-%dT%H:%M:%S%z" then
    '(dt, s) ← read_date_time "T" s;
    match read_char "Z" s with
    | Some s' => at_end (replace_tzinfo dt (Some utc), s')
    | None =>
        '(off, s) ← read_offset true s;
        at_end (replace_tzinfo dt (Some off), s)
    end
  else if String.eqb fmt "%Y-%m-%d %H:%M:%S" then
    r ← read_date_time " " s;
    at_end r
  else None.

(** [datetime.fromisoformat(s)]; [None] stands for [ValueError]. *)
Definition fromisoformat_ref (s : string) : option datetime :=
  '(dt, s) ← read_date_time "T" s;
  '(us, s) ← (match read_char "." s with
              | Some s' => read_digits 6 0 s'
              | None => Some (0, s)
              end);
  let dt := mk_datetime (year dt) (month dt) (day dt) (hour dt) (minute dt)
              (second dt) us None in
  if String.eqb s "" then Some dt
  else
    '(off, s) ← read_offset false s;
    at_end (replace_tzinfo dt (Some off), s).

Fixpoint show_digits (n : nat) (v : Z) (acc : string) : string :=
  match n with
  | O => acc
  | S n' =>
      show_digits n' (v / 10)
        (String (ascii_of_nat (Z.to_nat (48 + v mod 10))) acc)
  end.

(** [dt.isoformat()] of a naive [dt]. *)
Definition isoformat_ref (dt : datetime) : string :=
  show_digits 4 (year dt)
    (String "-" (show_digits 2 (month dt)
    (String "-" (show_digits 2 (day dt)
    (String "T" (show_digits 2 (hour dt)
    (String ":" (show_digits 2 (minute dt)
    (String ":" (show_digits 2 (second dt)
    (if microsecond dt =? 0 then ""
     else String "." (show_digits 6 (microsecond dt) "")))))))))))).

(** ** Reference instances for the configuration

    [urlparse] and the pattern of [re.match] are parameters too.  The
    instances cover URLs of the form [scheme://host/...] and follow the
    pattern of the source for the addresses. *)

Definition is_letter (c : ascii) : bool :=
  let n := Z.of_nat (nat_of_ascii c) in
  ((65 <=? n) && (n <=? 90)) || ((97 <=? n) && (n <=? 122)).

Definition is_digit (c : ascii) : bool :=
  let n := Z.of_nat (nat_of_ascii c) in (48 <=? n) && (n <=? 57).

Definition all_chars (P : ascii → bool) (s : string) : bool :=
  forallb P (list_ascii_of_string s).

(** The part of [s] before the first character [c], and the rest after
    it; [None] when [c] does not occur. *)
Fixpoint split_at (c : ascii) (s : string) : option (string * string) :=
  match s with
  | EmptyString => None
  | String c' s' =>
      if Ascii.eqb c' c then Some (EmptyString, s')
      else '(l, r) ← split_at c s'; Some (String c' l, r)
  end.

(** The same for the last occurrence of [c]. *)
Definition rsplit_at (c : ascii) (s : string) : option (string * string) :=
  '(r, l) ← split_at c (rev_string s); Some (rev_string l, rev_string r).

(** [^[a-zA-Z0-9._%+-]+@[a-zA-Z0-9.-]+\.[a-zA-Z]{2,}$] on a string
    without a newline. *)
Definition email_matches_ref (s : string) : bool :=
  match split_at "@" s with
  | None => false
  | Some (local_part, domain) =>
      negb (String.eqb local_part "")
      && all_chars (λ c, is_letter c || is_digit c
                         || existsb (Ascii.eqb c)
                              ["."; "_"; "%"; "+"; "-"]%char) local_part
      && match rsplit_at "." domain with
         | None => false
         | Some (host, tld) =>
             negb (String.eqb host "")
             && all_chars (λ c, is_letter c || is_digit c
                                || existsb (Ascii.eqb c) ["."; "-"]%char)
                  host
             && (2 <=? String.length tld)%nat
             && all_chars is_letter tld
         end
  end.

(** [urlparse] on [scheme://host/path]: the scheme and the host. *)
Definition urlparse_ref (url : string) : outcome (string * string) :=
  match split_at ":" url with
  | Some (scheme, String "/" (String "/" rest)) =>
      if negb (String.eqb scheme "") && all_chars is_letter scheme
      then
        match split_at "/" rest with
        | Some (host, _) => Return (scheme, host)
        | None => Return (scheme, rest)
        end
      else Return (EmptyString, EmptyString)
  | _ => Return (EmptyString, EmptyString)
  end.

(** ** Reference instance of [croniter]

    The third-party [croniter] is a parameter of the model as well.  This
    instance covers expressions of five fields, each [*] or one number;
    it rejects every other expression, and gives up after fifty years
    like the library. *)

(** [s.split()]: the maximal runs of non-space characters. *)
Fixpoint split_ws (s : string) (cur : string) : list string :=
  match s with
  | EmptyString => if String.eqb cur "" then [] else [rev_string cur]
  | String c s' =>
      if is_space c
      then (if String.eqb cur "" then split_ws s' ""
            else rev_string cur :: split_ws s' "")
      else split_ws s' (String c cur)
  end.

Fixpoint read_number (s : string) (acc : Z) : option Z :=
  match s with
  | EmptyString => Some acc
  | String c s' => d ← digit_of c; read_number s' (acc * 10 + d)
  end.

(** One field: [None] for [*], [Some n] for the number [n] within
    [lo..hi]. *)
Definition cron_field (lo hi : Z) (s : string) : option (option Z) :=
  if String.eqb s "*" then Some None
  else if String.eqb s "" then None
  else
    n ← read_number s 0;
    if (lo <=? n) && (n <=? hi) then Some (Some n) else None.

Record cron_spec : Type := mk_cron_spec {
  cron_minute : option Z;
  cron_hour : option Z;
  cron_dom : option Z;
  cron_month : option Z;
  cron_dow : option Z
}.

Definition cron_parse (expr : string) : option cron_spec :=
  match split_ws expr "" with
  | [mi; h; dom; mon; dow] =>
      mi ← cron_field 0 59 mi;
      h ← cron_field 0 23 h;
      dom ← cron_field 1 31 dom;
      mon ← cron_field 1 12 mon;
      dow ← cron_field 0 7 dow;
      Some (mk_cron_spec mi h dom mon ((λ n, n mod 7) <$> dow))
  | _ => None
  end.

(** [croniter(expr, start)] checks the expression; a bad one raises
    [CroniterBadCronError], a [ValueError]. *)
Definition croniter_check_ref (expr : string) : outcome unit :=
  match cron_parse expr with
  | Some _ => Return tt
  | None => Raise ValueError
  end.

Definition field_matches (f : option Z) (v : Z) : bool :=
  match f with
  | None => true
  | Some n => n =? v
  end.

(** Whether the schedule fires on the day of ordinal [ord]: when both the
    day of month and the day of week are given, either may match. *)
Definition cron_day_matches (c : cron_spec) (ord : Z) : bool :=
  let '(y, m, d) := ord2ymd ord in
  let dow := ord mod 7 in
  field_matches (cron_month c) m
  && match cron_dom c, cron_dow c with
     | Some dm, Some dw => (dm =? d) || (dw =? dow)
     | _, _ => field_matches (cron_dom c) d && field_matches (cron_dow c) dow
     end.

(** The first minute of the day, not before minute [from], at which the
    schedule fires. *)
Definition cron_first_minute (c : cron_spec) (from : Z) : option Z :=
  find (λ k, (from <=? k) && field_matches (cron_hour c) (k / 60)
             && field_matches (cron_minute c) (k mod 60))
       (Z.of_nat <$> seq 0 1440).

Fixpoint cron_search (c : cron_spec) (days : nat) (ord from : Z)
  : option datetime :=
  match days with
  | O => None
  | S days' =>
      let here :=
        if (ord <=? MAXORDINAL) && cron_day_matches c ord
        then cron_first_minute c from else None in
      match here with
      | Some k =>
          let '(y, m, d) := ord2ymd ord in
          Some (mk_datetime y m d (k / 60) (k mod 60) 0 0 None)
      | None => cron_search c days' (ord + 1) 0
      end
  end.

(** [get_next(datetime)] from the current time [cur]: the first minute
    strictly after [cur] at which [expr] fires. *)
Definition croniter_next_ref (expr : string) (cur : datetime)
  : outcome datetime :=
  match cron_parse expr with
  | None => Raise ValueError
  | Some c =>
      let ord := ymd2ord (year cur) (month cur) (day cur) in
      let from := hour cur * 60 + minute cur + 1 in
      match cron_search c (Z.to_nat (50 * 366)) ord from with
      | Some t => Return (replace_tzinfo t (tzinfo cur))
      | None => Raise ValueError
      end
  end.

(** ** The model of the source *)

(** An article: the [Dict[str, Any]] built by [_content_feed_to_articles]. *)
Abbreviation article := (gmap string pyval).

(** [a.get(key, default)] *)
Definition dict_get (a : article) (key : string) (default : pyval) : pyval :=
  match a !! key with
  | Some v => v
  | None => default
  end.

(** [article.get("link", "")] and [article.get("pubDate", "")] *)
Abbreviation link_of a := (dict_get a "link" (PStr "")).
Abbreviation pubDate_of a := (dict_get a "pubDate" (PStr "")).

(** [yomu/content/schema.py] *)
Record ContentItem : Type := mk_ContentItem {
  item_title : string;
  item_link : string;
  item_description : string;
  item_pubDate : string
}.

Record ContentChannel : Type := mk_ContentChannel {
  channel_title : string;
  channel_link : string;
  channel_description : string
}.

Record ContentFeed : Type := mk_ContentFeed {
  channel : ContentChannel;
  feed_items : list ContentItem
}.

(** [x or y] on strings *)
Definition str_or (x y : string) : string :=
  if String.eqb x "" then y else x.

(** The table [source_metadata]: a row per URL, whose column
    [last_successful_run] is a text or [NULL]. *)
Abbreviation database := (gmap string (option string)).

(** What a [ContentProcessor] owns and mutates. *)
Record processor : Type := mk_processor {
  non_dated_processed_urls : deque;
  source_metadata : database
}.

(** Runs a computation on the deque inside the processor. *)
Definition on_deque {A} (m : M deque A) : M processor A :=
  fun p =>
    let '(r, d) := m (non_dated_processed_urls p) in
    (r, mk_processor d (source_metadata p)).

(** One entry of the dictionary of the newsletter service. *)
Record source_entry : Type := mk_source_entry {
  entry_url : string;
  entry_articles : list article
}.

(** [d[key] = value] on a dictionary kept in insertion order: an existing
    key keeps its place and gets the new value. *)
Fixpoint dict_set (d : list (pyval * source_entry)) (key : pyval)
    (value : source_entry) : list (pyval * source_entry) :=
  match d with
  | [] => [(key, value)]
  | (k, v) :: d' =>
      if py_eqb k key then (k, value) :: d'
      else (k, v) :: dict_set d' key value
  end.

(** [d.get(key)] *)
Fixpoint dict_lookup (d : list (pyval * source_entry)) (key : pyval)
  : option source_entry :=
  match d with
  | [] => None
  | (k, v) :: d' => if py_eqb k key then Some v else dict_lookup d' key
  end.

(** A [croniter] iterator: its expression and its current time. *)
Record croniter : Type := mk_croniter {
  cron_expr : string;
  cron_cur : datetime
}.

(** [min(l)]: the first of the least elements; [ValueError] on an empty
    list. *)
Definition py_min (l : list datetime) : outcome datetime :=
  match l with
  | [] => Raise ValueError
  | x :: xs => Return (fold_left (λ m y, if dt_ltb y m then y else m) xs x)
  end.

(** ** Strings, as [truncate_description] uses them *)

(** The first [n] characters of [s]. *)
Fixpoint str_take (n : nat) (s : string) : string :=
  match n, s with
  | S n', String c s' => String c (str_take n' s')
  | _, _ => EmptyString
  end.

(** [s[:k]]: a negative [k] counts from the end. *)
Definition str_slice_to (s : string) (k : Z) : string :=
  if 0 <=? k then str_take (Z.to_nat k) s
  else str_take (Z.to_nat (Z.of_nat (String.length s) + k)) s.

Fixpoint rfind_from (c : ascii) (s : string) (i last : Z) : Z :=
  match s with
  | EmptyString => last
  | String c' s' => rfind_from c s' (i + 1) (if Ascii.eqb c' c then i else last)
  end.

(** [s.rfind(c)] for a single character [c]: the highest index at which
    [c] occurs, [-1] when it does not occur. *)
Definition rfind (s : string) (c : ascii) : Z := rfind_from c s 0 (-1).

(** [truncate_description] of [yomu/utils.py]. *)
Definition truncate_description (text : string) (max_length : Z) : string :=
  if String.eqb text "" then ""
  else if max_length <=? 0 then ""
  else if Z.of_nat (String.length text) <=? max_length then text
  else
    let ellipsis := "..." in
    if max_length <=? 3
    then (if 0 <? max_length then str_slice_to ellipsis max_length else "")
    else
      let available_length := max_length - Z.of_nat (String.length ellipsis) in
      let truncated := str_slice_to text available_length in
      let last_space := rfind truncated " " in
      let truncated :=
        if 0 <? last_space then str_slice_to truncated last_space
        else truncated in
      let truncated :=
        if Z.of_nat (String.length truncated) =? 0
        then str_slice_to text available_length
        else truncated in
      String.append truncated ellipsis.

(** ** The SMTP connection of [yomu/email/sender.py] *)

(** The calls that [send_email] makes on [smtplib]. *)
Inductive smtp_call : Type :=
  | SmtpConnect (server : string) (port : Z)
  | SmtpStartTLS
  | SmtpLogin (user password : string)
  | SmtpSendMessage (sender recipient subject body : string)
  | SmtpQuit.

(** What the mail server answers to each of them: it returns or raises. *)
Record smtp_server : Type := mk_smtp_server {
  smtp_connect : outcome unit;
  smtp_starttls : outcome unit;
  smtp_login : outcome unit;
  smtp_send_message : outcome unit;
  smtp_quit : outcome unit
}.

(** An [EmailSender]: the fields its constructor copies from the
    configuration. *)
Record EmailSender : Type := mk_EmailSender {
  sender_email : string;
  sender_password : string;
  sender_smtp_server : string;
  sender_smtp_port : Z
}.

(** One call: it is added to the log of calls made, and the answer of the
    server is its result. *)
Definition smtp_do (c : smtp_call) (answer : outcome unit)
  : M (list smtp_call) unit :=
  fun log => (answer, (log ++ [c])%list).

(** [try: m finally: fin]: [fin] runs whatever [m] did, and an exception
    of [fin] replaces the result of [m]. *)
Definition mfinally {St A} (m : M St A) (fin : M St unit) : M St A :=
  fun s =>
    let '(r, s') := m s in
    match fin s' with
    | (Return _, s'') => (r, s'')
    | (Raise e, s'') => (Raise e, s'')
    end.

(** [EmailSender.send_email]: [server] stays [None] when the connection
    cannot be made, and the [finally] clause then has nothing to quit.
    Building the message is not modelled as a source of errors. *)
Definition send_email (self : EmailSender) (net : smtp_server)
    (to_email subject body : string) : M (list smtp_call) unit :=
  fun log =>
    match smtp_do (SmtpConnect (sender_smtp_server self)
                     (sender_smtp_port self)) (smtp_connect net) log with
    | (Raise e, log') => (Raise e, log')
    | (Return _, log') =>
        mfinally
          (do! _ := smtp_do SmtpStartTLS (smtp_starttls net) in
           do! _ := smtp_do (SmtpLogin (sender_email self)
                               (sender_password self)) (smtp_login net) in
           smtp_do (SmtpSendMessage (sender_email self) to_email subject body)
             (smtp_send_message net))
          (smtp_do SmtpQuit (smtp_quit net))
          log'
    end.

(** ** The configuration of [yomu/config/config.py] *)

(** The fields of [Config]. *)
Record Config : Type := mk_Config {
  openrouter_api_key : string;
  cfg_sender_email : string;
  cfg_sender_password : string;
  cfg_smtp_server : string;
  cfg_smtp_port : Z;
  cookie_file_path : string;
  recipient_email : string;
  cfg_sources : list string;
  cfg_frequencies : list string;
  max_articles_per_source : Z;
  max_description_length : Z
}.

(** ** Concrete data for running the model *)

Definition saturday_0700 : datetime := mk_datetime 2024 1 6 7 0 0 0 None.
Definition saturday_0800 : datetime := mk_datetime 2024 1 6 8 0 0 0 None.
Definition sunday_0900 : datetime := mk_datetime 2024 1 7 9 0 0 0 None.

(** The deque of a processor that was just constructed. *)
Definition empty_cache (C : nat) : deque := mk_deque [] (Some C).

Definition mk_article (link pubDate : pyval) : article :=
  {[ "link" := link; "pubDate" := pubDate ]}.

(** Published after the last run below. *)
Definition art_new : article :=
  mk_article (PStr "https://example.com/new") (PStr "2024-01-02T10:00:00Z").

(** Two o'clock in a zone five hours ahead of UTC: the evening before
    in UTC. *)
Definition art_zoned : article :=
  mk_article (PStr "https://example.com/zoned")
    (PStr "2024-01-01T02:00:00+05:00").

(** No date at all. *)
Definition art_undated : article :=
  mk_article (PStr "https://example.com/undated") (PStr "").

(** The first instant of year 1 in a zone five hours ahead of UTC: the
    same instant in UTC lies before [datetime.min]. *)
Definition art_year_one : article :=
  mk_article (PStr "https://example.com/old")
    (PStr "0001-01-01T00:00:00+05:00").

(** The same date on an article without a link. *)
Definition art_year_one_no_link : article :=
  mk_article (PStr "") (PStr "0001-01-01T00:00:00+05:00").

(** Two o'clock in a zone five hours behind UTC: seven o'clock in UTC. *)
Definition art_west : article :=
  mk_article (PStr "https://example.com/west")
    (PStr "2024-01-01T02:00:00-05:00").

(** Published at the very instant of the last run below. *)
Definition art_tie : article :=
  mk_article (PStr "https://example.com/tie") (PStr "2024-01-01T00:00:00Z").

(** A date that is not a string. *)
Definition art_int_date : article :=
  mk_article (PStr "https://example.com/int") (PInt 20240101).

Definition art_no_link : article := mk_article (PStr "") (PStr "").

Definition last_run_2024 : string := "2024-01-01T00:00:00".

Definition item_n (n : string) : ContentItem :=
  mk_ContentItem (String.append "Title " n)
    (String.append "https://example.com/" n) "" "".

Definition feed_of (title : string) (names : list string) : ContentFeed :=
  mk_ContentFeed (mk_ContentChannel title "" "") (map item_n names).

Definition feed_a_url : string := "https://a.example/feed".
Definition feed_b_url : string := "https://b.example/feed".
Definition feed_a : ContentFeed := feed_of "Blog" ["1"; "2"; "3"; "4"].
Definition feed_b : ContentFeed := feed_of "Blog" ["5"].

Definition fresh_processor : processor :=
  mk_processor (empty_cache 1000) ∅.

Definition noon_utc : datetime := mk_datetime 2024 1 6 12 0 0 0 (Some utc).

(** A mail server that answers every call, and one that refuses the
    login. *)
Definition smtp_ok : smtp_server :=
  mk_smtp_server (Return tt) (Return tt) (Return tt) (Return tt) (Return tt).
Definition smtp_bad_login : smtp_server :=
  mk_smtp_server (Return tt) (Return tt) (Raise ValueError) (Return tt)
    (Return tt).

Definition a_sender : EmailSender :=
  mk_EmailSender "yomu@example.com" "secret" "smtp.example.com" 587.

Definition a_config : Config :=
  mk_Config "sk-key" "yomu@example.com" "secret" "smtp.example.com" 587 ""
    "reader@example.org" ["https://a.example/feed"]
    ["0 8 * * *"; "0 9 * * 0"] 3 200.

Definition dated_item (n date : string) : ContentItem :=
  mk_ContentItem (String.append "Title " n)
    (String.append "https://example.com/" n) "" date.

(** A feed with an article of the fifth and one of the seventh of
    January 2024. *)
Definition feed_dated : ContentFeed :=
  mk_ContentFeed (mk_ContentChannel "Blog" "" "")
    [dated_item "5" "2024-01-05T10:00:00Z";
     dated_item "7" "2024-01-07T10:00:00Z"].

Definition later_utc : datetime := mk_datetime 2024 1 8 12 0 0 0 (Some utc).

(** An expression that is valid and never fires. *)
Definition cron_never : string := "0 0 31 2 *".

Section Model.

(** The library functions the code calls.  For [strptime] and
    [fromisoformat], [None] stands for the [ValueError] they raise on a
    string they do not accept. *)
Variable strptime : string → string → option datetime.
Variable fromisoformat : string → option datetime.
Variable isoformat : datetime → string.
(** [croniter(expr, start)] checks [expr]; [get_next] computes the next
    time after the current one and may fail to find any. *)
Variable croniter_check : string → outcome unit.
Variable croniter_next : string → datetime → outcome datetime.

(** *** [yomu/utils.py] *)

Definition COMMON_DATE_FORMATS : list string :=
  [ "%a, %d %b %Y %H:%M:%S %Z";
    "%a, %d %b %Y %H:%M:%S %z";
    "%Y-%m-%dT%H:%M:%SZ";
    "%Y-%m-%dT%H:%M:%S%z";
    "%Y-%m-%d %H:%M:%S" ].

(** The loop of [_parse_date_string]: the first format that parses
    wins. *)
Fixpoint first_format (date_str : string) (fmts : list string)
  : option datetime :=
  match fmts with
  | [] => None
  | fmt :: fmts' =>
      match strptime date_str fmt with
      | Some dt => Some dt
      | None => first_format date_str fmts'
      end
  end.

Definition _parse_date_string (date_str : string) : option datetime :=
  match first_format date_str COMMON_DATE_FORMATS with
  | Some dt => Some dt
  | None => fromisoformat (replace_Z date_str)
  end.

Definition parse_iso_timestamp (timestamp_str : option string)
  : option datetime :=
  match timestamp_str with
  | None => None
  | Some s =>
      if String.eqb s "" then None
      else
        match fromisoformat s with
        | Some dt => Some (replace_tzinfo dt (Some utc))
        | None => None
        end
  end.

(** [parse_date]: a value that is not a string and not false has no
    [strip] method, so [AttributeError] is raised. *)
Definition parse_date (date_str : pyval) : outcome (option datetime) :=
  match date_str with
  | PNone => Return None
  | PStr s =>
      if String.eqb s "" then Return None
      else if String.eqb (strip s) "" then Return None
      else Return (_parse_date_string (strip s))
  | PInt n =>
      if n =? 0 then Return None else Raise AttributeError
  end.

Definition normalize_datetime_to_utc_naive (dt : datetime)
  : outcome datetime :=
  match tzinfo dt with
  | Some off =>
      let! r := astimezone_utc dt off in
      Return (replace_tzinfo r None)
  | None => Return dt
  end.

(** *** [yomu/content/processor.py] *)

(** [ContentProcessor.__init__]: the deque is created with
    [maxlen=max_fallback_urls]; the extractor and the logger, which the
    constructor also sets up, are outside the model. *)
Definition ContentProcessor_init (db : database)
    (max_fallback_urls : option Z) : outcome processor :=
  let! d := deque_new max_fallback_urls in
  Return (mk_processor d db).

(** The statement that occurs twice in the source, in
    [_should_include_article] and in the handler of
    [_filter_articles_by_timestamp]:
    [if article_url and article_url not in self.non_dated_processed_urls:
       self.non_dated_processed_urls.append(article_url)]. *)
Definition record_url (article_url : pyval) : M deque unit :=
  fun d =>
    if truthy article_url && negb (deque_contains d article_url)
    then (Return tt, deque_append d article_url)
    else (Return tt, d).

(** A sequence of such statements, one per identifier, in order. *)
Fixpoint record_all (ids : list pyval) (d : deque) : deque :=
  match ids with
  | [] => d
  | x :: rest => record_all rest (snd (record_url x d))
  end.

Definition _should_include_article (a : article)
    (last_run_utc : option datetime) : M deque bool :=
  let article_url := dict_get a "link" (PStr "") in
  let pub_date_str := dict_get a "pubDate" (PStr "") in
  do! article_date := mlift (parse_date pub_date_str) in
  match last_run_utc, article_date with
  | Some last_run, Some date =>
      do! n := mlift (normalize_datetime_to_utc_naive date) in
      mret (dt_gtb n (replace_tzinfo last_run None))
  | _, _ =>
      do! _ := match article_date with
               | None => record_url article_url
               | Some _ => mret tt
               end in
      mret true
  end.

(** An article has no parseable date when [parse_date] returns [None]
    or raises. *)
Definition undated (a : article) : Prop :=
  ∀ date, parse_date (pubDate_of a) ≠ Return (Some date).

(** An article is a cache hit when the first test of the loop of
    [_filter_articles_by_timestamp] drops it. *)
Definition cache_hit (d : deque) (a : article) : bool :=
  truthy (link_of a) && deque_contains d (link_of a).

(** The body of the loop of [_filter_articles_by_timestamp]:
    [filtered] is the list built so far. *)
Definition filter_step (last_run_utc : option datetime)
    (filtered : list article) (a : article) : M deque (list article) :=
  let article_url := dict_get a "link" (PStr "") in
  do! d := mget in
  if truthy article_url && deque_contains d article_url
  then mret filtered
  else
    mtry
      (do! include := _should_include_article a last_run_utc in
       if include then mret (filtered ++ [a])%list else mret filtered)
      (fun _ =>
         do! _ := record_url article_url in
         mret (filtered ++ [a])%list).

Fixpoint filter_loop (last_run_utc : option datetime)
    (filtered : list article) (articles : list article)
  : M deque (list article) :=
  match articles with
  | [] => mret filtered
  | a :: rest =>
      do! filtered' := filter_step last_run_utc filtered a in
      filter_loop last_run_utc filtered' rest
  end.

Definition _filter_articles_by_timestamp (articles : list article)
    (last_run_timestamp : option string) : M deque (list article) :=
  let last_run_utc := parse_iso_timestamp last_run_timestamp in
  filter_loop last_run_utc [] articles.

Definition _content_feed_to_articles (content_feed : ContentFeed)
    (source_url : string) : list article :=
  let source_title :=
    str_or (channel_title (channel content_feed)) source_url in
  map (λ item : ContentItem,
         ({[ "title" := PStr (str_or (item_title item) "No Title");
             "link" := PStr (str_or (item_link item) "");
             "description" := PStr (str_or (item_description item) "");
             "pubDate" := PStr (str_or (item_pubDate item) "");
             "source" := PStr source_title ]} : article))
      (feed_items content_feed).

(** [Database.add_source]: a row that exists is left alone. *)
Definition add_source (db : database) (url : string) : database :=
  match db !! url with
  | Some _ => db
  | None => <[url := None]> db
  end.

(** [Database.update_source_last_run]: only an existing row changes. *)
Definition update_source_last_run (db : database) (url : string)
    (timestamp : datetime) : database :=
  match db !! url with
  | Some _ => <[url := Some (isoformat timestamp)]> db
  | None => db
  end.

(** [get_source_by_url] followed by
    [existing_source.get("last_successful_run") if existing_source
     else None]. *)
Definition last_successful_run (db : database) (url : string)
  : option string :=
  match db !! url with
  | Some row => row
  | None => None
  end.

(** [process_source]: [extracted] is what the extractor answered for
    this URL, and [now_utc] is [datetime.now(timezone.utc)]. *)
Definition process_source (source_url : string)
    (extracted : outcome ContentFeed) (now_utc : datetime)
  : M processor (list article) :=
  do! content_feed := mlift extracted in
  let articles := _content_feed_to_articles content_feed source_url in
  do! p := mget in
  let last_run := last_successful_run (source_metadata p) source_url in
  do! filtered_articles :=
    on_deque (_filter_articles_by_timestamp articles last_run) in
  do! p := mget in
  do! _ := mput (mk_processor (non_dated_processed_urls p)
                  (update_source_last_run
                     (add_source (source_metadata p) source_url)
                     source_url (replace_tzinfo now_utc None))) in
  mret filtered_articles.

(** *** [yomu/newsletter/service.py] *)

(** [l[0]] *)
Definition first_item {A} (l : list A) : outcome A :=
  match l with
  | x :: _ => Return x
  | [] => Raise IndexError
  end.

(** The body of the loop of [_collect_articles_from_sources]; the
    handler logs a warning and goes on with the next source. *)
Definition collect_step (max_articles_per_source : Z)
    (articles_by_source : list (pyval * source_entry))
    (source : string * outcome ContentFeed * datetime)
  : M processor (list (pyval * source_entry)) :=
  let '(source_url, extracted, now_utc) := source in
  mtry
    (do! articles := process_source source_url extracted now_utc in
     match articles with
     | [] => mret articles_by_source
     | _ :: _ =>
         let original_count := Z.of_nat (length articles) in
         let articles := slice_to articles max_articles_per_source in
         do! _ := (if max_articles_per_source <? original_count
                   then do! _ := mlift (first_item articles) in mret tt
                   else mret tt) in
         do! first := mlift (first_item articles) in
         let source_name := dict_get first "source" (PStr source_url) in
         mret (dict_set articles_by_source source_name
                 (mk_source_entry source_url articles))
     end)
    (fun _ => mret articles_by_source).

(** [_collect_articles_from_sources]: every source comes with the answer
    of the extractor and the clock reading of its turn. *)
Fixpoint collect_loop (max_articles_per_source : Z)
    (articles_by_source : list (pyval * source_entry))
    (sources : list (string * outcome ContentFeed * datetime))
  : M processor (list (pyval * source_entry)) :=
  match sources with
  | [] => mret articles_by_source
  | source :: rest =>
      do! articles_by_source' :=
        collect_step max_articles_per_source articles_by_source source in
      collect_loop max_articles_per_source articles_by_source' rest
  end.

Definition _collect_articles_from_sources (max_articles_per_source : Z)
    (sources : list (string * outcome ContentFeed * datetime))
  : M processor (list (pyval * source_entry)) :=
  collect_loop max_articles_per_source [] sources.

(** *** [yomu/daemon/daemon.py] and [yomu/config/config.py] *)

(** [croniter(frequency, start)] *)
Definition croniter_new (frequency : string) (start : datetime)
  : outcome croniter :=
  let! _ := croniter_check frequency in
  Return (mk_croniter frequency start).

(** [cron.set_current(t)] *)
Definition set_current (c : croniter) (t : datetime) : croniter :=
  mk_croniter (cron_expr c) t.

(** [cron.get_next(datetime)]: the iterator moves to the time it
    returns. *)
Definition get_next (c : croniter) : outcome (datetime * croniter) :=
  let! t := croniter_next (cron_expr c) (cron_cur c) in
  Return (t, mk_croniter (cron_expr c) t).

(** [NewsletterDaemon.__init__]: the loop that fills [self.crons];
    [now] is [datetime.now()].  An exception leaves the constructor, so
    that no daemon exists then. *)
Fixpoint NewsletterDaemon_init_loop (crons : list croniter)
    (frequencies : list string) (now : datetime)
  : outcome (list croniter) :=
  match frequencies with
  | [] => Return crons
  | frequency :: rest =>
      let! cron := croniter_new frequency now in
      NewsletterDaemon_init_loop (crons ++ [cron])%list rest now
  end.

Definition NewsletterDaemon_init (frequencies : list string)
    (now : datetime) : outcome (list croniter) :=
  NewsletterDaemon_init_loop [] frequencies now.

(** The loop of [_get_next_run_time] over [self.crons]: the times
    collected, and the iterators as the loop leaves them. *)
Fixpoint next_times_loop (current_time : datetime)
    (next_times : list datetime) (crons : list croniter)
  : outcome (list datetime) * list croniter :=
  match crons with
  | [] => (Return next_times, [])
  | cron :: rest =>
      let cron := set_current cron current_time in
      match get_next cron with
      | Raise e => (Raise e, cron :: rest)
      | Return (t, cron') =>
          let '(r, rest') :=
            next_times_loop current_time (next_times ++ [t])%list rest in
          (r, cron' :: rest')
      end
  end.

(** [_get_next_run_time]; [current_time] is [datetime.now()]. *)
Definition _get_next_run_time (current_time : datetime)
  : M (list croniter) datetime :=
  fun crons =>
    let '(r, crons') := next_times_loop current_time [] crons in
    (let! next_times := r in py_min next_times, crons').

(** The loop of [Config._validate_frequencies]: [ValueError] and
    [TypeError] of [croniter] are raised again as [ValueError]. *)
Fixpoint validate_each (frequencies : list string) : outcome unit :=
  match frequencies with
  | [] => Return tt
  | frequency :: rest =>
      if String.eqb frequency "" then Raise ValueError
      else
        let! _ :=
          otry (croniter_check frequency)
            (fun e => match e with
                      | ValueError | TypeError => Raise ValueError
                      | _ => Raise e
                      end) in
        validate_each rest
  end.

Definition _validate_frequencies (frequencies : list string)
  : outcome unit :=
  match frequencies with
  | [] => Raise ValueError
  | _ :: _ => validate_each frequencies
  end.

(** *** More of [yomu/utils.py] *)

(** [datetime.strftime] *)
Variable strftime : datetime → string → string.

Definition format_readable_date (date_str : pyval)
  : outcome (option string) :=
  match date_str with
  | PNone => Return None
  | PStr s =>
      if String.eqb s "" then Return None
      else if String.eqb (strip s) "" then Return None
      else
        match _parse_date_string (strip s) with
        | None => Return None
        | Some parsed_date =>
            Return (Some (strftime parsed_date "%B %d, %Y at %I:%M %p"))
        end
  | PInt n =>
      if n =? 0 then Return None else Raise AttributeError
  end.

(** *** [send_newsletter_to_user] of [yomu/newsletter/service.py] *)

(** [HTMLTemplate.generate_newsletter], which may raise. *)
Variable generate_newsletter : list (pyval * source_entry) → outcome string.

(** What the service reaches: its content processor and the log of the
    calls made on the mail server. *)
Record service_state : Type := mk_service_state {
  svc_processor : processor;
  svc_calls : list smtp_call
}.

(** [now] is the [datetime.now()] of the subject line. *)
Definition send_newsletter_to_user (self : EmailSender) (net : smtp_server)
    (max_articles_per_source : Z) (user_email : string)
    (sources : list (string * outcome ContentFeed * datetime))
    (now : datetime) : M service_state bool :=
  fun st =>
    match sources with
    | [] => (Return false, st)
    | _ :: _ =>
        let '(r, p) :=
          _collect_articles_from_sources max_articles_per_source sources
            (svc_processor st) in
        let st1 := mk_service_state p (svc_calls st) in
        match r with
        | Raise e => (Raise e, st1)
        | Return [] => (Return false, st1)
        | Return (entry :: entries) =>
            match generate_newsletter (entry :: entries) with
            | Raise _ => (Return false, st1)
            | Return newsletter_content =>
                let subject :=
                  String.append "Your Newsletter - "
                    (strftime now "%B %d, %Y") in
                let '(sent, calls) :=
                  send_email self net user_email subject newsletter_content
                    (svc_calls st1) in
                (match sent with
                 | Return _ => Return true
                 | Raise _ => Return false
                 end,
                 mk_service_state p calls)
            end
        end
    end.

(** *** [Config.validate] of [yomu/config/config.py] *)

(** [re.match(email_pattern, s)] is not [None], for the one pattern of
    [validate]. *)
Variable email_matches : string → bool.
(** [urlparse(url)]: the scheme and the network location. *)
Variable urlparse : string → outcome (string * string).

Definition _validate_url (url : string) : outcome unit :=
  if String.eqb url "" then Raise ValueError
  else
    let! parsed := urlparse url in
    let '(scheme, netloc) := parsed in
    if String.eqb scheme "" || String.eqb netloc "" then Raise ValueError
    else if negb (String.eqb scheme "http" || String.eqb scheme "https")
    then Raise ValueError
    else Return tt.

Fixpoint validate_urls (sources : list string) : outcome unit :=
  match sources with
  | [] => Return tt
  | source_url :: rest =>
      let! _ := _validate_url source_url in
      validate_urls rest
  end.

Definition _validate_sources (sources : list string) : outcome unit :=
  match sources with
  | [] => Raise ValueError
  | _ :: _ => validate_urls sources
  end.

Definition validate (c : Config) : outcome unit :=
  if String.eqb (openrouter_api_key c) "" then Raise ValueError
  else if String.eqb (cfg_sender_password c) "" then Raise ValueError
  else if String.eqb (cfg_smtp_server c) "" then Raise ValueError
  else if (cfg_smtp_port c <? 1) || (65535 <? cfg_smtp_port c)
  then Raise ValueError
  else if String.eqb (cfg_sender_email c) "" then Raise ValueError
  else if negb (email_matches (cfg_sender_email c)) then Raise ValueError
  else if String.eqb (recipient_email c) "" then Raise ValueError
  else if negb (email_matches (recipient_email c)) then Raise ValueError
  else
    let! _ := _validate_sources (cfg_sources c) in
    let! _ := _validate_frequencies (cfg_frequencies c) in
    if max_description_length c <=? 0 then Raise ValueError
    else Return tt.

(** *** Invariants of the deque *)

(** The deque holds distinct identifiers, none of them empty, and no more
    than its bound. *)
Definition deque_wf (d : deque) : Prop :=
  NoDup (items d)
  ∧ Forall (λ x, truthy x = true) (items d)
  ∧ match maxlen d with
    | Some C => (length (items d) ≤ C)%nat
    | None => True
    end.

(** The deque can take [n] more identifiers without dropping any. *)
Definition has_room (d : deque) (n : nat) : Prop :=
  match maxlen d with
  | Some C => (length (items d) + n ≤ C)%nat
  | None => True
  end.

(** ** Properties *)

(** *** The order of naive datetimes *)

Lemma lex_ltb_irrefl (a : list Z) : lex_ltb a a = false.
Proof.
  induction a as [|x a IH]; simpl; [done|].
  rewrite IH, Z.ltb_irrefl. by rewrite andb_false_r.
Qed.

Lemma lex_ltb_trans (a b c : list Z) :
  lex_ltb a b = true → lex_ltb b c = true → lex_ltb a c = true.
Proof.
  revert b c. induction a as [|x a IH]; intros [|y b] [|z c]; simpl;
    try done.
  intros Hab Hbc.
  apply orb_true_iff in Hab as [Hab|Hab];
    apply orb_true_iff in Hbc as [Hbc|Hbc].
  - apply orb_true_iff. left. lia.
  - apply andb_true_iff in Hbc as [Hyz _].
    apply orb_true_iff. left. lia.
  - apply andb_true_iff in Hab as [Hxy _].
    apply orb_true_iff. left. lia.
  - apply andb_true_iff in Hab as [Hxy Hab].
    apply andb_true_iff in Hbc as [Hyz Hbc].
    apply orb_true_iff. right. apply andb_true_iff. split; [lia|].
    by apply (IH b c).
Qed.

Lemma lex_ltb_asym (a b : list Z) :
  lex_ltb a b = true → lex_ltb b a = false.
Proof.
  intros Hab. destruct (lex_ltb b a) eqn:Hba; [|done].
  pose proof (lex_ltb_trans a b a Hab Hba) as H.
  by rewrite lex_ltb_irrefl in H.
Qed.

Lemma dt_gtb_tie (a b : datetime) : dt_key a = dt_key b → dt_gtb a b = false.
Proof.
  intros H. unfold dt_gtb, dt_ltb. rewrite H. apply lex_ltb_irrefl.
Qed.

Lemma dt_gtb_earlier (a b : datetime) :
  dt_ltb a b = true → dt_gtb a b = false.
Proof. unfold dt_gtb, dt_ltb. apply lex_ltb_asym. Qed.

(** The comparison of the code decides [strictly_later]. *)
Lemma dt_gtb_strictly_later (a b : datetime) :
  dt_gtb a b = true ↔ strictly_later a b.
Proof.
  unfold dt_gtb, dt_ltb, dt_key, strictly_later. simpl.
  rewrite andb_false_r, orb_false_r.
  rewrite !orb_true_iff, !andb_true_iff, !Z.ltb_lt, !Z.eqb_eq. lia.
Qed.

Lemma strictly_later_trichotomy (a b : datetime) :
  strictly_later a b ∨ dt_key a = dt_key b ∨ strictly_later b a.
Proof.
  unfold strictly_later, dt_key.
  destruct (Z.lt_trichotomy (year a) (year b)) as [?|[Hy|?]];
    [right; right; lia| |left; lia].
  destruct (Z.lt_trichotomy (month a) (month b)) as [?|[Hm|?]];
    [right; right; lia| |left; lia].
  destruct (Z.lt_trichotomy (day a) (day b)) as [?|[Hd|?]];
    [right; right; lia| |left; lia].
  destruct (Z.lt_trichotomy (hour a) (hour b)) as [?|[Hh|?]];
    [right; right; lia| |left; lia].
  destruct (Z.lt_trichotomy (minute a) (minute b)) as [?|[Hmi|?]];
    [right; right; lia| |left; lia].
  destruct (Z.lt_trichotomy (second a) (second b)) as [?|[Hs|?]];
    [right; right; lia| |left; lia].
  destruct (Z.lt_trichotomy (microsecond a) (microsecond b)) as [?|[Hu|?]];
    [right; right; lia| |left; lia].
  right. left. by rewrite Hy, Hm, Hd, Hh, Hmi, Hs, Hu.
Qed.

(** A tie or an earlier date makes the comparison of the code false, and
    only they do. *)
Lemma dt_gtb_false_iff (a b : datetime) :
  dt_gtb a b = false ↔ dt_key a = dt_key b ∨ strictly_later b a.
Proof.
  split.
  - intros Hf.
    destruct (strictly_later_trichotomy a b) as [H|[H|H]]; [|by left|by right].
    apply dt_gtb_strictly_later in H. congruence.
  - intros [H|H]; [by apply dt_gtb_tie|].
    apply dt_gtb_earlier. by apply dt_gtb_strictly_later in H.
Qed.

(** *** The calendar *)

Lemma days_before_year_succ (y : Z) :
  days_before_year (y + 1)
  = days_before_year y + 365 + (if is_leap y then 1 else 0).
Proof.
  unfold days_before_year, is_leap.
  replace (y + 1 - 1) with y by lia.
  destruct (Z.eqb_spec (y mod 4) 0), (Z.eqb_spec (y mod 100) 0),
    (Z.eqb_spec (y mod 400) 0); simpl; Z.div_mod_to_equations; lia.
Qed.

Lemma days_before_year_mono (y y' : Z) :
  y ≤ y' → days_before_year y ≤ days_before_year y'.
Proof. unfold days_before_year. intros H. Z.div_mod_to_equations. lia. Qed.

Lemma month_cases (m : Z) :
  1 ≤ m ≤ 12 →
  m = 1 ∨ m = 2 ∨ m = 3 ∨ m = 4 ∨ m = 5 ∨ m = 6 ∨ m = 7 ∨ m = 8 ∨ m = 9
  ∨ m = 10 ∨ m = 11 ∨ m = 12.
Proof. lia. Qed.

Lemma days_in_year_bound (y m d : Z) :
  1 ≤ m ≤ 12 → 1 ≤ d ≤ days_in_month y m →
  1 ≤ days_before_month y m + d ≤ 365 + (if is_leap y then 1 else 0).
Proof.
  intros Hm Hd.
  destruct (month_cases m Hm)
    as [->|[->|[->|[->|[->|[->|[->|[->|[->|[->|[->| ->]]]]]]]]]]];
    unfold days_before_month, days_in_month in *; simpl in *;
    destruct (is_leap y); simpl in *; lia.
Qed.

Lemma days_before_month_mono (y m m' d : Z) :
  1 ≤ m → m < m' → m' ≤ 12 → 1 ≤ d ≤ days_in_month y m →
  days_before_month y m + d ≤ days_before_month y m'.
Proof.
  intros Hm Hlt Hm' Hd.
  assert (Hm1 : 1 ≤ m ≤ 12) by lia. assert (Hm2 : 1 ≤ m' ≤ 12) by lia.
  destruct (month_cases m Hm1)
    as [->|[->|[->|[->|[->|[->|[->|[->|[->|[->|[->| ->]]]]]]]]]]];
    destruct (month_cases m' Hm2)
      as [->|[->|[->|[->|[->|[->|[->|[->|[->|[->|[->| ->]]]]]]]]]]];
    try lia;
    unfold days_before_month, days_in_month in *; simpl in *;
    destruct (is_leap y); simpl in *; lia.
Qed.
(** The ordinal of a date grows with the date. *)
Lemma ymd2ord_lex (y m d y' m' d' : Z) :
  1 ≤ m ≤ 12 → 1 ≤ d ≤ days_in_month y m →
  1 ≤ m' ≤ 12 → 1 ≤ d' ≤ days_in_month y' m' →
  y < y' ∨ y = y' ∧ (m < m' ∨ m = m' ∧ d < d') →
  ymd2ord y m d < ymd2ord y' m' d'.
Proof.
  intros Hm Hd Hm' Hd' Hlex. unfold ymd2ord.
  pose proof (days_in_year_bound y m d Hm Hd) as Hb.
  pose proof (days_in_year_bound y' m' d' Hm' Hd') as Hb'.
  destruct Hlex as [Hy|[<- [Hlt|[<- Hlt]]]].
  - pose proof (days_before_year_succ y) as Hs.
    pose proof (days_before_year_mono (y + 1) y' ltac:(lia)). lia.
  - pose proof (days_before_month_mono y m m' d ltac:(lia) Hlt ltac:(lia) Hd).
    lia.
  - lia.
Qed.

Lemma to_us_later (a b : datetime) :
  valid_datetime a → valid_datetime b →
  strictly_later a b → to_us b < to_us a.
Proof.
  intros (_ & Hma & Hda & Hha & Hmia & Hsa & Hua)
         (_ & Hmb & Hdb & Hhb & Hmib & Hsb & Hub) Hl.
  unfold to_us, US_PER_DAY, US_PER_SECOND.
  assert (Hdate :
    ymd2ord (year b) (month b) (day b) < ymd2ord (year a) (month a) (day a)
    ∨ ymd2ord (year b) (month b) (day b) = ymd2ord (year a) (month a) (day a)
      ∧ (hour b < hour a
         ∨ hour a = hour b
           ∧ (minute b < minute a
              ∨ minute a = minute b
                ∧ (second b < second a
                   ∨ second a = second b
                     ∧ microsecond b < microsecond a)))).
  { unfold strictly_later in Hl.
    destruct Hl as [Hy|[Hy [Hm|[Hm [Hd|[Hd Hrest]]]]]].
    - left. apply ymd2ord_lex; [done..|]. by left.
    - left. apply ymd2ord_lex; [done..|]. right. split; [done|]. by left.
    - left. apply ymd2ord_lex; [done..|]. right. split; [done|]. right.
      by split.
    - right. split; [by rewrite Hy, Hm, Hd|done]. }
  lia.
Qed.

(** Between two valid datetimes, [strictly_later] is the order of the
    microseconds elapsed since 0001-01-01T00:00:00. *)
Lemma strictly_later_to_us (a b : datetime) :
  valid_datetime a → valid_datetime b →
  (strictly_later a b ↔ to_us b < to_us a).
Proof.
  intros Ha Hb. split; [by apply to_us_later|]. intros Hlt.
  destruct (strictly_later_trichotomy a b) as [H|[H|H]]; [done| |].
  - unfold dt_key in H. injection H as Hy Hm Hd Hh Hmi Hs Hu.
    unfold to_us in Hlt. rewrite Hy, Hm, Hd, Hh, Hmi, Hs, Hu in Hlt. lia.
  - pose proof (to_us_later b a Hb Ha H). lia.
Qed.

(** [ord2ymd] inverts [ymd2ord] *)

Lemma month_day_table (leapyear : bool) :
  forallb (month_day_ok leapyear) (seqZ 0 365) = true.
Proof. destruct leapyear; vm_compute; reflexivity. Qed.

Lemma month_day_spec (leapyear : bool) (n : Z) :
  0 ≤ n < 365 → month_day_ok leapyear n = true.
Proof.
  intros Hn. pose proof (month_day_table leapyear) as Ht.
  rewrite forallb_forall in Ht. apply Ht. apply list_elem_of_In.
  apply elem_of_seqZ. lia.
Qed.

Lemma days_before_year_cycles (a b c e : Z) :
  0 ≤ b ≤ 3 → 0 ≤ c ≤ 24 → 0 ≤ e ≤ 3 →
  days_before_year (a * 400 + 1 + b * 100 + c * 4 + e)
  = a * DI400Y + b * DI100Y + c * DI4Y + e * 365.
Proof.
  intros Hb Hc He. unfold days_before_year, DI400Y, DI100Y, DI4Y.
  Z.div_mod_to_equations. lia.
Qed.

Lemma is_leap_cycles (a b c e : Z) :
  0 ≤ b ≤ 3 → 0 ≤ c ≤ 24 → 0 ≤ e ≤ 3 →
  is_leap (a * 400 + 1 + b * 100 + c * 4 + e)
  = (e =? 3) && (negb (c =? 24) || (b =? 3)).
Proof.
  intros Hb Hc He. unfold is_leap.
  destruct (Z.eqb_spec ((a * 400 + 1 + b * 100 + c * 4 + e) mod 4) 0),
    (Z.eqb_spec ((a * 400 + 1 + b * 100 + c * 4 + e) mod 100) 0),
    (Z.eqb_spec ((a * 400 + 1 + b * 100 + c * 4 + e) mod 400) 0),
    (Z.eqb_spec e 3), (Z.eqb_spec c 24), (Z.eqb_spec b 3); simpl;
    try reflexivity; exfalso; Z.div_mod_to_equations; lia.
Qed.

Lemma ord2ymd_valid (ord : Z) :
  1 ≤ ord →
  1 ≤ (ord2ymd ord).1.1
  ∧ 1 ≤ (ord2ymd ord).1.2 ≤ 12
  ∧ 1 ≤ (ord2ymd ord).2
      ≤ days_in_month (ord2ymd ord).1.1 (ord2ymd ord).1.2
  ∧ ymd2ord (ord2ymd ord).1.1 (ord2ymd ord).1.2 (ord2ymd ord).2 = ord.
Proof.
  intros Hord. unfold ord2ymd.
  set (n0 := ord - 1).
  set (a := n0 / DI400Y). set (r400 := n0 mod DI400Y).
  set (b := r400 / DI100Y). set (r100 := r400 mod DI100Y).
  set (c := r100 / DI4Y). set (r4 := r100 mod DI4Y).
  set (e := r4 / 365). set (r1 := r4 mod 365).
  assert (Ha : 0 ≤ a ∧ n0 = a * DI400Y + r400 ∧ 0 ≤ r400 < DI400Y).
  { unfold a, r400, DI400Y. Z.div_mod_to_equations. lia. }
  assert (Hb : 0 ≤ b ≤ 4 ∧ r400 = b * DI100Y + r100 ∧ 0 ≤ r100 < DI100Y).
  { unfold b, r100, DI100Y, DI400Y in *. Z.div_mod_to_equations. lia. }
  assert (Hc : 0 ≤ c ≤ 24 ∧ r100 = c * DI4Y + r4 ∧ 0 ≤ r4 < DI4Y).
  { unfold c, r4, DI4Y, DI100Y in *. Z.div_mod_to_equations. lia. }
  assert (He : 0 ≤ e ≤ 4 ∧ r4 = e * 365 + r1 ∧ 0 ≤ r1 < 365).
  { unfold e, r1, DI4Y in *. Z.div_mod_to_equations. lia. }
  clearbody a r400 b r100 c r4 e r1.
  destruct Ha as (Ha & Hn0 & Hr400), Hb as (Hb & Hr400' & Hr100),
    Hc as (Hc & Hr100' & Hr4), He as (He & Hr4' & Hr1).
  unfold DI400Y, DI100Y, DI4Y in *.
  destruct ((e =? 4) || (b =? 4)) eqn:Hlast.
  - simpl. unfold ymd2ord, days_before_month, days_in_month. simpl.
    apply orb_true_iff in Hlast as [He4|Hb4].
    + apply Z.eqb_eq in He4.
      assert (Hb3 : 0 ≤ b ≤ 3) by lia.
      assert (Hc3 : 0 ≤ c ≤ 24) by lia.
      replace (a * 400 + 1 + b * 100 + c * 4 + e - 1)
        with (a * 400 + 1 + b * 100 + c * 4 + 3) by lia.
      rewrite (is_leap_cycles a b c 3 Hb3 Hc3 ltac:(lia)).
      rewrite (days_before_year_cycles a b c 3 Hb3 Hc3 ltac:(lia)).
      unfold DI400Y, DI100Y, DI4Y.
      assert (Hc24 : (c =? 24) = false) by (apply Z.eqb_neq; lia).
      rewrite Hc24. simpl. lia.
    + apply Z.eqb_eq in Hb4.
      assert (c = 0 ∧ e = 0) as [-> ->] by lia.
      replace (a * 400 + 1 + b * 100 + 0 * 4 + 0 - 1)
        with (a * 400 + 1 + 3 * 100 + 24 * 4 + 3) by lia.
      rewrite (is_leap_cycles a 3 24 3 ltac:(lia) ltac:(lia) ltac:(lia)).
      rewrite (days_before_year_cycles a 3 24 3
                 ltac:(lia) ltac:(lia) ltac:(lia)).
      unfold DI400Y, DI100Y, DI4Y. simpl. lia.
  - apply orb_false_iff in Hlast as [He4 Hb4].
    apply Z.eqb_neq in He4. apply Z.eqb_neq in Hb4.
    assert (Hb3 : 0 ≤ b ≤ 3) by lia. assert (He3 : 0 ≤ e ≤ 3) by lia.
    set (leapyear := (e =? 3) && (negb (c =? 24) || (b =? 3))).
    pose proof (month_day_spec leapyear r1 Hr1) as Hok.
    unfold month_day_ok, month_day in Hok. cbv zeta in Hok |- *.
    fold leapyear.
    destruct (r1 <? _); cbn [fst snd];
      unfold ymd2ord, days_before_month, days_in_month;
      rewrite (is_leap_cycles a b c e Hb3 Hc He3);
      rewrite (days_before_year_cycles a b c e Hb3 Hc He3);
      fold leapyear; unfold DI400Y, DI100Y, DI4Y;
      repeat (apply andb_true_iff in Hok as [Hok ?]);
      repeat match goal with
             | H : (_ <=? _) = true |- _ => apply Z.leb_le in H
             | H : (_ =? _) = true |- _ => apply Z.eqb_eq in H
             end; lia.
Qed.

Lemma to_us_of_us (u : Z) (tz : option Z) :
  0 ≤ u → to_us (of_us u tz) = u.
Proof.
  intros Hu. unfold of_us.
  pose proof (ord2ymd_valid (u / US_PER_DAY + 1)) as Hv.
  destruct (ord2ymd (u / US_PER_DAY + 1)) as [[y m] d]. simpl in Hv.
  destruct Hv as (_ & _ & _ & Hord).
  { unfold US_PER_DAY, US_PER_SECOND. Z.div_mod_to_equations. lia. }
  unfold to_us. simpl. rewrite Hord.
  unfold US_PER_DAY, US_PER_SECOND. Z.div_mod_to_equations. lia.
Qed.

Lemma of_us_valid (u : Z) (tz : option Z) :
  0 ≤ u < MAXORDINAL * US_PER_DAY → valid_datetime (of_us u tz).
Proof.
  intros Hu. unfold of_us.
  pose proof (ord2ymd_valid (u / US_PER_DAY + 1)) as Hv.
  destruct (ord2ymd (u / US_PER_DAY + 1)) as [[y m] d]. simpl in Hv.
  destruct Hv as (Hy & Hm & Hd & Hord).
  { unfold US_PER_DAY, US_PER_SECOND. Z.div_mod_to_equations. lia. }
  unfold valid_datetime. simpl.
  assert (Hy' : y ≤ 9999).
  { destruct (Z.le_gt_cases y 9999) as [?|Hbig]; [done|]. exfalso.
    pose proof (days_before_year_mono 10000 y ltac:(lia)) as Hmono.
    pose proof (days_in_year_bound y m d Hm Hd) as Hb.
    assert (Hmax : days_before_year 10000 = MAXORDINAL)
      by (vm_compute; reflexivity).
    unfold ymd2ord in Hord.
    assert (u / US_PER_DAY + 1 ≤ MAXORDINAL).
    { unfold US_PER_DAY, US_PER_SECOND, MAXORDINAL in *.
      Z.div_mod_to_equations. lia. }
    lia. }
  split; [lia|]. split; [done|]. split; [done|].
  unfold US_PER_DAY, US_PER_SECOND. Z.div_mod_to_equations. lia.
Qed.

Lemma to_us_replace (dt : datetime) (tz : option Z) :
  to_us (replace_tzinfo dt tz) = to_us dt.
Proof. reflexivity. Qed.

Lemma valid_datetime_replace (dt : datetime) (tz : option Z) :
  valid_datetime (replace_tzinfo dt tz) ↔ valid_datetime dt.
Proof. reflexivity. Qed.

(** *** The deque *)

Lemma deque_contains_true (d : deque) (x : pyval) :
  deque_contains d x = true ↔ x ∈ items d.
Proof.
  unfold deque_contains. rewrite existsb_exists. split.
  - intros (y & Hy & Heq). unfold py_eqb in Heq.
    apply bool_decide_eq_true in Heq. subst y. by apply list_elem_of_In.
  - intros Hx. exists x. split; [by apply list_elem_of_In|].
    unfold py_eqb. by apply bool_decide_eq_true.
Qed.

Lemma deque_contains_false (d : deque) (x : pyval) :
  deque_contains d x = false ↔ x ∉ items d.
Proof.
  rewrite <- deque_contains_true. destruct (deque_contains d x); naive_solver.
Qed.

Lemma deque_append_maxlen (d : deque) (x : pyval) :
  maxlen (deque_append d x) = maxlen d.
Proof.
  unfold deque_append. destruct (maxlen d) as [m|]; [|done].
  by destruct (m <? _)%nat.
Qed.

Lemma deque_append_bounded (d : deque) (x : pyval) (C : nat) :
  maxlen d = Some C → (length (items d) ≤ C)%nat →
  (length (items (deque_append d x)) ≤ C)%nat.
Proof.
  intros Hm Hlen. unfold deque_append. rewrite Hm.
  destruct (C <? _)%nat eqn:Hlt; simpl.
  - rewrite length_drop, length_app. simpl. lia.
  - apply Nat.ltb_ge in Hlt. done.
Qed.

(** With room for at least one element, the element just appended is
    in the deque. *)
Lemma deque_append_contains (d : deque) (x : pyval) :
  maxlen d ≠ Some 0%nat → deque_contains (deque_append d x) x = true.
Proof.
  intros Hm. apply deque_contains_true. unfold deque_append.
  destruct (maxlen d) as [m|]; simpl; [|set_solver].
  destruct (m <? _)%nat eqn:Hlt; simpl; [|set_solver].
  destruct (items d) as [|y l]; simpl.
  - apply Nat.ltb_lt in Hlt. simpl in Hlt.
    destruct m; [done|lia].
  - rewrite drop_0. set_solver.
Qed.

Lemma record_url_returns (x : pyval) (d : deque) :
  fst (record_url x d) = Return tt.
Proof. unfold record_url. by destruct (_ && _). Qed.

Lemma record_url_maxlen (x : pyval) (d : deque) :
  maxlen (snd (record_url x d)) = maxlen d.
Proof.
  unfold record_url. destruct (_ && _); simpl; [|done].
  apply deque_append_maxlen.
Qed.

Lemma record_url_bounded (x : pyval) (d : deque) (C : nat) :
  maxlen d = Some C → (length (items d) ≤ C)%nat →
  (length (items (snd (record_url x d))) ≤ C)%nat.
Proof.
  intros Hm Hlen. unfold record_url. destruct (_ && _); simpl; [|done].
  by apply deque_append_bounded.
Qed.

Lemma record_url_falsy (x : pyval) (d : deque) :
  truthy x = false → record_url x d = (Return tt, d).
Proof. intros H. unfold record_url. by rewrite H. Qed.

Lemma record_url_fresh (x : pyval) (d : deque) :
  truthy x = true → deque_contains d x = false →
  record_url x d = (Return tt, deque_append d x).
Proof. intros H1 H2. unfold record_url. by rewrite H1, H2. Qed.


(** An empty deque of bound zero keeps nothing. *)
Lemma deque_append_zero (x : pyval) (d : deque) :
  maxlen d = Some 0%nat → items d = [] → deque_append d x = d.
Proof.
  destruct d as [l m]. simpl. intros -> ->. reflexivity.
Qed.

Lemma record_url_zero (x : pyval) (d : deque) :
  maxlen d = Some 0%nat → items d = [] → snd (record_url x d) = d.
Proof.
  intros Hm Hi. unfold record_url. destruct (_ && _); simpl; [|done].
  by apply deque_append_zero.
Qed.

Lemma record_all_zero (ids : list pyval) (d : deque) :
  maxlen d = Some 0%nat → items d = [] → record_all ids d = d.
Proof.
  intros Hm Hi. induction ids as [|x ids IH]; simpl; [done|].
  by rewrite (record_url_zero x d Hm Hi).
Qed.

Lemma record_all_bounded (ids : list pyval) (d : deque) (C : nat) :
  maxlen d = Some C → (length (items d) ≤ C)%nat →
  maxlen (record_all ids d) = Some C
  ∧ (length (items (record_all ids d)) ≤ C)%nat.
Proof.
  revert d. induction ids as [|x ids IH]; intros d Hm Hlen; simpl; [done|].
  apply IH.
  - by rewrite record_url_maxlen.
  - by apply record_url_bounded.
Qed.

(** After the distinct identifiers [pre] and then [ids], the deque holds
    the last [C] of them, oldest first. *)
Lemma record_all_window (C : nat) (ids pre : list pyval) (d : deque) :
  maxlen d = Some C →
  items d = drop (length pre - C) pre →
  NoDup (pre ++ ids) →
  Forall (λ x, truthy x = true) ids →
  items (record_all ids d)
  = drop (length (pre ++ ids) - C) (pre ++ ids).
Proof.
  revert pre d. induction ids as [|x ids IH]; intros pre d Hm Hit Hnd Htr.
  - simpl. by rewrite app_nil_r.
  - simpl. apply Forall_cons in Htr as [Hx Htr].
    assert (Hfresh : deque_contains d x = false).
    { apply deque_contains_false. rewrite Hit. intros Hin.
      apply NoDup_app in Hnd as (_ & Hdis & _).
      apply (Hdis x); [|set_solver].
      by apply (subseteq_drop (length pre - C) pre). }
    rewrite (record_url_fresh x d Hx Hfresh). simpl.
    replace (pre ++ x :: ids)%list with ((pre ++ [x]) ++ ids)%list
      by (by rewrite <- app_assoc).
    apply IH.
    + by rewrite deque_append_maxlen.
    + unfold deque_append. rewrite Hm, Hit.
      rewrite !length_app, length_drop. simpl.
      destruct (C <? _)%nat eqn:Hlt; simpl.
      * apply Nat.ltb_lt in Hlt.
        rewrite <- (drop_app_le pre [x]) by lia.
        rewrite drop_drop. f_equal. lia.
      * apply Nat.ltb_ge in Hlt.
        rewrite <- (drop_app_le pre [x]) by lia.
        f_equal. lia.
    + by rewrite <- app_assoc.
    + done.
Qed.

(** *** The filter *)

(** The conversion to UTC raises only for an aware datetime whose instant
    lies outside [datetime.min .. datetime.max]. *)
Lemma normalize_raises (dt : datetime) (e : exn) :
  normalize_datetime_to_utc_naive dt = Raise e →
  e = OverflowError
  ∧ ∃ off, tzinfo dt = Some off
           ∧ ¬ (0 ≤ utc_instant dt < MAXORDINAL * US_PER_DAY).
Proof.
  unfold normalize_datetime_to_utc_naive, utc_instant.
  destruct (tzinfo dt) as [off|]; [|done].
  unfold astimezone_utc, add_timedelta.
  destruct (_ && _) eqn:Hr; simpl; [done|]. intros [= <-].
  split; [done|]. exists off. split; [done|]. intros [H1 H2].
  apply andb_false_iff in Hr as [Hr|Hr]; lia.
Qed.

(** A last run that was read is in UTC. *)
Lemma parse_iso_timestamp_utc (timestamp : option string) (dt : datetime) :
  parse_iso_timestamp timestamp = Some dt → tzinfo dt = Some utc.
Proof.
  unfold parse_iso_timestamp. destruct timestamp as [s|]; [|done].
  destruct (String.eqb s ""); [done|].
  destruct (fromisoformat s) as [dt'|]; [|done]. by intros [= <-].
Qed.

(** What the conversion returns is naive and stands for the same instant;
    it is valid when the date is. *)
Lemma normalize_returns (dt n : datetime) :
  normalize_datetime_to_utc_naive dt = Return n →
  tzinfo n = None
  ∧ to_us n = utc_instant dt
  ∧ (valid_datetime dt → valid_datetime n).
Proof.
  unfold normalize_datetime_to_utc_naive, utc_instant.
  destruct (tzinfo dt) as [off|] eqn:Htz.
  - unfold astimezone_utc, add_timedelta.
    destruct (_ && _) eqn:Hr; simpl; [|done]. intros [= <-].
    apply andb_true_iff in Hr as [H1 H2].
    apply Z.leb_le in H1. apply Z.ltb_lt in H2.
    split; [done|].
    assert (Hfields : ∀ x tz1 tz2,
      to_us (replace_tzinfo (replace_tzinfo x tz1) tz2) = to_us x) by done.
    rewrite Hfields. split; [rewrite to_us_of_us; lia|]. intros _.
    apply (proj2 (valid_datetime_replace _ _)).
    apply (proj2 (valid_datetime_replace _ _)).
    by apply of_us_valid.
  - intros [= <-]. split; [done|]. split; [lia|done].
Qed.

Lemma should_include_dated_known (a : article) (last_run date : datetime)
    (d : deque) :
  parse_date (pubDate_of a) = Return (Some date) →
  _should_include_article a (Some last_run) d
  = match normalize_datetime_to_utc_naive date with
    | Return n => (Return (dt_gtb n (replace_tzinfo last_run None)), d)
    | Raise e => (Raise e, d)
    end.
Proof.
  intros Hp. unfold _should_include_article, mbind, mlift, mret.
  rewrite Hp. by destruct (normalize_datetime_to_utc_naive date).
Qed.

Lemma should_include_dated_first_run (a : article) (date : datetime)
    (d : deque) :
  parse_date (pubDate_of a) = Return (Some date) →
  _should_include_article a None d = (Return true, d).
Proof.
  intros Hp. unfold _should_include_article, mbind, mlift, mret.
  by rewrite Hp.
Qed.

Lemma should_include_undated (a : article) (lr : option datetime)
    (d : deque) :
  parse_date (pubDate_of a) = Return None →
  _should_include_article a lr d
  = (Return true, snd (record_url (link_of a) d)).
Proof.
  intros Hp. unfold _should_include_article, mbind, mlift, mret.
  rewrite Hp.
  pose proof (record_url_returns (link_of a) d) as Hr.
  destruct lr; destruct (record_url (link_of a) d) as [r d'];
    simpl in *; by subst r.
Qed.

Lemma should_include_unreadable (a : article) (lr : option datetime)
    (d : deque) (e : exn) :
  parse_date (pubDate_of a) = Raise e →
  _should_include_article a lr d = (Raise e, d).
Proof.
  intros Hp. unfold _should_include_article, mbind, mlift, mret.
  by rewrite Hp.
Qed.

(** No statement of [_should_include_article] that can raise comes after
    a change of the deque. *)
Lemma should_include_raise_state (a : article) (lr : option datetime)
    (d d1 : deque) (e : exn) :
  _should_include_article a lr d = (Raise e, d1) → d1 = d.
Proof.
  destruct (parse_date (pubDate_of a)) as [[date|]|e'] eqn:Hp.
  - destruct lr as [last_run|].
    + rewrite (should_include_dated_known _ _ _ _ Hp).
      destruct (normalize_datetime_to_utc_naive date); congruence.
    + rewrite (should_include_dated_first_run _ _ _ Hp). congruence.
  - rewrite (should_include_undated _ _ _ Hp). congruence.
  - rewrite (should_include_unreadable _ _ _ _ Hp). congruence.
Qed.

Lemma filter_step_hit (lr : option datetime) (filtered : list article)
    (a : article) (d : deque) :
  cache_hit d a = true → filter_step lr filtered a d = (Return filtered, d).
Proof.
  unfold cache_hit. intros H. unfold filter_step, mbind, mget.
  by rewrite H.
Qed.

Lemma filter_step_miss (lr : option datetime) (filtered : list article)
    (a : article) (d : deque) :
  cache_hit d a = false →
  filter_step lr filtered a d
  = match _should_include_article a lr d with
    | (Return include, d') =>
        (Return (if include then filtered ++ [a] else filtered)%list, d')
    | (Raise _, d') =>
        (Return (filtered ++ [a])%list, snd (record_url (link_of a) d'))
    end.
Proof.
  unfold cache_hit. intros H. unfold filter_step, mbind, mget, mtry, mret.
  rewrite H.
  destruct (_should_include_article a lr d) as [[[|]|e] d']; try done.
  pose proof (record_url_returns (link_of a) d') as Hr.
  destruct (record_url (link_of a) d') as [r d'']. simpl in *. by subst r.
Qed.

(** An article without a parseable date that is not a cache hit is
    included, and its URL goes through [record_url]. *)
Lemma filter_step_undated (lr : option datetime) (filtered : list article)
    (a : article) (d : deque) :
  undated a → cache_hit d a = false →
  filter_step lr filtered a d
  = (Return (filtered ++ [a])%list, snd (record_url (link_of a) d)).
Proof.
  intros Hu Hm. rewrite (filter_step_miss _ _ _ _ Hm).
  destruct (parse_date (pubDate_of a)) as [[date|]|e] eqn:Hp.
  - by destruct (Hu date).
  - by rewrite (should_include_undated _ _ _ Hp).
  - by rewrite (should_include_unreadable _ _ _ _ Hp).
Qed.

Lemma filter_step_returns (lr : option datetime) (filtered : list article)
    (a : article) (d : deque) :
  ∃ out d', filter_step lr filtered a d = (Return out, d').
Proof.
  destruct (cache_hit d a) eqn:Hh.
  - rewrite (filter_step_hit _ _ _ _ Hh). eauto.
  - rewrite (filter_step_miss _ _ _ _ Hh).
    destruct (_should_include_article a lr d) as [[inc|e] d']; eauto.
Qed.


Lemma filter_loop_cons (lr : option datetime) (filtered out : list article)
    (a : article) (rest : list article) (d d' : deque) :
  filter_step lr filtered a d = (Return out, d') →
  filter_loop lr filtered (a :: rest) d = filter_loop lr out rest d'.
Proof. intros H. simpl. unfold mbind. by rewrite H. Qed.

(** C1, amended: for an article whose date parses and whose conversion
    to UTC returns, with a known last run, the decision is the comparison
    of the converted date with the last run stripped of its zone, and
    the deque is not touched.  The converted date is naive and stands
    for the instant of the date.  When the test of the deque does not
    drop the article first, the filter includes it exactly when the
    converted date is strictly later than the last run, and leaves it
    out exactly when the two are equal or the date is earlier; for a
    valid date and a valid last run, strictly later means that the
    instant of the date comes after the instant of the last run.  When
    the conversion raises, which it does only for an aware date whose
    instant lies outside [datetime.min .. datetime.max], the article is
    included whatever the last run is, and its link goes through the
    guarded append.  An article that the test of the deque drops is
    left out. *)
Theorem dated_article_included_iff_newer
    (a : article) (last_run date : datetime) (d : deque)
    (timestamp : string) :
  parse_date (pubDate_of a) = Return (Some date) →
  parse_iso_timestamp (Some timestamp) = Some last_run →
  let last := replace_tzinfo last_run None in
  (∀ n : datetime,
     normalize_datetime_to_utc_naive date = Return n →
     _should_include_article a (Some last_run) d
     = (Return (dt_gtb n last), d)
     ∧ tzinfo n = None
     ∧ to_us n = utc_instant date
     ∧ (_should_include_article a (Some last_run) d = (Return true, d)
        ↔ strictly_later n last)
     ∧ (_should_include_article a (Some last_run) d = (Return false, d)
        ↔ dt_key n = dt_key last ∨ strictly_later last n)
     ∧ (cache_hit d a = false →
        (_filter_articles_by_timestamp [a] (Some timestamp) d
         = (Return [a], d)
         ↔ strictly_later n last)
        ∧ (_filter_articles_by_timestamp [a] (Some timestamp) d
           = (Return [], d)
           ↔ dt_key n = dt_key last ∨ strictly_later last n))
     ∧ (valid_datetime date → valid_datetime last_run →
        (strictly_later n last
         ↔ utc_instant last_run < utc_instant date)))
  ∧ (∀ e : exn,
       normalize_datetime_to_utc_naive date = Raise e →
       (∃ off, tzinfo date = Some off
               ∧ ¬ (0 ≤ utc_instant date < MAXORDINAL * US_PER_DAY))
       ∧ (cache_hit d a = false →
          _filter_articles_by_timestamp [a] (Some timestamp) d
          = (Return [a], snd (record_url (link_of a) d))))
  ∧ (cache_hit d a = true →
     _filter_articles_by_timestamp [a] (Some timestamp) d = (Return [], d)).
Proof.
  intros Hp Hts last.
  assert (Hfilter : ∀ r,
    filter_step (Some last_run) [] a d = r →
    _filter_articles_by_timestamp [a] (Some timestamp) d = r).
  { intros r Hr. unfold _filter_articles_by_timestamp. rewrite Hts.
    simpl. unfold mbind, mret.
    destruct (filter_step_returns (Some last_run) [] a d)
      as (out & d' & Hstep).
    rewrite <- Hr, Hstep. done. }
  assert (Hutc : utc_instant last_run = to_us last).
  { unfold utc_instant. rewrite (parse_iso_timestamp_utc _ _ Hts).
    unfold last, utc. rewrite to_us_replace. lia. }
  split; [|split].
  - intros n Hn.
    assert (Hs : _should_include_article a (Some last_run) d
                 = (Return (dt_gtb n last), d)).
    { rewrite (should_include_dated_known _ _ _ _ Hp). by rewrite Hn. }
    pose proof (dt_gtb_strictly_later n last) as Hlater.
    pose proof (dt_gtb_false_iff n last) as Hnot.
    destruct (normalize_returns _ _ Hn) as (Hnaive & Hinst & Hvalid).
    split; [done|]. split; [done|]. split; [done|].
    split; [|split; [|split]].
    + rewrite Hs. rewrite <- Hlater. split; [by intros [= ->]|by intros ->].
    + rewrite Hs. rewrite <- Hnot. split; [by intros [= ->]|by intros ->].
    + intros Hm.
      assert (Hf : _filter_articles_by_timestamp [a] (Some timestamp) d
                   = (Return (if dt_gtb n last then [a] else []), d)).
      { apply Hfilter. rewrite (filter_step_miss _ _ _ _ Hm), Hs.
        by destruct (dt_gtb n last). }
      rewrite Hf. rewrite <- Hlater, <- Hnot.
      destruct (dt_gtb n last); split; split; done.
    + intros Hvd Hvl. rewrite Hutc, <- Hinst.
      apply strictly_later_to_us; [by apply Hvalid|].
      by apply valid_datetime_replace.
  - intros e He. split.
    + apply normalize_raises in He as (_ & off & Hoff & Hout). eauto.
    + intros Hm. apply Hfilter.
      rewrite (filter_step_miss _ _ _ _ Hm).
      rewrite (should_include_dated_known _ _ _ _ Hp). by rewrite He.
  - intros Hh. apply Hfilter. by apply filter_step_hit.
Qed.

(** C2, amended: an article without a parseable date whose identifier
    is not empty, filtered with a deque that has room for at least one
    element, is included and its identifier inserted on the first
    encounter; while the identifier is in the deque the article is
    dropped and the deque stays as it is. *)
Theorem undated_article_included_once
    (a : article) (lr : option datetime) (filtered : list article)
    (d : deque) (timestamp : option string) :
  undated a →
  truthy (link_of a) = true →
  maxlen d ≠ Some 0%nat →
  (deque_contains d (link_of a) = false →
     filter_step lr filtered a d
     = (Return (filtered ++ [a])%list, deque_append d (link_of a))
     ∧ deque_contains (deque_append d (link_of a)) (link_of a) = true
     ∧ _filter_articles_by_timestamp [a; a] timestamp d
       = (Return [a], deque_append d (link_of a)))
  ∧ (deque_contains d (link_of a) = true →
     filter_step lr filtered a d = (Return filtered, d)).
Proof.
  intros Hu Ht Hm. split.
  - intros Hfresh.
    assert (Hmiss : cache_hit d a = false).
    { unfold cache_hit. by rewrite Hfresh, andb_false_r. }
    assert (Hstep : ∀ lr' acc, filter_step lr' acc a d
              = (Return (acc ++ [a])%list, deque_append d (link_of a))).
    { intros lr' acc. rewrite (filter_step_undated _ _ _ _ Hu Hmiss).
      by rewrite (record_url_fresh _ _ Ht Hfresh). }
    pose proof (deque_append_contains d (link_of a) Hm) as Hin.
    split; [apply Hstep|]. split; [done|].
    unfold _filter_articles_by_timestamp.
    rewrite (filter_loop_cons _ _ _ _ _ _ _ (Hstep _ [])).
    erewrite filter_loop_cons; [done|].
    apply filter_step_hit. unfold cache_hit. by rewrite Ht, Hin.
  - intros Hin. apply filter_step_hit. unfold cache_hit. by rewrite Ht, Hin.
Qed.

(** C3, amended: filtering an article whose date parses leaves the
    deque unchanged whenever the last run is absent or the conversion of
    the date to UTC returns; such an article, when the test of the deque
    does not drop it, is included on a first run and by the comparison
    otherwise.  When the last run is known and the conversion raises,
    the evaluation itself leaves the deque alone and the handler of the
    filter includes the article and passes its link to the guarded
    append: a link that is not empty is appended, and is in the deque
    afterwards, when the deque has room for at least one element; the
    deque stays as it is when the link is empty, and when it is the
    empty deque of bound zero. *)
Theorem dated_article_leaves_cache
    (a : article) (lr : option datetime) (date : datetime)
    (filtered : list article) (d : deque) :
  parse_date (pubDate_of a) = Return (Some date) →
  ((lr = None ∨ ∃ n, normalize_datetime_to_utc_naive date = Return n) →
   snd (filter_step lr filtered a d) = d
   ∧ snd (_should_include_article a lr d) = d)
  ∧ (lr = None → cache_hit d a = false →
     filter_step lr filtered a d = (Return (filtered ++ [a])%list, d))
  ∧ (∀ last_run n,
       lr = Some last_run →
       normalize_datetime_to_utc_naive date = Return n →
       cache_hit d a = false →
       filter_step lr filtered a d
       = (Return (if dt_gtb n (replace_tzinfo last_run None)
                  then (filtered ++ [a])%list else filtered), d))
  ∧ (∀ last_run e,
       lr = Some last_run →
       normalize_datetime_to_utc_naive date = Raise e →
       snd (_should_include_article a lr d) = d
       ∧ (cache_hit d a = true →
          filter_step lr filtered a d = (Return filtered, d))
       ∧ (cache_hit d a = false →
          filter_step lr filtered a d
          = (Return (filtered ++ [a])%list, snd (record_url (link_of a) d))
          ∧ (truthy (link_of a) = true →
             snd (filter_step lr filtered a d) = deque_append d (link_of a)
             ∧ (maxlen d ≠ Some 0%nat →
                deque_contains (snd (filter_step lr filtered a d))
                  (link_of a) = true))
          ∧ (truthy (link_of a) = false →
             snd (filter_step lr filtered a d) = d)
          ∧ (maxlen d = Some 0%nat → items d = [] →
             snd (filter_step lr filtered a d) = d))).
Proof.
  intros Hp. split; [|split; [|split]].
  - intros Hcase.
    assert (Hs : ∃ b, _should_include_article a lr d = (Return b, d)).
    { destruct lr as [last_run|].
      - destruct Hcase as [?|[n Hn]]; [done|].
        rewrite (should_include_dated_known _ _ _ _ Hp), Hn. eauto.
      - rewrite (should_include_dated_first_run _ _ _ Hp). eauto. }
    destruct Hs as [b Hs]. split.
    + destruct (cache_hit d a) eqn:Hh.
      * by rewrite (filter_step_hit _ _ _ _ Hh).
      * by rewrite (filter_step_miss _ _ _ _ Hh), Hs.
    + by rewrite Hs.
  - intros -> Hm. rewrite (filter_step_miss _ _ _ _ Hm).
    by rewrite (should_include_dated_first_run _ _ _ Hp).
  - intros last_run n -> Hn Hm. rewrite (filter_step_miss _ _ _ _ Hm).
    rewrite (should_include_dated_known _ _ _ _ Hp), Hn.
    by destruct (dt_gtb n _).
  - intros last_run e -> He.
    assert (Hs : _should_include_article a (Some last_run) d = (Raise e, d)).
    { rewrite (should_include_dated_known _ _ _ _ Hp). by rewrite He. }
    split; [by rewrite Hs|]. split; [apply filter_step_hit|].
    intros Hm.
    assert (Hstep : filter_step (Some last_run) filtered a d
      = (Return (filtered ++ [a])%list, snd (record_url (link_of a) d))).
    { by rewrite (filter_step_miss _ _ _ _ Hm), Hs. }
    split; [done|]. rewrite Hstep. simpl. split; [|split].
    + intros Ht.
      assert (Hin : deque_contains d (link_of a) = false).
      { unfold cache_hit in Hm. by rewrite Ht in Hm. }
      rewrite (record_url_fresh _ _ Ht Hin). simpl. split; [done|].
      apply deque_append_contains.
    + intros Ht. by rewrite (record_url_falsy _ _ Ht).
    + apply record_url_zero.
Qed.

(** C4: whatever identifiers are recorded in a deque of capacity [C],
    it never holds more than [C] of them; after distinct identifiers it
    holds the last [C] in the order of insertion, so that recording
    [C + 1] of them evicts the first one, and only it. *)
Theorem recency_cache_bounded_fifo (C : nat) :
  (∀ ids : list pyval,
     (length (items (record_all ids (mk_deque [] (Some C)))) ≤ C)%nat)
  ∧ (∀ ids : list pyval,
       NoDup ids → Forall (λ x, truthy x = true) ids →
       items (record_all ids (mk_deque [] (Some C)))
       = drop (length ids - C) ids)
  ∧ (∀ (x : pyval) (ids : list pyval),
       NoDup (x :: ids) → Forall (λ x, truthy x = true) (x :: ids) →
       length ids = C →
       items (record_all (x :: ids) (mk_deque [] (Some C))) = ids
       ∧ deque_contains (record_all (x :: ids) (mk_deque [] (Some C))) x
         = false).
Proof.
  assert (Hwin : ∀ ids : list pyval,
    NoDup ids → Forall (λ x, truthy x = true) ids →
    items (record_all ids (mk_deque [] (Some C)))
    = drop (length ids - C) ids).
  { intros ids Hnd Htr.
    by apply (record_all_window C ids [] (mk_deque [] (Some C))). }
  split; [|split].
  - intros ids.
    apply (record_all_bounded ids (mk_deque [] (Some C)) C); simpl;
      [done|lia].
  - done.
  - intros x ids Hnd Htr Hlen.
    assert (Hit : items (record_all (x :: ids) (mk_deque [] (Some C)))
                  = ids).
    { rewrite (Hwin _ Hnd Htr). simpl length. rewrite Hlen.
      by replace (S C - C)%nat with 1%nat by lia. }
    split; [done|]. apply deque_contains_false. rewrite Hit.
    by apply NoDup_cons in Hnd as [? _].
Qed.


(** C9: an article whose link is the empty string never changes the
    deque and is never dropped by the membership test; without a
    parseable date it is included every time, also when it is met
    again and again. *)
Theorem empty_link_bypasses_cache (a : article) :
  link_of a = PStr "" →
  (∀ lr filtered d, cache_hit d a = false
                    ∧ snd (filter_step lr filtered a d) = d)
  ∧ (undated a →
     (∀ lr filtered d,
        filter_step lr filtered a d = (Return (filtered ++ [a])%list, d))
     ∧ (∀ timestamp (k : nat) d,
          _filter_articles_by_timestamp (replicate k a) timestamp d
          = (Return (replicate k a), d))).
Proof.
  intros Hl.
  assert (Hm : ∀ d, cache_hit d a = false).
  { intros d. unfold cache_hit. by rewrite Hl. }
  assert (Hrec : ∀ d, record_url (link_of a) d = (Return tt, d)).
  { intros d. apply record_url_falsy. by rewrite Hl. }
  split.
  - intros lr filtered d. split; [done|].
    rewrite (filter_step_miss _ _ _ _ (Hm d)).
    destruct (_should_include_article a lr d) as [[inc|e] d'] eqn:Hs.
    + simpl. revert Hs.
      destruct (parse_date (pubDate_of a)) as [[date|]|e'] eqn:Hp.
      * destruct lr as [last_run|].
        -- rewrite (should_include_dated_known _ _ _ _ Hp).
           destruct (normalize_datetime_to_utc_naive date); congruence.
        -- rewrite (should_include_dated_first_run _ _ _ Hp). congruence.
      * rewrite (should_include_undated _ _ _ Hp), Hrec. simpl. congruence.
      * rewrite (should_include_unreadable _ _ _ _ Hp). congruence.
    + pose proof (should_include_raise_state _ _ _ _ _ Hs) as ->.
      by rewrite Hrec.
  - intros Hu.
    assert (Hstep : ∀ lr filtered d,
      filter_step lr filtered a d = (Return (filtered ++ [a])%list, d)).
    { intros lr filtered d.
      by rewrite (filter_step_undated _ _ _ _ Hu (Hm d)), Hrec. }
    split; [done|].
    intros timestamp k d. unfold _filter_articles_by_timestamp.
    generalize (parse_iso_timestamp timestamp) as lr. intros lr.
    assert (Hloop : ∀ acc, filter_loop lr acc (replicate k a) d
                           = (Return (acc ++ replicate k a)%list, d)).
    { induction k as [|k IH]; intros acc; simpl.
      - by rewrite app_nil_r.
      - unfold mbind. rewrite Hstep. fold (replicate k a).
        rewrite IH. by rewrite <- app_assoc. }
    apply (Hloop []).
Qed.

(** *** The newsletter service *)

Lemma slice_to_nonneg {A} (l : list A) (k : Z) :
  0 ≤ k → slice_to l k = take (Z.to_nat k) l.
Proof. intros H. unfold slice_to. by rewrite (proj2 (Z.leb_le 0 k) H). Qed.

Lemma dict_lookup_set (dict : list (pyval * source_entry)) (key : pyval)
    (value : source_entry) :
  dict_lookup (dict_set dict key value) key = Some value.
Proof.
  induction dict as [|[k v] dict IH]; simpl.
  - unfold py_eqb. by rewrite bool_decide_eq_true_2.
  - destruct (py_eqb k key) eqn:Hk; simpl; by rewrite Hk.
Qed.

Lemma dict_set_Forall (P : source_entry → Prop)
    (dict : list (pyval * source_entry)) (key : pyval)
    (value : source_entry) :
  Forall (λ kv, P kv.2) dict → P value →
  Forall (λ kv, P kv.2) (dict_set dict key value).
Proof.
  intros Hd Hv. induction Hd as [|[k v] dict Hkv Hd IH]; simpl.
  - by constructor.
  - destruct (py_eqb k key); constructor; done.
Qed.

(** [process_source] on a feed that was extracted: the articles it
    returns are the output of the filter, run with the last run that
    the database holds for the URL. *)
Lemma process_source_filtered (source_url : string) (feed : ContentFeed)
    (now_utc : datetime) (p : processor) (out : list article)
    (d' : deque) :
  _filter_articles_by_timestamp
    (_content_feed_to_articles feed source_url)
    (last_successful_run (source_metadata p) source_url)
    (non_dated_processed_urls p) = (Return out, d') →
  process_source source_url (Return feed) now_utc p
  = (Return out,
     mk_processor d'
       (update_source_last_run
          (add_source (source_metadata p) source_url)
          source_url (replace_tzinfo now_utc None))).
Proof.
  intros Hf. unfold process_source, mbind, mlift, mget, mput, mret, on_deque.
  by rewrite Hf.
Qed.

Lemma collect_step_returns (max_articles_per_source : Z)
    (dict : list (pyval * source_entry))
    (source : string * outcome ContentFeed * datetime) (p : processor) :
  ∃ dict' p',
    collect_step max_articles_per_source dict source p
    = (Return dict', p')
    ∧ (dict' = dict
       ∨ ∃ key url articles first more,
           dict' = dict_set dict key (mk_source_entry url articles)
           ∧ articles = first :: more
           ∧ ∃ out, articles = slice_to out max_articles_per_source).
Proof.
  destruct source as [[source_url extracted] now_utc].
  unfold collect_step, mtry, mbind.
  destruct (process_source source_url extracted now_utc p)
    as [[articles|e] p1]; [|unfold mret; eauto].
  destruct articles as [|a0 rest]; [unfold mret; eauto|].
  set (kept := slice_to (a0 :: rest) max_articles_per_source).
  unfold mlift, mret.
  destruct kept as [|first more] eqn:Hk.
  - destruct (_ <? _); simpl; eauto.
  - destruct (_ <? _); simpl.
    + do 2 eexists. split; [done|]. right.
      exists (dict_get first "source" (PStr source_url)), source_url.
      do 3 eexists. split; [done|]. split; [done|].
      exists (a0 :: rest). by rewrite <- Hk.
    + do 2 eexists. split; [done|]. right.
      exists (dict_get first "source" (PStr source_url)), source_url.
      do 3 eexists. split; [done|]. split; [done|].
      exists (a0 :: rest). by rewrite <- Hk.
Qed.

Lemma collect_loop_bounded (max_articles_per_source : Z)
    (sources : list (string * outcome ContentFeed * datetime)) :
  0 ≤ max_articles_per_source →
  ∀ dict p,
    Forall (λ kv, (1 ≤ length (entry_articles kv.2))%nat
                  ∧ Z.of_nat (length (entry_articles kv.2))
                    ≤ max_articles_per_source) dict →
    ∃ dict' p',
      collect_loop max_articles_per_source dict sources p
      = (Return dict', p')
      ∧ Forall (λ kv, (1 ≤ length (entry_articles kv.2))%nat
                      ∧ Z.of_nat (length (entry_articles kv.2))
                        ≤ max_articles_per_source) dict'.
Proof.
  intros Hmax. induction sources as [|source rest IH]; intros dict p Hd.
  - simpl. unfold mret. eauto.
  - simpl. unfold mbind.
    destruct (collect_step_returns max_articles_per_source dict source p)
      as (dict1 & p1 & -> & Hcase).
    apply IH. destruct Hcase as [->|Hset]; [done|].
    destruct Hset as (key & url & articles & first & more & -> & Ha & out
                      & Hout).
    apply (dict_set_Forall
             (λ e, (1 ≤ length (entry_articles e))%nat
                   ∧ Z.of_nat (length (entry_articles e))
                     ≤ max_articles_per_source)); [done|].
    simpl. split; [rewrite Ha; simpl; lia|].
    rewrite Hout, (slice_to_nonneg _ _ Hmax), length_take. lia.
Qed.

(** C10, amended: with a limit of at least one article, a source whose
    filter output is not empty gets, at its turn, an entry under the
    label of its first article that holds exactly the first
    [min n max_articles_per_source] articles of that output in their
    order; a source whose filter output is empty leaves the dictionary
    as it is; and no entry of the result holds more articles than the
    limit. *)
Theorem per_source_limit_is_prefix (max_articles_per_source : Z)
    (dict : list (pyval * source_entry)) (source_url : string)
    (feed : ContentFeed) (now_utc : datetime) (p : processor)
    (out : list article) (d' : deque) :
  1 ≤ max_articles_per_source →
  _filter_articles_by_timestamp
    (_content_feed_to_articles feed source_url)
    (last_successful_run (source_metadata p) source_url)
    (non_dated_processed_urls p) = (Return out, d') →
  let kept := take (Z.to_nat max_articles_per_source) out in
  let step := collect_step max_articles_per_source dict
                (source_url, Return feed, now_utc) p in
  (∀ first more, out = first :: more →
     fst step = Return (dict_set dict
                          (dict_get first "source" (PStr source_url))
                          (mk_source_entry source_url kept))
     ∧ (∀ dict', fst step = Return dict' →
          dict_lookup dict' (dict_get first "source" (PStr source_url))
          = Some (mk_source_entry source_url kept)))
  ∧ kept `prefix_of` out
  ∧ length kept
    = Nat.min (length out) (Z.to_nat max_articles_per_source)
  ∧ Z.of_nat (length kept) ≤ max_articles_per_source
  ∧ (out = [] → fst step = Return dict)
  ∧ (∀ sources p0 result p1,
       _collect_articles_from_sources max_articles_per_source sources p0
       = (Return result, p1) →
       Forall (λ kv, Z.of_nat (length (entry_articles kv.2))
                     ≤ max_articles_per_source) result).
Proof.
  intros Hmax Hf kept step.
  pose proof (process_source_filtered _ _ now_utc _ _ _ Hf) as Hps.
  assert (Hentry : ∀ first more, out = first :: more →
    fst step = Return (dict_set dict
                         (dict_get first "source" (PStr source_url))
                         (mk_source_entry source_url kept))).
  { intros first more Hout. subst step kept.
    unfold collect_step, mtry, mbind. rewrite Hps, Hout.
    rewrite (slice_to_nonneg _ max_articles_per_source) by lia.
    destruct (Z.to_nat max_articles_per_source) as [|k] eqn:Hk; [lia|].
    simpl. by destruct (_ <? _). }
  split; [|split; [|split; [|split; [|split]]]].
  - intros first more Hout. split; [by apply (Hentry first more)|].
    intros dict' Hd. rewrite (Hentry first more Hout) in Hd.
    injection Hd as <-. apply dict_lookup_set.
  - apply prefix_take.
  - subst kept. rewrite length_take. lia.
  - subst kept. rewrite length_take. lia.
  - intros ->. subst step. unfold collect_step, mtry, mbind.
    by rewrite Hps.
  - intros sources p0 result p1 Hres.
    destruct (collect_loop_bounded max_articles_per_source sources
                ltac:(lia) [] p0 ltac:(constructor))
      as (dict' & p' & Hloop & Hall).
    unfold _collect_articles_from_sources in Hres.
    rewrite Hloop in Hres. injection Hres as <- <-.
    eapply Forall_impl; [exact Hall|]. by intros kv [_ ?].
Qed.

(** *** The daemon *)

Lemma dt_ltb_irrefl (a : datetime) : dt_ltb a a = false.
Proof. apply lex_ltb_irrefl. Qed.

Lemma dt_ltb_trans (a b c : datetime) :
  dt_ltb a b = true → dt_ltb b c = true → dt_ltb a c = true.
Proof. apply lex_ltb_trans. Qed.

Lemma fold_min_spec (xs : list datetime) :
  ∀ x seen,
    x ∈ seen →
    Forall (λ t, dt_ltb t x = false) seen →
    let m := fold_left (λ m y, if dt_ltb y m then y else m) xs x in
    m ∈ (seen ++ xs)%list
    ∧ Forall (λ t, dt_ltb t m = false) (seen ++ xs)%list.
Proof.
  induction xs as [|y xs IH]; intros x seen Hx Hseen; simpl.
  - rewrite app_nil_r. done.
  - replace (seen ++ y :: xs)%list with ((seen ++ [y]) ++ xs)%list
      by (by rewrite <- app_assoc).
    apply IH.
    + apply elem_of_app. destruct (dt_ltb y x); [right|by left].
      by apply list_elem_of_singleton.
    + destruct (dt_ltb y x) eqn:Hyx.
      * apply Forall_app. split.
        -- eapply Forall_impl; [exact Hseen|]. simpl. intros t Ht.
           destruct (dt_ltb t y) eqn:Hty; [|done].
           by rewrite (dt_ltb_trans t y x Hty Hyx) in Ht.
        -- constructor; [apply dt_ltb_irrefl|constructor].
      * apply Forall_app. split; [done|].
        constructor; [done|constructor].
Qed.

(** [min] of a list that is not empty returns an element of the list
    that no element is less than. *)
Lemma py_min_spec (l : list datetime) :
  l ≠ [] →
  ∃ m, py_min l = Return m ∧ m ∈ l
       ∧ Forall (λ t, dt_ltb t m = false) l.
Proof.
  destruct l as [|x xs]; [done|]. intros _. simpl. eexists. split; [done|].
  apply (fold_min_spec xs x [x]); [by apply list_elem_of_singleton|].
  constructor; [apply dt_ltb_irrefl|constructor].
Qed.

(** Every iterator is set to the current time before it is asked, so
    the times collected do not depend on where the iterators stood. *)
Lemma next_times_loop_from_now (now : datetime) (crons : list croniter) :
  ∀ (ts acc : list datetime),
    Forall2 (λ c t, croniter_next (cron_expr c) now = Return t) crons ts →
    next_times_loop now acc crons
    = (Return (acc ++ ts)%list,
       zip_with (λ c t, mk_croniter (cron_expr c) t) crons ts).
Proof.
  induction crons as [|c crons IH]; intros ts acc Hall.
  - apply Forall2_nil_inv_l in Hall as ->. simpl. by rewrite app_nil_r.
  - apply Forall2_cons_inv_l in Hall as (t & ts' & Ht & Hall & ->).
    simpl. unfold get_next, set_current. simpl. rewrite Ht. simpl.
    rewrite (IH ts' (acc ++ [t])%list Hall). by rewrite <- app_assoc.
Qed.

Lemma get_next_run_time_from_now (now : datetime) (crons : list croniter)
    (ts : list datetime) :
  Forall2 (λ c t, croniter_next (cron_expr c) now = Return t) crons ts →
  _get_next_run_time now crons
  = (py_min ts, zip_with (λ c t, mk_croniter (cron_expr c) t) crons ts).
Proof.
  intros Hall. unfold _get_next_run_time.
  rewrite (next_times_loop_from_now now crons ts [] Hall). simpl.
  by destruct (py_min ts).
Qed.

Lemma init_loop_valid (frequencies : list string) (now : datetime) :
  ∀ crons,
    Forall (λ f, croniter_check f = Return tt) frequencies →
    NewsletterDaemon_init_loop crons frequencies now
    = Return (crons ++ map (λ f, mk_croniter f now) frequencies)%list.
Proof.
  induction frequencies as [|f rest IH]; intros crons Hall; simpl.
  - by rewrite app_nil_r.
  - apply Forall_cons in Hall as [Hf Hall].
    unfold croniter_new. rewrite Hf. simpl.
    rewrite (IH _ Hall). by rewrite <- app_assoc.
Qed.

Lemma init_loop_returns (frequencies : list string) (now : datetime) :
  ∀ crons result,
    NewsletterDaemon_init_loop crons frequencies now = Return result →
    Forall (λ f, croniter_check f = Return tt) frequencies.
Proof.
  induction frequencies as [|f rest IH]; intros crons result Hr;
    [constructor|].
  simpl in Hr. unfold croniter_new in Hr.
  destruct (croniter_check f) as [[]|e] eqn:Hf; [|done].
  simpl in Hr. constructor; [done|]. by apply (IH _ _ Hr).
Qed.

Lemma validate_each_returns (frequencies : list string) :
  validate_each frequencies = Return tt →
  Forall (λ f, croniter_check f = Return tt) frequencies.
Proof.
  induction frequencies as [|f rest IH]; intros Hr; [constructor|].
  simpl in Hr. destruct (String.eqb f ""); [done|].
  destruct (croniter_check f) as [[]|e] eqn:Hf.
  - simpl in Hr. constructor; [done|]. by apply IH.
  - simpl in Hr. by destruct e.
Qed.

(** *** More on the filter and the deque *)

Lemma should_include_state (a : article) (lr : option datetime)
    (d d' : deque) (r : outcome bool) :
  _should_include_article a lr d = (r, d') →
  d' = d ∨ d' = snd (record_url (link_of a) d).
Proof.
  destruct (parse_date (pubDate_of a)) as [[date|]|e'] eqn:Hp.
  - destruct lr as [last_run|].
    + rewrite (should_include_dated_known _ _ _ _ Hp).
      destruct (normalize_datetime_to_utc_naive date); intros [= _ <-];
        by left.
    + rewrite (should_include_dated_first_run _ _ _ Hp).
      intros [= _ <-]. by left.
  - rewrite (should_include_undated _ _ _ Hp). intros [= _ <-]. by right.
  - rewrite (should_include_unreadable _ _ _ _ Hp). intros [= _ <-].
    by left.
Qed.

(** One turn of the loop keeps the list built so far or adds the article
    at its end, and leaves the deque as it was or as the guarded append
    of the link makes it. *)
Lemma filter_step_cases (lr : option datetime) (filtered : list article)
    (a : article) (d : deque) :
  ∃ out d',
    filter_step lr filtered a d = (Return out, d')
    ∧ (out = filtered ∨ out = (filtered ++ [a])%list)
    ∧ (d' = d ∨ d' = snd (record_url (link_of a) d)).
Proof.
  destruct (cache_hit d a) eqn:Hh.
  - rewrite (filter_step_hit _ _ _ _ Hh).
    exists filtered, d. split; [done|]. split; by left.
  - rewrite (filter_step_miss _ _ _ _ Hh).
    destruct (_should_include_article a lr d) as [[inc|e] d1] eqn:Hs.
    + apply should_include_state in Hs.
      do 2 eexists. split; [done|]. split; [destruct inc; auto|done].
    + apply should_include_raise_state in Hs as ->.
      do 2 eexists. split; [done|]. split; auto.
Qed.

Lemma filter_loop_sublist (lr : option datetime) (articles : list article) :
  ∀ filtered d, ∃ kept d',
    filter_loop lr filtered articles d = (Return (filtered ++ kept)%list, d')
    ∧ kept `sublist_of` articles.
Proof.
  induction articles as [|a rest IH]; intros filtered d.
  - exists [], d. simpl. rewrite app_nil_r. by split.
  - destruct (filter_step_cases lr filtered a d)
      as (out & d1 & Hstep & Hout & _).
    rewrite (filter_loop_cons _ _ _ _ _ _ _ Hstep).
    destruct (IH out d1) as (kept & d' & -> & Hsub).
    destruct Hout as [->| ->].
    + exists kept, d'. split; [done|]. by apply sublist_cons.
    + exists (a :: kept), d'. split; [by rewrite <- app_assoc|].
      by apply sublist_skip.
Qed.

Lemma deque_append_items (d : deque) (x : pyval) :
  items (deque_append d x) = (items d ++ [x])%list
  ∨ items (deque_append d x) = drop 1 (items d ++ [x])%list.
Proof.
  unfold deque_append. destruct (maxlen d) as [m|]; [|by left].
  destruct (m <? _)%nat; [by right|by left].
Qed.

Lemma record_url_wf (x : pyval) (d : deque) :
  deque_wf d → deque_wf (snd (record_url x d)).
Proof.
  intros (Hnd & Htr & Hlen). unfold record_url.
  destruct (truthy x) eqn:Hx; [|done].
  destruct (deque_contains d x) eqn:Hin; [done|]. simpl.
  apply deque_contains_false in Hin.
  assert (Hnd' : NoDup (items d ++ [x])%list).
  { apply NoDup_app. split; [done|]. split; [|apply NoDup_singleton].
    intros y Hy Hyx. apply list_elem_of_singleton in Hyx. by subst y. }
  assert (Htr' : Forall (λ x, truthy x = true) (items d ++ [x])%list).
  { apply Forall_app. split; [done|]. by constructor. }
  split; [|split].
  - destruct (deque_append_items d x) as [->| ->]; [done|].
    apply (sublist_NoDup _ _ Hnd'), sublist_drop.
  - destruct (deque_append_items d x) as [->| ->]; [done|].
    by apply Forall_drop.
  - rewrite deque_append_maxlen.
    destruct (maxlen d) as [C|] eqn:Hm; [|done].
    by apply deque_append_bounded.
Qed.

Lemma filter_loop_wf (lr : option datetime) (articles : list article) :
  ∀ filtered d,
    deque_wf d →
    deque_wf (snd (filter_loop lr filtered articles d))
    ∧ maxlen (snd (filter_loop lr filtered articles d)) = maxlen d.
Proof.
  induction articles as [|a rest IH]; intros filtered d Hwf; [done|].
  destruct (filter_step_cases lr filtered a d)
    as (out & d1 & Hstep & _ & Hd1).
  rewrite (filter_loop_cons _ _ _ _ _ _ _ Hstep).
  assert (Hwf1 : deque_wf d1 ∧ maxlen d1 = maxlen d).
  { destruct Hd1 as [->| ->]; [done|].
    split; [by apply record_url_wf|apply record_url_maxlen]. }
  destruct Hwf1 as [Hwf1 Hm1].
  destruct (IH out d1 Hwf1) as [? Hm]. split; [done|]. by rewrite Hm.
Qed.

(** C8, amended: constructing the processor with a negative capacity
    raises, for every negative capacity: [ValueError] from the
    constructor of the deque when the capacity is in the range of
    [Py_ssize_t], [OverflowError] from the conversion below that range.
    Capacity zero is accepted and gives a deque that never retains an
    identifier: it is empty, and whatever identifiers are recorded and
    whatever batches are filtered, it stays the empty deque of bound
    zero. *)
Theorem negative_capacity_rejected (db : database) (C : Z) :
  (C < 0 →
   ContentProcessor_init db (Some C)
   = Raise (if C <? PY_SSIZE_T_MIN then OverflowError else ValueError))
  ∧ ContentProcessor_init db (Some 0)
    = Return (mk_processor (mk_deque [] (Some 0%nat)) db)
  ∧ (∀ x : pyval, deque_contains (mk_deque [] (Some 0%nat)) x = false)
  ∧ (∀ ids : list pyval,
       record_all ids (mk_deque [] (Some 0%nat)) = mk_deque [] (Some 0%nat))
  ∧ (∀ (articles : list article) (timestamp : option string),
       snd (_filter_articles_by_timestamp articles timestamp
              (mk_deque [] (Some 0%nat)))
       = mk_deque [] (Some 0%nat)).
Proof.
  split; [|split; [|split; [|split]]].
  - intros H. unfold ContentProcessor_init, deque_new.
    destruct (Z.ltb_spec C PY_SSIZE_T_MIN) as [Hlow|Hlow]; [done|].
    assert (Hhigh : (PY_SSIZE_T_MAX <? C) = false).
    { apply Z.ltb_ge. unfold PY_SSIZE_T_MAX. lia. }
    rewrite Hhigh. simpl. by rewrite (proj2 (Z.ltb_lt C 0) H).
  - reflexivity.
  - done.
  - intros ids. by apply record_all_zero.
  - intros articles timestamp.
    destruct (filter_loop_wf (parse_iso_timestamp timestamp) articles []
                (mk_deque [] (Some 0%nat))) as [(_ & _ & Hlen) Hm].
    { split; [constructor|]. split; [constructor|]. simpl. lia. }
    unfold _filter_articles_by_timestamp.
    destruct (snd (filter_loop _ _ _ _)) as [l m]. simpl in *. subst m.
    destruct l; [done|]. simpl in Hlen. lia.
Qed.

Lemma deque_append_room (d : deque) (x : pyval) (n : nat) :
  has_room d (S n) →
  items (deque_append d x) = (items d ++ [x])%list
  ∧ has_room (deque_append d x) n.
Proof.
  unfold has_room, deque_append. destruct (maxlen d) as [C|]; [|done].
  intros Hroom.
  assert (Hlt : (C <? length (items d ++ [x]))%nat = false).
  { apply Nat.ltb_ge. rewrite length_app. simpl. lia. }
  rewrite Hlt. simpl. split; [done|]. rewrite length_app. simpl. lia.
Qed.

Lemma record_url_room (x : pyval) (d : deque) (n : nat) :
  has_room d (S n) →
  has_room (snd (record_url x d)) n
  ∧ items d ⊆ items (snd (record_url x d))
  ∧ (truthy x = true → x ∈ items (snd (record_url x d))).
Proof.
  intros Hroom.
  assert (Hless : has_room d n).
  { unfold has_room in *. destruct (maxlen d); [lia|done]. }
  unfold record_url. destruct (truthy x) eqn:Hx; simpl.
  - destruct (deque_contains d x) eqn:Hin; simpl.
    + split; [done|]. split; [done|]. intros _.
      by apply deque_contains_true.
    + destruct (deque_append_room d x n Hroom) as [-> ?].
      split; [done|]. split.
      * intros y Hy. apply elem_of_app. by left.
      * intros _. apply elem_of_app. right. by apply list_elem_of_singleton.
  - split; [done|]. split; [done|]. done.
Qed.

Lemma has_room_weaken (d : deque) (n : nat) :
  has_room d (S n) → has_room d n.
Proof. unfold has_room. destruct (maxlen d); [lia|done]. Qed.

(** With room for the whole batch nothing is dropped from the deque, and
    the link of every undated article of the batch is in it at the end. *)
Lemma filter_loop_room (lr : option datetime) (articles : list article) :
  ∀ filtered d out d',
    has_room d (length articles) →
    filter_loop lr filtered articles d = (Return out, d') →
    items d ⊆ items d'
    ∧ ∀ a, a ∈ articles → undated a → truthy (link_of a) = true →
           link_of a ∈ items d'.
Proof.
  induction articles as [|a rest IH]; intros filtered d out d' Hroom Hloop.
  - simpl in Hloop. unfold mret in Hloop. injection Hloop as <- <-.
    split; [done|]. intros a Ha. by apply elem_of_nil in Ha.
  - simpl in Hroom.
    destruct (filter_step_cases lr filtered a d)
      as (out1 & d1 & Hstep & _ & Hd1).
    rewrite (filter_loop_cons _ _ _ _ _ _ _ Hstep) in Hloop.
    destruct (record_url_room (link_of a) d _ Hroom) as (Hr1 & Hsub1 & Hin1).
    assert (Hroom1 : has_room d1 (length rest)).
    { destruct Hd1 as [->| ->]; [by apply has_room_weaken|done]. }
    assert (Hsub : items d ⊆ items d1).
    { destruct Hd1 as [->| ->]; done. }
    destruct (IH out1 d1 out d' Hroom1 Hloop) as [Hsub' Hall].
    split; [by etrans|].
    intros b Hb Hu Ht. apply elem_of_cons in Hb as [->|Hb]; [|by apply Hall].
    apply Hsub'.
    destruct (cache_hit d a) eqn:Hh.
    + rewrite (filter_step_hit _ _ _ _ Hh) in Hstep.
      injection Hstep as _ <-. apply deque_contains_true.
      unfold cache_hit in Hh. by apply andb_true_iff in Hh as [_ ?].
    + rewrite (filter_step_undated _ _ _ _ Hu Hh) in Hstep.
      injection Hstep as _ <-. by apply Hin1.
Qed.

Lemma filter_loop_all_hits (lr : option datetime) (articles : list article)
    (d : deque) :
  Forall (λ a, cache_hit d a = true) articles →
  ∀ filtered, filter_loop lr filtered articles d = (Return filtered, d).
Proof.
  induction 1 as [|a rest Ha _ IH]; intros filtered; [done|].
  rewrite (filter_loop_cons _ _ _ _ _ _ _ (filter_step_hit lr filtered a d Ha)).
  apply IH.
Qed.

Lemma record_url_items (x : pyval) (d : deque) :
  items (snd (record_url x d)) ⊆ x :: items d.
Proof.
  unfold record_url. destruct (_ && _); simpl.
  - intros y Hy. destruct (deque_append_items d x) as [H|H]; rewrite H in Hy.
    + apply elem_of_app in Hy as [Hy|Hy]; [by apply list_elem_of_further|].
      apply list_elem_of_singleton in Hy as ->. apply list_elem_of_here.
    + apply (subseteq_drop 1) in Hy.
      apply elem_of_app in Hy as [Hy|Hy]; [by apply list_elem_of_further|].
      apply list_elem_of_singleton in Hy as ->. apply list_elem_of_here.
  - intros y Hy. by apply list_elem_of_further.
Qed.

(** Without a last run nothing is compared: every article that is not a
    cache hit at its turn is included. *)
Lemma filter_step_first_run (filtered : list article) (a : article)
    (d : deque) :
  cache_hit d a = false →
  ∃ d', filter_step None filtered a d = (Return (filtered ++ [a])%list, d')
        ∧ (d' = d ∨ d' = snd (record_url (link_of a) d)).
Proof.
  intros Hm. rewrite (filter_step_miss _ _ _ _ Hm).
  destruct (parse_date (pubDate_of a)) as [[date|]|e] eqn:Hp.
  - rewrite (should_include_dated_first_run _ _ _ Hp). eauto.
  - rewrite (should_include_undated _ _ _ Hp). eauto.
  - rewrite (should_include_unreadable _ _ _ _ Hp). eauto.
Qed.

Lemma filter_loop_first_run (articles : list article) :
  ∀ filtered d,
    NoDup (map (λ a : article, link_of a) articles) →
    (∀ a, a ∈ articles → link_of a ∉ items d) →
    ∃ d', filter_loop None filtered articles d
          = (Return (filtered ++ articles)%list, d').
Proof.
  induction articles as [|a rest IH]; intros filtered d Hnd Hfresh.
  - exists d. simpl. by rewrite app_nil_r.
  - simpl in Hnd. apply NoDup_cons in Hnd as [Ha Hnd].
    assert (Hm : cache_hit d a = false).
    { unfold cache_hit. apply andb_false_iff. right.
      apply deque_contains_false. apply Hfresh. apply list_elem_of_here. }
    destruct (filter_step_first_run filtered a d Hm) as (d1 & Hstep & Hd1).
    rewrite (filter_loop_cons _ _ _ _ _ _ _ Hstep).
    destruct (IH (filtered ++ [a])%list d1 Hnd) as (d' & ->).
    + intros b Hb Hin.
      assert (Hin' : link_of b ∈ link_of a :: items d).
      { destruct Hd1 as [->| ->]; [by apply list_elem_of_further|].
        by apply record_url_items. }
      apply elem_of_cons in Hin' as [Heq|Hin'].
      * apply Ha. rewrite <- Heq.
        apply (list_elem_of_fmap_2 (λ a : article, link_of a)). done.
      * apply (Hfresh b); [by apply list_elem_of_further|done].
    + exists d'. by rewrite <- app_assoc.
Qed.

(** X1: the filter returns, and what it returns is made of articles of
    the batch, each at most once and in the order of the batch. *)
Theorem filter_output_is_sublist (articles : list article)
    (timestamp : option string) (d : deque) :
  ∃ out d',
    _filter_articles_by_timestamp articles timestamp d = (Return out, d')
    ∧ out `sublist_of` articles.
Proof.
  unfold _filter_articles_by_timestamp.
  destruct (filter_loop_sublist (parse_iso_timestamp timestamp) articles [] d)
    as (kept & d' & Hloop & Hsub).
  exists kept, d'. by split.
Qed.

(** X2: a deque made by the constructor holds distinct, non-empty
    identifiers within its bound, and a run of the filter keeps a deque
    so, without changing the bound. *)
Theorem filter_keeps_deque_invariant :
  (∀ (n : option Z) (d : deque), deque_new n = Return d → deque_wf d)
  ∧ (∀ (articles : list article) (timestamp : option string) (d : deque),
       deque_wf d →
       deque_wf (snd (_filter_articles_by_timestamp articles timestamp d))
       ∧ maxlen (snd (_filter_articles_by_timestamp articles timestamp d))
         = maxlen d).
Proof.
  split.
  - intros [k|] d; unfold deque_new.
    + destruct (_ || _); [done|]. destruct (k <? 0); [done|]. intros [= <-].
      split; [constructor|]. split; [constructor|simpl; lia].
    + intros [= <-]. split; [constructor|]. split; [constructor|done].
  - intros articles timestamp d Hwf. by apply filter_loop_wf.
Qed.

(** X3: when the deque has room for a whole batch of undated articles
    with non-empty links, filtering the batch again, with whatever last
    run, returns nothing and leaves the deque as the first run left it. *)
Theorem undated_batch_not_redelivered (articles : list article)
    (timestamp timestamp' : option string) (d d' : deque)
    (out : list article) :
  has_room d (length articles) →
  Forall (λ a, undated a ∧ truthy (link_of a) = true) articles →
  _filter_articles_by_timestamp articles timestamp d = (Return out, d') →
  _filter_articles_by_timestamp articles timestamp' d' = (Return [], d').
Proof.
  intros Hroom Hall Hrun. unfold _filter_articles_by_timestamp in *.
  destruct (filter_loop_room _ _ _ _ _ _ Hroom Hrun) as [_ Hin].
  apply filter_loop_all_hits. rewrite Forall_forall in Hall.
  apply Forall_forall. intros a Ha. destruct (Hall a Ha) as [Hu Ht].
  unfold cache_hit. rewrite Ht. simpl. apply deque_contains_true.
  by apply Hin.
Qed.

(** X4: without a usable last run (none stored, or one that does not
    parse), a batch whose links are distinct and not in the deque is
    returned whole. *)
Theorem first_run_returns_whole_batch (articles : list article)
    (timestamp : option string) (d : deque) :
  parse_iso_timestamp timestamp = None →
  NoDup (map (λ a : article, link_of a) articles) →
  (∀ a, a ∈ articles → link_of a ∉ items d) →
  fst (_filter_articles_by_timestamp articles timestamp d) = Return articles.
Proof.
  intros Hts Hnd Hfresh. unfold _filter_articles_by_timestamp. rewrite Hts.
  by destruct (filter_loop_first_run articles [] d Hnd Hfresh) as (d' & ->).
Qed.

(** *** More on [process_source] and the service *)

Lemma str_or_nonempty (x y : string) : y ≠ "" → str_or x y ≠ "".
Proof.
  intros Hy. unfold str_or. destruct (String.eqb x "") eqn:Hx; [done|].
  by apply String.eqb_neq.
Qed.

(** The articles made from a feed: one per item, each with a string
    under the keys the filter and the service read. *)
Lemma content_feed_article_fields (feed : ContentFeed) (source_url : string)
    (a : article) :
  a ∈ _content_feed_to_articles feed source_url →
  ∃ item, item ∈ feed_items feed
    ∧ link_of a = PStr (item_link item)
    ∧ pubDate_of a = PStr (item_pubDate item)
    ∧ dict_get a "source" (PStr source_url)
      = PStr (str_or (channel_title (channel feed)) source_url)
    ∧ a !! "title" = Some (PStr (str_or (item_title item) "No Title")).
Proof.
  unfold _content_feed_to_articles. intros Ha.
  apply list_elem_of_fmap in Ha as (item & -> & Hitem).
  exists item. split; [done|]. unfold dict_get.
  assert (Hstr : ∀ x, str_or x "" = x).
  { intros x. unfold str_or. by destruct (String.eqb x "") eqn:Hx;
      [apply String.eqb_eq in Hx|]. }
  repeat split; simplify_map_eq; by rewrite ?Hstr.
Qed.

Lemma add_source_lookup (db : database) (url url' : string) :
  url' ≠ url → add_source db url !! url' = db !! url'.
Proof.
  intros Hne. unfold add_source. destruct (db !! url); [done|].
  by rewrite lookup_insert_ne.
Qed.

Lemma add_source_present (db : database) (url : string) :
  is_Some (add_source db url !! url).
Proof.
  unfold add_source. destruct (db !! url) eqn:Hu; [by rewrite Hu|].
  by rewrite lookup_insert_eq.
Qed.

Lemma process_source_sublist (source_url : string) (feed : ContentFeed)
    (now_utc : datetime) (p : processor) :
  ∃ out d',
    process_source source_url (Return feed) now_utc p
    = (Return out,
       mk_processor d'
         (update_source_last_run
            (add_source (source_metadata p) source_url)
            source_url (replace_tzinfo now_utc None)))
    ∧ out `sublist_of` _content_feed_to_articles feed source_url.
Proof.
  destruct (filter_loop_sublist
              (parse_iso_timestamp
                 (last_successful_run (source_metadata p) source_url))
              (_content_feed_to_articles feed source_url) []
              (non_dated_processed_urls p)) as (out & d' & Hf & Hsub).
  exists out, d'. split; [|done].
  by apply process_source_filtered.
Qed.

(** X5: when the extraction succeeded, [process_source] returns a part
    of the articles of the feed, in their order; afterwards the database
    holds the time of this run for the URL, and the rows of the other
    URLs are as before. *)
Theorem process_source_records_run (source_url : string)
    (feed : ContentFeed) (now_utc : datetime) (p : processor) :
  ∃ out p',
    process_source source_url (Return feed) now_utc p = (Return out, p')
    ∧ out `sublist_of` _content_feed_to_articles feed source_url
    ∧ last_successful_run (source_metadata p') source_url
      = Some (isoformat (replace_tzinfo now_utc None))
    ∧ ∀ url, url ≠ source_url →
             source_metadata p' !! url = source_metadata p !! url.
Proof.
  destruct (process_source_sublist source_url feed now_utc p)
    as (out & d' & Hrun & Hsub).
  rewrite Hrun.
  do 2 eexists. split; [done|]. split; [done|]. simpl.
  unfold last_successful_run, update_source_last_run.
  destruct (add_source_present (source_metadata p) source_url) as [row Hrow].
  rewrite Hrow. split.
  - by rewrite lookup_insert_eq.
  - intros url Hne. rewrite lookup_insert_ne by done.
    by apply add_source_lookup.
Qed.

(** X6: a source whose extraction raises changes neither the deque nor
    the database, and the pass gives the result and leaves the state it
    would without that source, wherever the source stands in the list. *)
Theorem failing_source_is_skipped (max_articles_per_source : Z)
    (source_url : string) (e : exn) (now_utc : datetime)
    (before after : list (string * outcome ContentFeed * datetime))
    (p : processor) :
  process_source source_url (Raise e) now_utc p = (Raise e, p)
  ∧ _collect_articles_from_sources max_articles_per_source
      (before ++ (source_url, Raise e, now_utc) :: after)%list p
    = _collect_articles_from_sources max_articles_per_source
        (before ++ after)%list p.
Proof.
  split; [done|]. unfold _collect_articles_from_sources.
  generalize (@nil (pyval * source_entry)) as dict. revert p.
  induction before as [|source before IH]; intros p dict; [done|].
  simpl. unfold mbind.
  destruct (collect_step max_articles_per_source dict source p)
    as [[dict1|e1] p1]; [apply IH|done].
Qed.

Lemma collect_step_entries (max_articles_per_source : Z)
    (dict : list (pyval * source_entry))
    (source : string * outcome ContentFeed * datetime) (p : processor)
    (P : source_entry → Prop) :
  Forall (λ kv, P kv.2) dict →
  (∀ articles first more,
     articles = first :: more →
     P (mk_source_entry source.1.1 articles)) →
  ∃ dict' p',
    collect_step max_articles_per_source dict source p = (Return dict', p')
    ∧ Forall (λ kv, P kv.2) dict'.
Proof.
  intros Hd HP. destruct source as [[source_url extracted] now_utc].
  unfold collect_step, mtry, mbind.
  destruct (process_source source_url extracted now_utc p)
    as [[articles|e] p1]; [|unfold mret; eauto].
  destruct articles as [|a0 rest]; [unfold mret; eauto|].
  set (kept := slice_to (a0 :: rest) max_articles_per_source).
  unfold mlift, mret.
  destruct kept as [|first more] eqn:Hk.
  - destruct (_ <? _); simpl; eauto.
  - destruct (_ <? _); simpl; do 2 eexists; (split; [done|]);
      apply dict_set_Forall; try done; by apply (HP _ first more).
Qed.

(** X7: collecting never raises, whatever the limit and whatever the
    sources do; every entry of the result has at least one article and
    belongs to one of the sources given. *)
Theorem collect_never_raises (max_articles_per_source : Z)
    (sources : list (string * outcome ContentFeed * datetime))
    (p : processor) :
  ∃ result p',
    _collect_articles_from_sources max_articles_per_source sources p
    = (Return result, p')
    ∧ Forall (λ kv, entry_articles kv.2 ≠ []
                    ∧ entry_url kv.2 ∈ map (λ s, s.1.1) sources) result.
Proof.
  unfold _collect_articles_from_sources.
  assert (Hgen : ∀ (done_ todo : list (string * outcome ContentFeed * datetime))
                   dict p,
    Forall (λ kv, entry_articles kv.2 ≠ []
                  ∧ entry_url kv.2 ∈ map (λ s, s.1.1) (done_ ++ todo)) dict →
    ∃ result p',
      collect_loop max_articles_per_source dict todo p = (Return result, p')
      ∧ Forall (λ kv, entry_articles kv.2 ≠ []
                      ∧ entry_url kv.2 ∈ map (λ s, s.1.1) (done_ ++ todo))
          result).
  { intros done_ todo. revert done_.
    induction todo as [|source rest IH]; intros done_ dict p0 Hd.
    - simpl. unfold mret. eauto.
    - simpl. unfold mbind.
      destruct (collect_step_entries max_articles_per_source dict source p0
                  (λ e, entry_articles e ≠ []
                        ∧ entry_url e ∈ map (λ s, s.1.1)
                                         (done_ ++ source :: rest)) Hd)
        as (dict1 & p1 & -> & Hd1).
      { intros articles first more ->. split; [done|]. simpl.
        apply (list_elem_of_fmap_2 (λ s, s.1.1)).
        apply elem_of_app. right. apply list_elem_of_here. }
      replace (done_ ++ source :: rest)%list
        with ((done_ ++ [source]) ++ rest)%list in *
        by (by rewrite <- app_assoc).
      by apply IH. }
  apply (Hgen [] sources [] p). constructor.
Qed.

(** X8: with a limit of at least one, the entry of a source whose
    processing returns articles is stored under the title of the channel
    of its feed, and under the URL of the source when that title is
    empty. *)
Theorem source_label_is_title_or_url (max_articles_per_source : Z)
    (dict : list (pyval * source_entry)) (source_url : string)
    (feed : ContentFeed) (now_utc : datetime) (p : processor)
    (first : article) (more : list article) :
  1 ≤ max_articles_per_source →
  fst (process_source source_url (Return feed) now_utc p)
  = Return (first :: more) →
  fst (collect_step max_articles_per_source dict
         (source_url, Return feed, now_utc) p)
  = Return (dict_set dict
              (PStr (str_or (channel_title (channel feed)) source_url))
              (mk_source_entry source_url
                 (take (Z.to_nat max_articles_per_source) (first :: more)))).
Proof.
  intros Hmax Hps.
  destruct (process_source_sublist source_url feed now_utc p)
    as (out & d' & Hrun & Hsub).
  rewrite Hrun in Hps. simpl in Hps. injection Hps as ->.
  assert (Hfirst : first ∈ _content_feed_to_articles feed source_url).
  { apply (sublist_subseteq _ _ Hsub). apply list_elem_of_here. }
  destruct (content_feed_article_fields _ _ _ Hfirst)
    as (item & _ & _ & _ & Hsrc & _).
  unfold collect_step, mtry, mbind. rewrite Hrun.
  rewrite (slice_to_nonneg _ max_articles_per_source) by lia.
  destruct (Z.to_nat max_articles_per_source) as [|k] eqn:Hk; [lia|].
  simpl. rewrite Hsrc. by destruct (_ <? _).
Qed.

(** *** More on the daemon *)

Lemma next_times_loop_failure (now : datetime) (before : list croniter) :
  ∀ (ts acc : list datetime) (c : croniter) (after : list croniter)
    (e : exn),
    Forall2 (λ c t, croniter_next (cron_expr c) now = Return t) before ts →
    croniter_next (cron_expr c) now = Raise e →
    next_times_loop now acc (before ++ c :: after)
    = (Raise e,
       (zip_with (λ c t, mk_croniter (cron_expr c) t) before ts
        ++ set_current c now :: after)%list).
Proof.
  induction before as [|b before IH]; intros ts acc c after e Hall Hc.
  - apply Forall2_nil_inv_l in Hall as ->. simpl.
    unfold get_next, set_current. simpl. by rewrite Hc.
  - apply Forall2_cons_inv_l in Hall as (t & ts' & Ht & Hall & ->).
    simpl. unfold get_next at 1. unfold set_current at 1. simpl.
    rewrite Ht. simpl.
    by rewrite (IH ts' (acc ++ [t])%list c after e Hall Hc).
Qed.

Lemma next_times_loop_expressions (now : datetime) (crons : list croniter) :
  ∀ (crons' : list croniter) (acc : list datetime),
    map cron_expr crons = map cron_expr crons' →
    fst (next_times_loop now acc crons)
    = fst (next_times_loop now acc crons')
    ∧ map cron_expr (snd (next_times_loop now acc crons))
      = map cron_expr crons.
Proof.
  induction crons as [|c crons IH]; intros [|c' crons'] acc Heq;
    try done.
  simpl in Heq. injection Heq as Hc Heq. simpl.
  unfold get_next, set_current. simpl. rewrite <- Hc.
  destruct (croniter_next (cron_expr c) now) as [t|e]; simpl; [|done].
  destruct (IH crons' (acc ++ [t])%list Heq) as [Hfst Hexpr].
  destruct (next_times_loop now (acc ++ [t]) crons) as [r rest].
  destruct (next_times_loop now (acc ++ [t]) crons') as [r' rest'].
  simpl in *. split; [done|]. by rewrite Hexpr.
Qed.

(** X9: a list of frequencies that passes the validation of the
    configuration is not empty, has no empty expression, and makes the
    constructor of the daemon return one iterator per frequency, in
    order. *)
Theorem validated_frequencies_make_a_daemon (frequencies : list string)
    (now : datetime) :
  _validate_frequencies frequencies = Return tt →
  frequencies ≠ []
  ∧ Forall (λ f, f ≠ "") frequencies
  ∧ NewsletterDaemon_init frequencies now
    = Return (map (λ f, mk_croniter f now) frequencies).
Proof.
  intros Hv.
  assert (Hne : frequencies ≠ []) by (by destruct frequencies).
  assert (Hve : validate_each frequencies = Return tt)
    by (by destruct frequencies).
  split; [done|]. split.
  - clear Hv Hne. induction frequencies as [|f rest IH]; [constructor|].
    simpl in Hve. destruct (String.eqb f "") eqn:Hf; [done|].
    apply String.eqb_neq in Hf. constructor; [done|]. apply IH.
    destruct (croniter_check f) as [[]|e]; [done|]. simpl in Hve.
    by destruct e.
  - apply (init_loop_valid frequencies now []).
    by apply validate_each_returns.
Qed.

(** X10: when the iterator of one schedule fails to find a next time,
    [_get_next_run_time] raises its exception; the iterators before it
    have moved to their next times, it stands at the current time, and
    the ones after it are as they were. *)
Theorem next_run_time_failure (now : datetime)
    (before after : list croniter) (c : croniter) (ts : list datetime)
    (e : exn) :
  Forall2 (λ c t, croniter_next (cron_expr c) now = Return t) before ts →
  croniter_next (cron_expr c) now = Raise e →
  _get_next_run_time now (before ++ c :: after)%list
  = (Raise e,
     (zip_with (λ c t, mk_croniter (cron_expr c) t) before ts
      ++ set_current c now :: after)%list).
Proof.
  intros Hall Hc. unfold _get_next_run_time.
  by rewrite (next_times_loop_failure now before ts [] c after e Hall Hc).
Qed.

(** X11: the result of [_get_next_run_time] is determined by the
    expressions of the iterators and the current time; a call never
    changes the expressions, so an earlier call, at whatever time, has
    no effect on the result of a later one. *)
Theorem next_run_time_depends_on_expressions (now earlier : datetime)
    (crons crons' : list croniter) :
  (map cron_expr crons = map cron_expr crons' →
   fst (_get_next_run_time now crons) = fst (_get_next_run_time now crons'))
  ∧ map cron_expr (snd (_get_next_run_time earlier crons))
    = map cron_expr crons
  ∧ fst (_get_next_run_time now (snd (_get_next_run_time earlier crons)))
    = fst (_get_next_run_time now crons).
Proof.
  assert (Hfst : ∀ t c1 c2, map cron_expr c1 = map cron_expr c2 →
    fst (_get_next_run_time t c1) = fst (_get_next_run_time t c2)).
  { intros t c1 c2 Heq. unfold _get_next_run_time.
    destruct (next_times_loop_expressions t c1 c2 [] Heq) as [H _].
    destruct (next_times_loop t [] c1) as [r1 s1].
    destruct (next_times_loop t [] c2) as [r2 s2]. simpl in *.
    by rewrite H. }
  assert (Hexpr : ∀ t c1,
    map cron_expr (snd (_get_next_run_time t c1)) = map cron_expr c1).
  { intros t c1. unfold _get_next_run_time.
    destruct (next_times_loop_expressions t c1 c1 [] eq_refl) as [_ H].
    by destruct (next_times_loop t [] c1) as [r1 s1]. }
  split; [apply Hfst|]. split; [apply Hexpr|]. apply Hfst, Hexpr.
Qed.

(** *** More on [yomu/utils.py] *)

(** X12: the result of [normalize_datetime_to_utc_naive] is naive, a
    naive datetime is returned as it is, and normalising a second time
    changes nothing. *)
Theorem normalize_is_naive_and_idempotent (dt n : datetime) :
  normalize_datetime_to_utc_naive dt = Return n →
  tzinfo n = None
  ∧ normalize_datetime_to_utc_naive n = Return n
  ∧ (tzinfo dt = None → n = dt).
Proof.
  unfold normalize_datetime_to_utc_naive at 1.
  destruct (tzinfo dt) as [off|] eqn:Htz.
  - destruct (astimezone_utc dt off) as [r|e]; [|done]. simpl.
    intros [= <-]. split; [done|]. split; [done|]. done.
  - intros [= <-]. split; [done|]. split; [|done].
    unfold normalize_datetime_to_utc_naive. by rewrite Htz.
Qed.

(** [format_readable_date] gives a text exactly for the values in
    which [parse_date] finds a date, and raises exactly when
    [parse_date] raises. *)
Lemma format_readable_date_follows_parse_date (date_str : pyval) :
  format_readable_date date_str
  = match parse_date date_str with
    | Return (Some parsed_date) =>
        Return (Some (strftime parsed_date "%B %d, %Y at %I:%M %p"))
    | Return None => Return None
    | Raise e => Raise e
    end.
Proof.
  destruct date_str as [|s|n]; simpl; [done| |by destruct (n =? 0)].
  destruct (String.eqb s ""); [done|].
  destruct (String.eqb (strip s) ""); [done|].
  by destruct (_parse_date_string (strip s)).
Qed.

Lemma str_take_length (n : nat) (s : string) :
  String.length (str_take n s) = Nat.min n (String.length s).
Proof.
  revert s. induction n as [|n IH]; intros [|c s]; simpl; try done.
  by rewrite IH.
Qed.

Lemma append_cons (c : ascii) (s1 s2 : string) :
  String.append (String c s1) s2 = String c (String.append s1 s2).
Proof. reflexivity. Qed.

Lemma append_length (s1 s2 : string) :
  String.length (String.append s1 s2)
  = (String.length s1 + String.length s2)%nat.
Proof.
  induction s1 as [|c s1 IH]; [done|].
  rewrite append_cons. simpl. by rewrite IH.
Qed.

Lemma append_assoc (s1 s2 s3 : string) :
  String.append (String.append s1 s2) s3
  = String.append s1 (String.append s2 s3).
Proof.
  induction s1 as [|c s1 IH]; [done|].
  rewrite !append_cons. by rewrite IH.
Qed.

Lemma str_take_append (n : nat) (s : string) :
  ∃ rest, s = String.append (str_take n s) rest.
Proof.
  revert s. induction n as [|n IH]; intros [|c s]; simpl;
    [by exists ""|by eexists|by exists ""|].
  destruct (IH s) as [rest Hrest]. exists rest.
  rewrite append_cons. by rewrite <- Hrest.
Qed.

Lemma str_take_exact (s1 s2 : string) :
  str_take (String.length s1) (String.append s1 s2) = s1.
Proof.
  induction s1 as [|c s1 IH]; [by destruct s2|].
  rewrite append_cons. simpl. by rewrite IH.
Qed.

(** [rfind_from] returns the index it was given as the last one found,
    or the index of an occurrence of the character. *)
Lemma rfind_from_spec (c : ascii) (s : string) :
  ∀ i last,
    rfind_from c s i last = last
    ∨ (i ≤ rfind_from c s i last
       ∧ ∃ pre post,
           s = String.append pre (String c post)
           ∧ Z.of_nat (String.length pre) = rfind_from c s i last - i).
Proof.
  induction s as [|c' s IH]; intros i last; simpl; [by left|].
  destruct (IH (i + 1) (if Ascii.eqb c' c then i else last))
    as [Hr|(Hle & pre & post & -> & Hlen)].
  - rewrite Hr. destruct (Ascii.eqb c' c) eqn:Hc; [|by left].
    apply Ascii.eqb_eq in Hc as ->. right. split; [lia|].
    exists "", s. split; [done|]. simpl. lia.
  - right. split; [lia|]. exists (String c' pre), post.
    split; [by rewrite append_cons|]. simpl String.length. lia.
Qed.

Lemma truncate_description_length_aux (text : string) (max_length : Z) :
  Z.of_nat (String.length (truncate_description text max_length))
  ≤ Z.max 0 max_length.
Proof.
  unfold truncate_description.
  destruct (String.eqb text ""); [simpl; lia|].
  destruct (max_length <=? 0) eqn:H0; [simpl; lia|].
  apply Z.leb_gt in H0.
  destruct (Z.of_nat (String.length text) <=? max_length) eqn:Hlen;
    [apply Z.leb_le in Hlen; lia|].
  apply Z.leb_gt in Hlen.
  destruct (max_length <=? 3) eqn:H3.
  - apply Z.leb_le in H3. rewrite (proj2 (Z.ltb_lt 0 max_length) H0).
    unfold str_slice_to. rewrite (proj2 (Z.leb_le 0 max_length)) by lia.
    rewrite str_take_length. simpl. lia.
  - apply Z.leb_gt in H3.
    set (avail := max_length - Z.of_nat (String.length "...")).
    assert (Hav3 : avail = max_length - 3) by done.
    assert (Hav : Z.of_nat (String.length (str_slice_to text avail)) = avail).
    { unfold str_slice_to. rewrite (proj2 (Z.leb_le 0 avail)) by lia.
      rewrite str_take_length. lia. }
    set (cut := if 0 <? rfind (str_slice_to text avail) " "
                then str_slice_to (str_slice_to text avail)
                       (rfind (str_slice_to text avail) " ")
                else str_slice_to text avail).
    assert (Hcut : Z.of_nat (String.length cut) ≤ avail).
    { subst cut. destruct (0 <? _) eqn:Hsp; [|lia].
      apply Z.ltb_lt in Hsp. unfold str_slice_to at 1.
      rewrite (proj2 (Z.leb_le 0 _)) by lia.
      rewrite str_take_length. lia. }
    destruct (Z.of_nat (String.length cut) =? 0);
      rewrite append_length; change (String.length "...") with 3%nat; lia.
Qed.

(** X13: the result of [truncate_description] is never longer than
    [max_length]; it is empty when the text is empty or [max_length] is
    not positive. *)
Theorem truncate_description_length (text : string) (max_length : Z) :
  Z.of_nat (String.length (truncate_description text max_length))
  ≤ Z.max 0 max_length
  ∧ (text = "" ∨ max_length ≤ 0 → truncate_description text max_length = "").
Proof.
  split; [apply truncate_description_length_aux|].
  unfold truncate_description. intros [->|Hneg]; [done|].
  destruct (String.eqb text ""); [done|].
  by rewrite (proj2 (Z.leb_le max_length 0) Hneg).
Qed.

(** X14: a text that fits is returned as it is, so truncating a second
    time with the same length changes nothing. *)
Theorem truncate_description_fits (text : string) (max_length : Z) :
  (Z.of_nat (String.length text) ≤ max_length →
   truncate_description text max_length = text)
  ∧ truncate_description (truncate_description text max_length) max_length
    = truncate_description text max_length.
Proof.
  assert (Hfit : ∀ t, Z.of_nat (String.length t) ≤ max_length →
                      truncate_description t max_length = t).
  { intros t Hlen. unfold truncate_description.
    destruct (String.eqb t "") eqn:Ht; [by apply String.eqb_eq in Ht|].
    destruct (max_length <=? 0) eqn:H0.
    - apply Z.leb_le in H0. destruct t; [done|]. simpl in Hlen. lia.
    - by rewrite (proj2 (Z.leb_le _ _) Hlen). }
  split; [apply Hfit|].
  destruct (Z.le_gt_cases 0 max_length) as [Hpos|Hneg].
  - apply Hfit. pose proof (truncate_description_length_aux text max_length).
    lia.
  - assert (Hempty : truncate_description text max_length = "").
    { unfold truncate_description. destruct (String.eqb text ""); [done|].
      by rewrite (proj2 (Z.leb_le max_length 0)) by lia. }
    by rewrite Hempty.
Qed.

(** X15: when the text is longer than a [max_length] above three, the
    result is a non-empty beginning of the text followed by the
    ellipsis; the beginning is the first [max_length - 3] characters, or
    it ends just before a space of the text. *)
Theorem truncate_description_cuts_at_space (text : string) (max_length : Z) :
  3 < max_length →
  max_length < Z.of_nat (String.length text) →
  ∃ kept rest,
    truncate_description text max_length = String.append kept "..."
    ∧ text = String.append kept rest
    ∧ kept ≠ ""
    ∧ (kept = str_slice_to text (max_length - 3)
       ∨ ∃ rest', rest = String " " rest').
Proof.
  intros H3 Hlen. unfold truncate_description.
  destruct (String.eqb text "") eqn:Ht.
  { apply String.eqb_eq in Ht. subst text. simpl in Hlen. lia. }
  rewrite (proj2 (Z.leb_gt max_length 0)) by lia.
  rewrite (proj2 (Z.leb_gt _ max_length) Hlen).
  rewrite (proj2 (Z.leb_gt max_length 3) H3).
  change (Z.of_nat (String.length "...")) with 3.
  set (avail := max_length - 3).
  set (first_part := str_slice_to text avail).
  assert (Hfp : first_part = str_take (Z.to_nat avail) text).
  { subst first_part. unfold str_slice_to.
    by rewrite (proj2 (Z.leb_le 0 avail)) by lia. }
  assert (Hfl : Z.of_nat (String.length first_part) = avail).
  { rewrite Hfp, str_take_length. lia. }
  destruct (str_take_append (Z.to_nat avail) text) as [rest0 Hrest0].
  rewrite <- Hfp in Hrest0.
  destruct (0 <? rfind first_part " ") eqn:Hsp.
  - apply Z.ltb_lt in Hsp. unfold rfind in *.
    destruct (rfind_from_spec " " first_part 0 (-1))
      as [Hnone|(_ & pre & post & Hsplit & Hpre)]; [lia|].
    assert (Hcut : str_slice_to first_part (rfind_from " " first_part 0 (-1))
                   = pre).
    { unfold str_slice_to. rewrite (proj2 (Z.leb_le 0 _)) by lia.
      rewrite Hsplit at 2.
      replace (Z.to_nat (rfind_from " " first_part 0 (-1)))
        with (String.length pre) by lia.
      apply str_take_exact. }
    rewrite Hcut.
    assert (Hpl : (Z.of_nat (String.length pre) =? 0) = false)
      by (apply Z.eqb_neq; lia).
    rewrite Hpl. exists pre, (String.append (String " " post) rest0).
    split; [done|]. split.
    + rewrite Hrest0 at 1. rewrite Hsplit. by rewrite append_assoc.
    + split; [intros ->; simpl in Hpre; lia|].
      right. exists (String.append post rest0). by rewrite append_cons.
  - assert (Hnz : (Z.of_nat (String.length first_part) =? 0) = false)
      by (apply Z.eqb_neq; lia).
    rewrite Hnz. exists first_part, rest0. split; [done|].
    split; [done|]. split; [|by left].
    intros Heq. rewrite Heq in Hfl. simpl in Hfl. lia.
Qed.

(** *** The database *)

(** X16: [add_source] never changes the last run stored for any URL, and
    [update_source_last_run] changes the one of its URL, and only when a
    row exists for it. *)
Theorem database_last_run (db : database) (url : string)
    (timestamp : datetime) :
  (∀ url', last_successful_run (add_source db url) url'
           = last_successful_run db url')
  ∧ (db !! url = None → update_source_last_run db url timestamp = db)
  ∧ (is_Some (db !! url) →
     last_successful_run (update_source_last_run db url timestamp) url
     = Some (isoformat timestamp))
  ∧ (∀ url', url' ≠ url →
       last_successful_run (update_source_last_run db url timestamp) url'
       = last_successful_run db url').
Proof.
  split; [|split; [|split]].
  - intros url'. unfold last_successful_run, add_source.
    destruct (db !! url) as [row|] eqn:Hu; [done|].
    destruct (decide (url = url')) as [<-|Hne].
    + by rewrite lookup_insert_eq, Hu.
    + by rewrite lookup_insert_ne.
  - intros Hu. unfold update_source_last_run. by rewrite Hu.
  - intros [row Hu]. unfold last_successful_run, update_source_last_run.
    rewrite Hu. by rewrite lookup_insert_eq.
  - intros url' Hne. unfold last_successful_run, update_source_last_run.
    destruct (db !! url); [|done]. by rewrite lookup_insert_ne.
Qed.

(** *** Sending *)

(** [send_email] returns exactly when the server answers all five
    calls, and the log then shows them in order. *)
Lemma send_email_returns (self : EmailSender) (net : smtp_server)
    (to_email subject body : string) (log log' : list smtp_call) :
  send_email self net to_email subject body log = (Return tt, log') →
  smtp_connect net = Return tt ∧ smtp_starttls net = Return tt
  ∧ smtp_login net = Return tt ∧ smtp_send_message net = Return tt
  ∧ smtp_quit net = Return tt
  ∧ log' = (log ++ [SmtpConnect (sender_smtp_server self)
                      (sender_smtp_port self);
                    SmtpStartTLS;
                    SmtpLogin (sender_email self) (sender_password self);
                    SmtpSendMessage (sender_email self) to_email subject
                      body;
                    SmtpQuit])%list.
Proof.
  unfold send_email, mfinally, mbind, smtp_do.
  destruct (smtp_connect net) as [[]|e1]; [|done].
  destruct (smtp_starttls net) as [[]|e2];
    [|by destruct (smtp_quit net) as [[]|e5]].
  destruct (smtp_login net) as [[]|e3];
    [|by destruct (smtp_quit net) as [[]|e5]].
  destruct (smtp_send_message net) as [[]|e4];
    [|by destruct (smtp_quit net) as [[]|e5]].
  destruct (smtp_quit net) as [[]|e5]; [|done].
  intros [= <-]. repeat split. by rewrite <- !app_assoc.
Qed.

(** X17: [send_email] only adds calls to the log; it quits exactly the
    connections that were made; it hands the message over only after
    [starttls] and [login] have returned; and it returns exactly when
    the server answers all five calls. *)
Theorem send_email_protocol (self : EmailSender) (net : smtp_server)
    (to_email subject body : string) (log : list smtp_call) :
  ∃ r calls,
    send_email self net to_email subject body log = (r, (log ++ calls)%list)
    ∧ (SmtpQuit ∈ calls ↔ smtp_connect net = Return tt)
    ∧ (SmtpSendMessage (sender_email self) to_email subject body ∈ calls →
       smtp_connect net = Return tt ∧ smtp_starttls net = Return tt
       ∧ smtp_login net = Return tt)
    ∧ (r = Return tt ↔
       smtp_connect net = Return tt ∧ smtp_starttls net = Return tt
       ∧ smtp_login net = Return tt ∧ smtp_send_message net = Return tt
       ∧ smtp_quit net = Return tt).
Proof.
  clear strptime fromisoformat isoformat croniter_check croniter_next
    strftime generate_newsletter email_matches urlparse.
  unfold send_email, mfinally, mbind, smtp_do.
  destruct (smtp_connect net) as [[]|e1];
    [destruct (smtp_starttls net) as [[]|e2];
       [destruct (smtp_login net) as [[]|e3];
          [destruct (smtp_send_message net) as [[]|e4]|]|]|];
    try destruct (smtp_quit net) as [[]|e5];
    rewrite <- ?app_assoc; simpl;
    do 2 eexists; (split; [reflexivity|]);
    rewrite ?elem_of_cons, ?elem_of_nil;
    (split; [|split]); intuition congruence.
Qed.

Lemma collect_loop_returns (max_articles_per_source : Z)
    (sources : list (string * outcome ContentFeed * datetime)) :
  ∀ dict p, ∃ result p',
    collect_loop max_articles_per_source dict sources p = (Return result, p').
Proof.
  induction sources as [|source rest IH]; intros dict p; simpl.
  - unfold mret. eauto.
  - unfold mbind.
    destruct (collect_step_returns max_articles_per_source dict source p)
      as (dict1 & p1 & -> & _).
    apply IH.
Qed.

(** X18: [send_newsletter_to_user] never raises.  Without sources it
    returns [False] and touches nothing.  It calls the mail server only
    when the sources gave at least one entry and the newsletter could be
    generated, and it returns [True] only when the five calls of one
    message, with the generated content, went through. *)
Theorem newsletter_sent_only_with_articles (self : EmailSender)
    (net : smtp_server) (max_articles_per_source : Z) (user_email : string)
    (sources : list (string * outcome ContentFeed * datetime))
    (now : datetime) (st : service_state) :
  ∃ b st',
    send_newsletter_to_user self net max_articles_per_source user_email
      sources now st = (Return b, st')
    ∧ (sources = [] → b = false ∧ st' = st)
    ∧ (svc_calls st' = svc_calls st
       ∨ ∃ result content,
           fst (_collect_articles_from_sources max_articles_per_source
                  sources (svc_processor st)) = Return result
           ∧ result ≠ []
           ∧ generate_newsletter result = Return content
           ∧ svc_calls st'
             = snd (send_email self net user_email
                      (String.append "Your Newsletter - "
                         (strftime now "%B %d, %Y"))
                      content (svc_calls st)))
    ∧ (b = true →
       ∃ content,
         svc_calls st'
         = (svc_calls st
            ++ [SmtpConnect (sender_smtp_server self)
                  (sender_smtp_port self);
                SmtpStartTLS;
                SmtpLogin (sender_email self) (sender_password self);
                SmtpSendMessage (sender_email self) user_email
                  (String.append "Your Newsletter - "
                     (strftime now "%B %d, %Y")) content;
                SmtpQuit])%list).
Proof.
  unfold send_newsletter_to_user.
  destruct sources as [|source rest].
  { exists false, st. split; [done|]. split; [done|]. split; [by left|done]. }
  set (sources := source :: rest).
  unfold _collect_articles_from_sources.
  destruct (collect_loop_returns max_articles_per_source sources []
              (svc_processor st)) as (result & p' & Hc).
  rewrite Hc. simpl.
  destruct result as [|entry entries].
  { do 2 eexists. split; [done|]. split; [done|]. split; [by left|done]. }
  destruct (generate_newsletter (entry :: entries)) as [content|e] eqn:Hg.
  2:{ do 2 eexists. split; [done|]. split; [done|]. split; [by left|done]. }
  destruct (send_email self net user_email
              (String.append "Your Newsletter - " (strftime now "%B %d, %Y"))
              content (svc_calls st)) as [sent calls] eqn:Hs.
  exists (match sent with Return _ => true | Raise _ => false end).
  eexists. split; [by destruct sent|]. split; [done|]. simpl. split.
  - right. exists (entry :: entries), content.
    split; [done|]. split; [done|]. split; [done|]. by rewrite Hs.
  - intros Hb. exists content. destruct sent as [[]|e]; [|done].
    by apply send_email_returns in Hs as (_ & _ & _ & _ & _ & ->).
Qed.

(** *** What the filter delivers and what it remembers *)

(** An article passes the date test of a known last run when, once its
    date parses and normalises, the date is strictly later. *)
Lemma filter_step_refined (lr : option datetime) (filtered : list article)
    (a : article) (d : deque) :
  ∃ out d',
    filter_step lr filtered a d = (Return out, d')
    ∧ ((out = filtered ∧ d' = d)
       ∨ (out = (filtered ++ [a])%list
          ∧ (d' = d ∨ d' = snd (record_url (link_of a) d))
          ∧ ∀ last_run date n,
              lr = Some last_run →
              parse_date (pubDate_of a) = Return (Some date) →
              normalize_datetime_to_utc_naive date = Return n →
              dt_gtb n (replace_tzinfo last_run None) = true)).
Proof.
  destruct (cache_hit d a) eqn:Hh.
  { rewrite (filter_step_hit _ _ _ _ Hh). exists filtered, d.
    split; [done|]. by left. }
  rewrite (filter_step_miss _ _ _ _ Hh).
  destruct (parse_date (pubDate_of a)) as [[date|]|e] eqn:Hp.
  - destruct lr as [last_run|].
    + rewrite (should_include_dated_known _ _ _ _ Hp).
      destruct (normalize_datetime_to_utc_naive date) as [n|e] eqn:Hn.
      * destruct (dt_gtb n (replace_tzinfo last_run None)) eqn:Hgt.
        -- do 2 eexists. split; [done|]. right. split; [done|].
           split; [by left|]. intros; congruence.
        -- do 2 eexists. split; [done|]. by left.
      * do 2 eexists. split; [done|]. right. split; [done|].
        split; [by right|]. intros; congruence.
    + rewrite (should_include_dated_first_run _ _ _ Hp).
      do 2 eexists. split; [done|]. right. split; [done|].
      split; [by left|]. intros; congruence.
  - rewrite (should_include_undated _ _ _ Hp).
    do 2 eexists. split; [done|]. right. split; [done|].
    split; [by right|]. intros; congruence.
  - rewrite (should_include_unreadable _ _ _ _ Hp).
    do 2 eexists. split; [done|]. right. split; [done|].
    split; [by right|]. intros; congruence.
Qed.

Lemma filter_loop_delivers (lr : option datetime) (articles : list article) :
  ∀ filtered d, ∃ kept d',
    filter_loop lr filtered articles d = (Return (filtered ++ kept)%list, d')
    ∧ Forall (λ a, ∀ last_run date n,
                lr = Some last_run →
                parse_date (pubDate_of a) = Return (Some date) →
                normalize_datetime_to_utc_naive date = Return n →
                dt_gtb n (replace_tzinfo last_run None) = true) kept
    ∧ items d' ⊆ (items d ++ map (λ a : article, link_of a) kept)%list.
Proof.
  induction articles as [|a rest IH]; intros filtered d.
  - exists [], d. simpl. rewrite !app_nil_r. split; [done|].
    split; [constructor|done].
  - destruct (filter_step_refined lr filtered a d)
      as (out & d1 & Hstep & Hcase).
    rewrite (filter_loop_cons _ _ _ _ _ _ _ Hstep).
    destruct (IH out d1) as (kept & d' & -> & Hnew & Hsub).
    destruct Hcase as [[-> ->]|(-> & Hd1 & Ha)].
    + exists kept, d'. by split.
    + exists (a :: kept), d'. split; [by rewrite <- app_assoc|].
      split; [by constructor|].
      intros x Hx. apply Hsub in Hx. simpl.
      apply elem_of_app in Hx as [Hx|Hx].
      * assert (Hx' : x ∈ link_of a :: items d).
        { destruct Hd1 as [->| ->]; [by apply list_elem_of_further|].
          by apply record_url_items. }
        apply elem_of_cons in Hx' as [->|Hx'].
        -- apply elem_of_app. right. apply list_elem_of_here.
        -- apply elem_of_app. by left.
      * apply elem_of_app. right. by apply list_elem_of_further.
Qed.

(** X19: with a known last run, every article that the filter returns
    and whose date parses and normalises is strictly later than the last
    run: no dated article from before the last run is delivered. *)
Theorem filter_delivers_only_newer (articles : list article)
    (timestamp : option string) (last_run : datetime) (d d' : deque)
    (out : list article) :
  parse_iso_timestamp timestamp = Some last_run →
  _filter_articles_by_timestamp articles timestamp d = (Return out, d') →
  ∀ a date n,
    a ∈ out →
    parse_date (pubDate_of a) = Return (Some date) →
    normalize_datetime_to_utc_naive date = Return n →
    dt_gtb n (replace_tzinfo last_run None) = true.
Proof.
  intros Hts Hrun a date n Ha Hp Hn.
  unfold _filter_articles_by_timestamp in Hrun. rewrite Hts in Hrun.
  destruct (filter_loop_delivers (Some last_run) articles [] d)
    as (kept & d1 & Hloop & Hnew & _).
  rewrite Hloop in Hrun. injection Hrun as <- <-.
  rewrite Forall_forall in Hnew. by apply (Hnew a Ha last_run date n).
Qed.

(** X20: an identifier enters the deque only with an article that the
    same run returns: whatever is in the deque after a run was there
    before, or is the link of a returned article. *)
Theorem cached_only_when_delivered (articles : list article)
    (timestamp : option string) (d : deque) :
  ∃ out d',
    _filter_articles_by_timestamp articles timestamp d = (Return out, d')
    ∧ ∀ x, x ∈ items d' → x ∈ items d ∨ ∃ a, a ∈ out ∧ link_of a = x.
Proof.
  unfold _filter_articles_by_timestamp.
  destruct (filter_loop_delivers (parse_iso_timestamp timestamp) articles
              [] d) as (kept & d' & Hloop & _ & Hsub).
  exists kept, d'. split; [done|]. intros x Hx.
  apply Hsub in Hx. apply elem_of_app in Hx as [Hx|Hx]; [by left|].
  right. apply list_elem_of_fmap in Hx as (a & -> & Ha). eauto.
Qed.

(** X21: two passes over one source.  When the text that the database
    keeps of the first pass reads back as the time of that pass, every
    article of the second pass whose date parses and normalises is
    strictly later than the first pass. *)
Theorem second_pass_delivers_only_newer (source_url : string)
    (feed feed' : ContentFeed) (now_utc now_utc' : datetime)
    (p p1 p2 : processor) (out out' : list article) :
  isoformat (replace_tzinfo now_utc None) ≠ "" →
  fromisoformat (isoformat (replace_tzinfo now_utc None))
  = Some (replace_tzinfo now_utc None) →
  process_source source_url (Return feed) now_utc p = (Return out, p1) →
  process_source source_url (Return feed') now_utc' p1 = (Return out', p2) →
  ∀ a date n,
    a ∈ out' →
    parse_date (pubDate_of a) = Return (Some date) →
    normalize_datetime_to_utc_naive date = Return n →
    dt_gtb n (replace_tzinfo now_utc None) = true.
Proof.
  intros Hne Hround Hrun1 Hrun2 a date n Ha Hp Hn.
  destruct (process_source_sublist source_url feed now_utc p)
    as (o1 & d1 & Hp1 & _).
  rewrite Hp1 in Hrun1. injection Hrun1 as <- <-.
  assert (Hmark : last_successful_run
                    (update_source_last_run
                       (add_source (source_metadata p) source_url)
                       source_url (replace_tzinfo now_utc None)) source_url
                  = Some (isoformat (replace_tzinfo now_utc None))).
  { unfold last_successful_run, update_source_last_run.
    destruct (add_source_present (source_metadata p) source_url)
      as [row Hrow].
    rewrite Hrow. by rewrite lookup_insert_eq. }
  destruct (filter_loop_delivers
              (Some (replace_tzinfo (replace_tzinfo now_utc None) (Some utc)))
              (_content_feed_to_articles feed' source_url) [] d1)
    as (kept & d2 & Hloop & Hnew & _).
  assert (Hf : _filter_articles_by_timestamp
                 (_content_feed_to_articles feed' source_url)
                 (Some (isoformat (replace_tzinfo now_utc None))) d1
               = (Return kept, d2)).
  { unfold _filter_articles_by_timestamp, parse_iso_timestamp.
    apply String.eqb_neq in Hne. by rewrite Hne, Hround. }
  rewrite <- Hmark in Hf.
  pose proof (process_source_filtered source_url feed' now_utc'
                (mk_processor d1 _) kept d2 Hf) as Hp2.
  rewrite Hp2 in Hrun2. injection Hrun2 as <- <-.
  rewrite Forall_forall in Hnew.
  by apply (Hnew a Ha _ date n eq_refl Hp Hn).
Qed.

(** *** The configuration *)

Lemma validate_urls_returns (sources : list string) :
  validate_urls sources = Return tt →
  Forall (λ url, ∃ scheme netloc,
            urlparse url = Return (scheme, netloc)
            ∧ (scheme = "http" ∨ scheme = "https") ∧ netloc ≠ "") sources.
Proof.
  induction sources as [|url rest IH]; intros Hv; [constructor|].
  simpl in Hv. unfold _validate_url in Hv.
  destruct (String.eqb url ""); [done|].
  destruct (urlparse url) as [[scheme netloc]|e] eqn:Hu; [|done].
  simpl in Hv.
  destruct (String.eqb scheme "") eqn:Hs; [done|].
  destruct (String.eqb netloc "") eqn:Hn; [done|]. simpl in Hv.
  apply String.eqb_neq in Hn.
  destruct (String.eqb scheme "http") eqn:Hh; simpl in Hv.
  - apply String.eqb_eq in Hh.
    constructor; [|by apply IH]. exists scheme, netloc. auto.
  - destruct (String.eqb scheme "https") eqn:Hhs; simpl in Hv; [|done].
    apply String.eqb_eq in Hhs.
    constructor; [|by apply IH]. exists scheme, netloc. auto.
Qed.

(** X22: a configuration that [validate] accepts has a port between 1
    and 65535, addresses that match the pattern, at least one source,
    each an http or https URL with a host, a positive
    [max_description_length], and frequencies from which the daemon is
    constructed with at least one iterator.  [validate] does not look at
    [max_articles_per_source]. *)
Theorem validated_config (c : Config) (now : datetime) :
  (validate c = Return tt →
   1 ≤ cfg_smtp_port c ≤ 65535
   ∧ email_matches (cfg_sender_email c) = true
   ∧ email_matches (recipient_email c) = true
   ∧ cfg_sources c ≠ []
   ∧ Forall (λ url, ∃ scheme netloc,
               urlparse url = Return (scheme, netloc)
               ∧ (scheme = "http" ∨ scheme = "https") ∧ netloc ≠ "")
       (cfg_sources c)
   ∧ 0 < max_description_length c
   ∧ cfg_frequencies c ≠ []
   ∧ NewsletterDaemon_init (cfg_frequencies c) now
     = Return (map (λ f, mk_croniter f now) (cfg_frequencies c)))
  ∧ (∀ limit,
       validate (mk_Config (openrouter_api_key c) (cfg_sender_email c)
                   (cfg_sender_password c) (cfg_smtp_server c)
                   (cfg_smtp_port c) (cookie_file_path c)
                   (recipient_email c) (cfg_sources c) (cfg_frequencies c)
                   limit (max_description_length c))
       = validate c).
Proof.
  split; [|done].
  unfold validate.
  destruct (String.eqb (openrouter_api_key c) ""); [done|].
  destruct (String.eqb (cfg_sender_password c) ""); [done|].
  destruct (String.eqb (cfg_smtp_server c) ""); [done|].
  destruct (cfg_smtp_port c <? 1) eqn:Hlo; [done|].
  destruct (65535 <? cfg_smtp_port c) eqn:Hhi; [done|]. simpl.
  destruct (String.eqb (cfg_sender_email c) ""); [done|].
  destruct (email_matches (cfg_sender_email c)); [|done]. simpl.
  destruct (String.eqb (recipient_email c) ""); [done|].
  destruct (email_matches (recipient_email c)); [|done]. simpl.
  destruct (_validate_sources (cfg_sources c)) as [[]|e] eqn:Hs; [|done].
  destruct (_validate_frequencies (cfg_frequencies c)) as [[]|e] eqn:Hf;
    [|done]. simpl.
  destruct (max_description_length c <=? 0) eqn:Hm; [done|]. intros _.
  apply Z.ltb_ge in Hlo. apply Z.ltb_ge in Hhi. apply Z.leb_gt in Hm.
  split; [lia|]. split; [done|]. split; [done|].
  split; [by destruct (cfg_sources c)|]. split.
  { apply validate_urls_returns. by destruct (cfg_sources c). }
  split; [done|]. split; [by destruct (cfg_frequencies c)|].
  apply (init_loop_valid (cfg_frequencies c) now []).
  apply validate_each_returns. by destruct (cfg_frequencies c).
Qed.

(** *** Whitespace around a date *)

Lemma rev_string_involutive (s : string) : rev_string (rev_string s) = s.
Proof.
  unfold rev_string. rewrite list_ascii_of_string_of_list_ascii.
  rewrite rev_involutive. apply string_of_list_ascii_of_string.
Qed.

Lemma list_ascii_of_append (s1 s2 : string) :
  list_ascii_of_string (String.append s1 s2)
  = (list_ascii_of_string s1 ++ list_ascii_of_string s2)%list.
Proof.
  induction s1 as [|c s1 IH]; [done|].
  rewrite append_cons. simpl. by rewrite IH.
Qed.

Lemma string_of_list_app (l1 l2 : list ascii) :
  string_of_list_ascii (l1 ++ l2)
  = String.append (string_of_list_ascii l1) (string_of_list_ascii l2).
Proof.
  induction l1 as [|c l1 IH]; [done|].
  simpl. rewrite append_cons. by rewrite IH.
Qed.

Lemma rev_string_append (s1 s2 : string) :
  rev_string (String.append s1 s2)
  = String.append (rev_string s2) (rev_string s1).
Proof.
  unfold rev_string. rewrite list_ascii_of_append, rev_app_distr.
  apply string_of_list_app.
Qed.

(** [lstrip] removes a beginning of the string and leaves a string that
    does not begin with a space. *)
Lemma lstrip_spec (s : string) :
  (∃ pre, s = String.append pre (lstrip s))
  ∧ (lstrip s = ""
     ∨ ∃ c rest, lstrip s = String c rest ∧ is_space c = false).
Proof.
  induction s as [|c s [[pre Hpre] Hclean]]; simpl.
  - split; [by exists ""|by left].
  - destruct (is_space c) eqn:Hc.
    + split; [|done]. exists (String c pre).
      rewrite append_cons. by rewrite <- Hpre.
    + split; [by exists ""|]. right. eauto.
Qed.

Lemma lstrip_clean (s : string) :
  s = "" ∨ (∃ c rest, s = String c rest ∧ is_space c = false) →
  lstrip s = s.
Proof. intros [->|(c & rest & -> & Hc)]; simpl; [done|]. by rewrite Hc. Qed.

Lemma strip_idempotent (s : string) : strip (strip s) = strip s.
Proof.
  unfold strip.
  destruct (lstrip_spec s) as [_ Ht].
  set (t := lstrip s) in *.
  destruct (lstrip_spec (rev_string t)) as [[pre Hpre] Hu].
  set (u := lstrip (rev_string t)) in *.
  assert (Hsplit : t = String.append (rev_string u) (rev_string pre)).
  { rewrite <- (rev_string_involutive t), Hpre. apply rev_string_append. }
  assert (Hclean : rev_string u = ""
                   ∨ ∃ c rest, rev_string u = String c rest
                               ∧ is_space c = false).
  { destruct (rev_string u) as [|c rest] eqn:Hru; [by left|]. right.
    exists c, rest. split; [done|].
    rewrite append_cons in Hsplit.
    destruct Ht as [Ht|(c0 & r0 & Ht & Hc0)]; [congruence|].
    rewrite Ht in Hsplit. by injection Hsplit as <- _. }
  rewrite (lstrip_clean _ Hclean), rev_string_involutive.
  by rewrite (lstrip_clean u Hu).
Qed.

(** X23: [parse_date] and [format_readable_date] depend on a string only
    through [strip]: a string and the same string without its
    surrounding whitespace give the same result. *)
Theorem parse_date_ignores_surrounding_whitespace (s : string) :
  parse_date (PStr (strip s)) = parse_date (PStr s)
  ∧ format_readable_date (PStr (strip s)) = format_readable_date (PStr s).
Proof.
  unfold parse_date, format_readable_date. rewrite strip_idempotent.
  destruct (String.eqb s "") eqn:Hs.
  - apply String.eqb_eq in Hs. subst s. done.
  - by destruct (String.eqb (strip s) "").
Qed.

End Model.

(** ** The dispatcher on the reference [croniter] *)

(** C6: when every schedule has a next time after [now], the next run
    time is the least of these times, which are computed from [now]
    wherever the iterators stood before; there must be at least one
    schedule.  With the schedules ["0 8 * * *"] and ["0 9 * * 0"] on a
    Saturday at 07:00 it is the Saturday at 08:00. *)
Theorem next_run_time_is_minimum :
  (∀ (croniter_next : string → datetime → outcome datetime)
     (now : datetime) (crons : list croniter) (ts : list datetime),
     crons ≠ [] →
     Forall2 (λ c t, croniter_next (cron_expr c) now = Return t) crons ts →
     ∃ t,
       fst (_get_next_run_time croniter_next now crons) = Return t
       ∧ t ∈ ts
       ∧ Forall (λ t', dt_ltb t' t = false) ts)
  ∧ (∀ stood1 stood2 : datetime,
       fst (_get_next_run_time croniter_next_ref saturday_0700
              [mk_croniter "0 8 * * *" stood1;
               mk_croniter "0 9 * * 0" stood2])
       = Return saturday_0800).
Proof.
  split.
  - intros croniter_next now crons ts Hne Hall.
    rewrite (get_next_run_time_from_now croniter_next now crons ts Hall).
    simpl. apply py_min_spec. intros Hts. subst ts.
    by apply Forall2_nil_inv_r in Hall.
  - intros stood1 stood2.
    rewrite (get_next_run_time_from_now croniter_next_ref saturday_0700 _
               [saturday_0800; sunday_0900]).
    + by vm_compute.
    + repeat constructor; by vm_compute.
Qed.

Lemma next_run_time_is_minimum_witness :
  [mk_croniter "0 8 * * *" sunday_0900; mk_croniter "0 9 * * 0" sunday_0900]
  ≠ []
  ∧ Forall2 (λ c t, croniter_next_ref (cron_expr c) saturday_0700 = Return t)
      [mk_croniter "0 8 * * *" sunday_0900;
       mk_croniter "0 9 * * 0" sunday_0900]
      [saturday_0800; sunday_0900]
  ∧ ∃ t,
      fst (_get_next_run_time croniter_next_ref saturday_0700
             [mk_croniter "0 8 * * *" sunday_0900;
              mk_croniter "0 9 * * 0" sunday_0900]) = Return t
      ∧ t ∈ [saturday_0800; sunday_0900]
      ∧ Forall (λ t', dt_ltb t' t = false) [saturday_0800; sunday_0900].
Proof.
  assert (H1 : [mk_croniter "0 8 * * *" sunday_0900;
                mk_croniter "0 9 * * 0" sunday_0900] ≠ []) by discriminate.
  assert (H2 : Forall2
    (λ c t, croniter_next_ref (cron_expr c) saturday_0700 = Return t)
    [mk_croniter "0 8 * * *" sunday_0900; mk_croniter "0 9 * * 0" sunday_0900]
    [saturday_0800; sunday_0900]).
  { repeat constructor; vm_compute; reflexivity. }
  split; [exact H1|]. split; [exact H2|].
  exact (proj1 next_run_time_is_minimum croniter_next_ref saturday_0700
           _ _ H1 H2).
Defined.

(** C7: the constructor of the daemon checks every frequency: it returns
    a daemon only when every expression is valid, with one iterator per
    frequency, and raises as soon as one is not, in which case there is
    no daemon and no list of iterators; the validation of the
    configuration raises on the same input.  ["not a cron"] is such an
    input. *)
Theorem daemon_rejects_invalid_frequency :
  (∀ (croniter_check : string → outcome unit) (frequencies : list string)
     (now : datetime) (bad : string) (e : exn),
     bad ∈ frequencies →
     croniter_check bad = Raise e →
     (∃ e', NewsletterDaemon_init croniter_check frequencies now = Raise e')
     ∧ (∃ e', _validate_frequencies croniter_check frequencies = Raise e'))
  ∧ (∀ (croniter_check : string → outcome unit)
       (frequencies : list string) (now : datetime),
       Forall (λ f, croniter_check f = Return tt) frequencies →
       NewsletterDaemon_init croniter_check frequencies now
       = Return (map (λ f, mk_croniter f now) frequencies))
  ∧ (∀ now : datetime,
       NewsletterDaemon_init croniter_check_ref ["not a cron"] now
       = Raise ValueError
       ∧ _validate_frequencies croniter_check_ref ["not a cron"]
         = Raise ValueError).
Proof.
  split; [|split].
  - intros croniter_check frequencies now bad e Hin Hbad.
    assert (Hnot : ¬ Forall (λ f, croniter_check f = Return tt) frequencies).
    { intros Hall. rewrite Forall_forall in Hall.
      specialize (Hall bad Hin). congruence. }
    split.
    + destruct (NewsletterDaemon_init croniter_check frequencies now)
        as [crons|e'] eqn:Hi; [|eauto].
      destruct Hnot. by apply (init_loop_returns _ _ _ _ _ Hi).
    + destruct (_validate_frequencies croniter_check frequencies)
        as [[]|e'] eqn:Hv; [|eauto].
      destruct Hnot. apply validate_each_returns.
      unfold _validate_frequencies in Hv. by destruct frequencies.
  - intros croniter_check frequencies now Hall.
    apply (init_loop_valid croniter_check frequencies now [] Hall).
  - intros now. by vm_compute.
Qed.

Lemma daemon_rejects_invalid_frequency_witness :
  "not a cron" ∈ ["0 8 * * *"; "not a cron"]
  ∧ croniter_check_ref "not a cron" = Raise ValueError
  ∧ (∃ e', NewsletterDaemon_init croniter_check_ref
             ["0 8 * * *"; "not a cron"] saturday_0700 = Raise e')
  ∧ (∃ e', _validate_frequencies croniter_check_ref
             ["0 8 * * *"; "not a cron"] = Raise e').
Proof.
  assert (H1 : "not a cron" ∈ ["0 8 * * *"; "not a cron"]) by set_solver.
  assert (H2 : croniter_check_ref "not a cron" = Raise ValueError)
    by (vm_compute; reflexivity).
  split; [exact H1|]. split; [exact H2|].
  exact (proj1 daemon_rejects_invalid_frequency croniter_check_ref
           ["0 8 * * *"; "not a cron"] saturday_0700 "not a cron"
           ValueError H1 H2).
Defined.

(** ** The filter on the reference date functions *)

(** C1 as stated fails on the code: the date of [art_year_one] parses,
    the instant it stands for lies before the last run, and the filter
    includes the article all the same, because the conversion of the date
    to UTC raises [OverflowError] and the handler of the filter includes
    what it catches. *)
Lemma dated_article_before_last_run_included :
  parse_date strptime_ref fromisoformat_ref (pubDate_of art_year_one)
  = Return (Some (mk_datetime 1 1 1 0 0 0 0 (Some 18000000000)))
  ∧ parse_iso_timestamp fromisoformat_ref (Some last_run_2024)
    = Some (mk_datetime 2024 1 1 0 0 0 0 (Some utc))
  ∧ cache_hit (empty_cache 1000) art_year_one = false
  ∧ utc_instant (mk_datetime 1 1 1 0 0 0 0 (Some 18000000000))
    < utc_instant (mk_datetime 2024 1 1 0 0 0 0 (Some utc))
  ∧ fst (_filter_articles_by_timestamp strptime_ref fromisoformat_ref
           [art_year_one] (Some last_run_2024) (empty_cache 1000))
    = Return [art_year_one].
Proof. repeat split; vm_compute; reflexivity. Qed.

Lemma dated_article_included_iff_newer_witness :
  parse_date strptime_ref fromisoformat_ref (pubDate_of art_west)
  = Return (Some (mk_datetime 2024 1 1 2 0 0 0 (Some (-18000000000))))
  ∧ parse_iso_timestamp fromisoformat_ref (Some last_run_2024)
    = Some (mk_datetime 2024 1 1 0 0 0 0 (Some utc))
  ∧ normalize_datetime_to_utc_naive
      (mk_datetime 2024 1 1 2 0 0 0 (Some (-18000000000)))
    = Return (mk_datetime 2024 1 1 7 0 0 0 None)
  ∧ cache_hit (empty_cache 1000) art_west = false
  ∧ valid_datetime (mk_datetime 2024 1 1 2 0 0 0 (Some (-18000000000)))
  ∧ valid_datetime (mk_datetime 2024 1 1 0 0 0 0 (Some utc))
  ∧ utc_instant (mk_datetime 2024 1 1 0 0 0 0 (Some utc))
    < utc_instant (mk_datetime 2024 1 1 2 0 0 0 (Some (-18000000000)))
  ∧ _filter_articles_by_timestamp strptime_ref fromisoformat_ref
      [art_west] (Some last_run_2024) (empty_cache 1000)
    = (Return [art_west], empty_cache 1000)
  ∧ parse_date strptime_ref fromisoformat_ref (pubDate_of art_zoned)
    = Return (Some (mk_datetime 2024 1 1 2 0 0 0 (Some 18000000000)))
  ∧ normalize_datetime_to_utc_naive
      (mk_datetime 2024 1 1 2 0 0 0 (Some 18000000000))
    = Return (mk_datetime 2023 12 31 21 0 0 0 None)
  ∧ cache_hit (empty_cache 1000) art_zoned = false
  ∧ strictly_later (mk_datetime 2024 1 1 0 0 0 0 None)
      (mk_datetime 2023 12 31 21 0 0 0 None)
  ∧ _filter_articles_by_timestamp strptime_ref fromisoformat_ref
      [art_zoned] (Some last_run_2024) (empty_cache 1000)
    = (Return [], empty_cache 1000)
  ∧ parse_date strptime_ref fromisoformat_ref (pubDate_of art_tie)
    = Return (Some (mk_datetime 2024 1 1 0 0 0 0 None))
  ∧ normalize_datetime_to_utc_naive (mk_datetime 2024 1 1 0 0 0 0 None)
    = Return (mk_datetime 2024 1 1 0 0 0 0 None)
  ∧ cache_hit (empty_cache 1000) art_tie = false
  ∧ _filter_articles_by_timestamp strptime_ref fromisoformat_ref
      [art_tie] (Some last_run_2024) (empty_cache 1000)
    = (Return [], empty_cache 1000).
Proof.
  assert (Hw : parse_date strptime_ref fromisoformat_ref
                 (pubDate_of art_west)
               = Return (Some (mk_datetime 2024 1 1 2 0 0 0
                                 (Some (-18000000000)))))
    by (vm_compute; reflexivity).
  assert (Hts : parse_iso_timestamp fromisoformat_ref (Some last_run_2024)
                = Some (mk_datetime 2024 1 1 0 0 0 0 (Some utc)))
    by (vm_compute; reflexivity).
  assert (Hwn : normalize_datetime_to_utc_naive
                  (mk_datetime 2024 1 1 2 0 0 0 (Some (-18000000000)))
                = Return (mk_datetime 2024 1 1 7 0 0 0 None))
    by (vm_compute; reflexivity).
  assert (Hwm : cache_hit (empty_cache 1000) art_west = false)
    by (vm_compute; reflexivity).
  assert (Hwv : valid_datetime
                  (mk_datetime 2024 1 1 2 0 0 0 (Some (-18000000000))))
    by (unfold valid_datetime; repeat split; vm_compute; discriminate).
  assert (Hlv : valid_datetime (mk_datetime 2024 1 1 0 0 0 0 (Some utc)))
    by (unfold valid_datetime; repeat split; vm_compute; discriminate).
  assert (Hwl : utc_instant (mk_datetime 2024 1 1 0 0 0 0 (Some utc))
                < utc_instant
                    (mk_datetime 2024 1 1 2 0 0 0 (Some (-18000000000))))
    by (vm_compute; reflexivity).
  assert (Hz : parse_date strptime_ref fromisoformat_ref
                 (pubDate_of art_zoned)
               = Return (Some (mk_datetime 2024 1 1 2 0 0 0
                                 (Some 18000000000))))
    by (vm_compute; reflexivity).
  assert (Hzn : normalize_datetime_to_utc_naive
                  (mk_datetime 2024 1 1 2 0 0 0 (Some 18000000000))
                = Return (mk_datetime 2023 12 31 21 0 0 0 None))
    by (vm_compute; reflexivity).
  assert (Hzm : cache_hit (empty_cache 1000) art_zoned = false)
    by (vm_compute; reflexivity).
  assert (Hzl : strictly_later (mk_datetime 2024 1 1 0 0 0 0 None)
                  (mk_datetime 2023 12 31 21 0 0 0 None))
    by (unfold strictly_later; simpl; lia).
  assert (Ht : parse_date strptime_ref fromisoformat_ref
                 (pubDate_of art_tie)
               = Return (Some (mk_datetime 2024 1 1 0 0 0 0 None)))
    by (vm_compute; reflexivity).
  assert (Htn : normalize_datetime_to_utc_naive
                  (mk_datetime 2024 1 1 0 0 0 0 None)
                = Return (mk_datetime 2024 1 1 0 0 0 0 None))
    by reflexivity.
  assert (Htm : cache_hit (empty_cache 1000) art_tie = false)
    by (vm_compute; reflexivity).
  split; [exact Hw|]. split; [exact Hts|]. split; [exact Hwn|].
  split; [exact Hwm|]. split; [exact Hwv|]. split; [exact Hlv|].
  split; [exact Hwl|]. split.
  { pose proof (dated_article_included_iff_newer strptime_ref
                  fromisoformat_ref art_west _ _ (empty_cache 1000)
                  last_run_2024 Hw Hts) as [Hret _].
    destruct (Hret _ Hwn) as (_ & _ & _ & _ & _ & Hf & Hinst).
    exact (proj2 (proj1 (Hf Hwm)) (proj2 (Hinst Hwv Hlv) Hwl)). }
  split; [exact Hz|]. split; [exact Hzn|]. split; [exact Hzm|].
  split; [exact Hzl|]. split.
  { pose proof (dated_article_included_iff_newer strptime_ref
                  fromisoformat_ref art_zoned _ _ (empty_cache 1000)
                  last_run_2024 Hz Hts) as [Hret _].
    destruct (Hret _ Hzn) as (_ & _ & _ & _ & _ & Hf & _).
    exact (proj2 (proj2 (Hf Hzm)) (or_intror Hzl)). }
  split; [exact Ht|]. split; [exact Htn|]. split; [exact Htm|].
  pose proof (dated_article_included_iff_newer strptime_ref
                fromisoformat_ref art_tie _ _ (empty_cache 1000)
                last_run_2024 Ht Hts) as [Hret _].
  destruct (Hret _ Htn) as (_ & _ & _ & _ & _ & Hf & _).
  exact (proj2 (proj2 (Hf Htm)) (or_introl eq_refl)).
Defined.

(** C2 as stated fails on the code: an undated article with an empty
    link is included on its first encounter without its identifier being
    inserted, and so is an undated article with a link when the deque
    was made with capacity zero. *)
Lemma undated_article_not_cached :
  undated strptime_ref fromisoformat_ref art_no_link
  ∧ _filter_articles_by_timestamp strptime_ref fromisoformat_ref
      [art_no_link] None (empty_cache 1000)
    = (Return [art_no_link], empty_cache 1000)
  ∧ deque_contains (empty_cache 1000) (link_of art_no_link) = false
  ∧ undated strptime_ref fromisoformat_ref art_undated
  ∧ _filter_articles_by_timestamp strptime_ref fromisoformat_ref
      [art_undated; art_undated] None (empty_cache 0)
    = (Return [art_undated; art_undated], empty_cache 0).
Proof.
  split; [intros date; vm_compute; discriminate|].
  split; [vm_compute; reflexivity|].
  split; [vm_compute; reflexivity|].
  split; [intros date; vm_compute; discriminate|].
  vm_compute; reflexivity.
Qed.

Lemma undated_article_included_once_witness :
  undated strptime_ref fromisoformat_ref art_undated
  ∧ truthy (link_of art_undated) = true
  ∧ maxlen (empty_cache 1000) ≠ Some 0%nat
  ∧ deque_contains (empty_cache 1000) (link_of art_undated) = false
  ∧ _filter_articles_by_timestamp strptime_ref fromisoformat_ref
      [art_undated; art_undated] None (empty_cache 1000)
    = (Return [art_undated],
       mk_deque [PStr "https://example.com/undated"] (Some 1000%nat)).
Proof.
  assert (H1 : undated strptime_ref fromisoformat_ref art_undated)
    by (intros date; vm_compute; discriminate).
  assert (H2 : truthy (link_of art_undated) = true)
    by (vm_compute; reflexivity).
  assert (H3 : maxlen (empty_cache 1000) ≠ Some 0%nat) by discriminate.
  assert (H4 : deque_contains (empty_cache 1000) (link_of art_undated)
               = false) by (vm_compute; reflexivity).
  split; [exact H1|]. split; [exact H2|]. split; [exact H3|].
  split; [exact H4|].
  pose proof (undated_article_included_once strptime_ref fromisoformat_ref
                art_undated None [] (empty_cache 1000) None H1 H2 H3)
    as [Hfirst _].
  destruct (Hfirst H4) as (_ & _ & Hf). exact Hf.
Defined.

(** C3 as stated fails on the code: the date of [art_year_one] parses,
    its conversion to UTC raises [OverflowError], and the handler of the
    filter includes the article and inserts its link into the deque. *)
Lemma dated_article_cached_on_overflow :
  parse_date strptime_ref fromisoformat_ref (pubDate_of art_year_one)
  = Return (Some (mk_datetime 1 1 1 0 0 0 0 (Some 18000000000)))
  ∧ normalize_datetime_to_utc_naive
      (mk_datetime 1 1 1 0 0 0 0 (Some 18000000000))
    = Raise OverflowError
  ∧ _filter_articles_by_timestamp strptime_ref fromisoformat_ref
      [art_year_one] (Some last_run_2024) (empty_cache 1000)
    = (Return [art_year_one],
       mk_deque [PStr "https://example.com/old"] (Some 1000%nat)).
Proof. repeat split; vm_compute; reflexivity. Qed.

Lemma dated_article_leaves_cache_witness :
  parse_date strptime_ref fromisoformat_ref (pubDate_of art_new)
  = Return (Some (mk_datetime 2024 1 2 10 0 0 0 None))
  ∧ (Some (mk_datetime 2024 1 1 0 0 0 0 (Some utc)) = None
     ∨ ∃ n, normalize_datetime_to_utc_naive
              (mk_datetime 2024 1 2 10 0 0 0 None) = Return n)
  ∧ snd (filter_step strptime_ref fromisoformat_ref
           (Some (mk_datetime 2024 1 1 0 0 0 0 (Some utc))) [] art_new
           (empty_cache 1000))
    = empty_cache 1000
  ∧ parse_date strptime_ref fromisoformat_ref (pubDate_of art_year_one)
    = Return (Some (mk_datetime 1 1 1 0 0 0 0 (Some 18000000000)))
  ∧ normalize_datetime_to_utc_naive
      (mk_datetime 1 1 1 0 0 0 0 (Some 18000000000))
    = Raise OverflowError
  ∧ cache_hit (empty_cache 1000) art_year_one = false
  ∧ truthy (link_of art_year_one) = true
  ∧ maxlen (empty_cache 1000) ≠ Some 0%nat
  ∧ filter_step strptime_ref fromisoformat_ref
      (Some (mk_datetime 2024 1 1 0 0 0 0 (Some utc))) [] art_year_one
      (empty_cache 1000)
    = (Return [art_year_one],
       mk_deque [PStr "https://example.com/old"] (Some 1000%nat))
  ∧ deque_contains
      (snd (filter_step strptime_ref fromisoformat_ref
              (Some (mk_datetime 2024 1 1 0 0 0 0 (Some utc))) []
              art_year_one (empty_cache 1000)))
      (link_of art_year_one) = true
  ∧ parse_date strptime_ref fromisoformat_ref
      (pubDate_of art_year_one_no_link)
    = Return (Some (mk_datetime 1 1 1 0 0 0 0 (Some 18000000000)))
  ∧ cache_hit (empty_cache 1000) art_year_one_no_link = false
  ∧ truthy (link_of art_year_one_no_link) = false
  ∧ snd (filter_step strptime_ref fromisoformat_ref
           (Some (mk_datetime 2024 1 1 0 0 0 0 (Some utc))) []
           art_year_one_no_link (empty_cache 1000))
    = empty_cache 1000
  ∧ cache_hit (empty_cache 0) art_year_one = false
  ∧ maxlen (empty_cache 0) = Some 0%nat
  ∧ items (empty_cache 0) = []
  ∧ snd (filter_step strptime_ref fromisoformat_ref
           (Some (mk_datetime 2024 1 1 0 0 0 0 (Some utc))) []
           art_year_one (empty_cache 0))
    = empty_cache 0.
Proof.
  assert (H1 : parse_date strptime_ref fromisoformat_ref (pubDate_of art_new)
               = Return (Some (mk_datetime 2024 1 2 10 0 0 0 None)))
    by (vm_compute; reflexivity).
  assert (H2 : Some (mk_datetime 2024 1 1 0 0 0 0 (Some utc)) = None
               ∨ ∃ n, normalize_datetime_to_utc_naive
                        (mk_datetime 2024 1 2 10 0 0 0 None) = Return n).
  { right. eexists. vm_compute. reflexivity. }
  assert (Hy : parse_date strptime_ref fromisoformat_ref
                 (pubDate_of art_year_one)
               = Return (Some (mk_datetime 1 1 1 0 0 0 0
                                 (Some 18000000000))))
    by (vm_compute; reflexivity).
  assert (Hr : normalize_datetime_to_utc_naive
                 (mk_datetime 1 1 1 0 0 0 0 (Some 18000000000))
               = Raise OverflowError)
    by (vm_compute; reflexivity).
  assert (Hm : cache_hit (empty_cache 1000) art_year_one = false)
    by (vm_compute; reflexivity).
  assert (Ht : truthy (link_of art_year_one) = true)
    by (vm_compute; reflexivity).
  assert (Hc : maxlen (empty_cache 1000) ≠ Some 0%nat) by discriminate.
  assert (Hn : parse_date strptime_ref fromisoformat_ref
                 (pubDate_of art_year_one_no_link)
               = Return (Some (mk_datetime 1 1 1 0 0 0 0
                                 (Some 18000000000))))
    by (vm_compute; reflexivity).
  assert (Hnm : cache_hit (empty_cache 1000) art_year_one_no_link = false)
    by (vm_compute; reflexivity).
  assert (Hnt : truthy (link_of art_year_one_no_link) = false)
    by (vm_compute; reflexivity).
  assert (H0m : cache_hit (empty_cache 0) art_year_one = false)
    by (vm_compute; reflexivity).
  assert (H0c : maxlen (empty_cache 0) = Some 0%nat) by reflexivity.
  assert (H0i : items (empty_cache 0) = []) by reflexivity.
  split; [exact H1|]. split; [exact H2|]. split.
  { exact (proj1 (proj1 (dated_article_leaves_cache strptime_ref
                           fromisoformat_ref art_new _ _ []
                           (empty_cache 1000) H1) H2)). }
  split; [exact Hy|]. split; [exact Hr|]. split; [exact Hm|].
  split; [exact Ht|]. split; [exact Hc|].
  pose proof (dated_article_leaves_cache strptime_ref fromisoformat_ref
                art_year_one (Some (mk_datetime 2024 1 1 0 0 0 0 (Some utc)))
                _ [] (empty_cache 1000) Hy) as (_ & _ & _ & Hraise).
  destruct (Hraise _ _ eq_refl Hr) as (_ & _ & Hmiss).
  destruct (Hmiss Hm) as (Hstep & Hin & _ & _).
  split.
  { rewrite Hstep. f_equal. }
  split; [exact (proj2 (Hin Ht) Hc)|].
  split; [exact Hn|]. split; [exact Hnm|]. split; [exact Hnt|]. split.
  { pose proof (dated_article_leaves_cache strptime_ref fromisoformat_ref
                  art_year_one_no_link
                  (Some (mk_datetime 2024 1 1 0 0 0 0 (Some utc)))
                  _ [] (empty_cache 1000) Hn) as (_ & _ & _ & Hraise').
    destruct (Hraise' _ _ eq_refl Hr) as (_ & _ & Hmiss').
    destruct (Hmiss' Hnm) as (_ & _ & Hempty & _).
    exact (Hempty Hnt). }
  split; [exact H0m|]. split; [exact H0c|]. split; [exact H0i|].
  pose proof (dated_article_leaves_cache strptime_ref fromisoformat_ref
                art_year_one (Some (mk_datetime 2024 1 1 0 0 0 0 (Some utc)))
                _ [] (empty_cache 0) Hy) as (_ & _ & _ & Hraise0).
  destruct (Hraise0 _ _ eq_refl Hr) as (_ & _ & Hmiss0).
  destruct (Hmiss0 H0m) as (_ & _ & _ & Hzero).
  exact (Hzero H0c H0i).
Defined.

Lemma recency_cache_bounded_fifo_witness :
  NoDup [PStr "a"; PStr "b"; PStr "c"]
  ∧ Forall (λ x, truthy x = true) [PStr "a"; PStr "b"; PStr "c"]
  ∧ length [PStr "b"; PStr "c"] = 2%nat
  ∧ items (record_all [PStr "a"; PStr "b"; PStr "c"]
             (mk_deque [] (Some 2%nat)))
    = [PStr "b"; PStr "c"]
  ∧ deque_contains
      (record_all [PStr "a"; PStr "b"; PStr "c"] (mk_deque [] (Some 2%nat)))
      (PStr "a") = false.
Proof.
  assert (H1 : NoDup [PStr "a"; PStr "b"; PStr "c"]).
  { refine (bool_decide_unpack _ _). vm_compute. exact I. }
  assert (H2 : Forall (λ x, truthy x = true) [PStr "a"; PStr "b"; PStr "c"]).
  { repeat constructor. }
  assert (H3 : length [PStr "b"; PStr "c"] = 2%nat) by reflexivity.
  split; [exact H1|]. split; [exact H2|]. split; [exact H3|].
  exact (proj2 (proj2 (recency_cache_bounded_fifo 2)) (PStr "a")
           [PStr "b"; PStr "c"] H1 H2 H3).
Defined.



(** C8 as stated fails on the code: capacity zero is accepted. *)
Lemma zero_capacity_accepted :
  ContentProcessor_init ∅ (Some 0)
  = Return (mk_processor (mk_deque [] (Some 0%nat)) ∅).
Proof. reflexivity. Qed.

Lemma negative_capacity_rejected_witness :
  -1 < 0
  ∧ ContentProcessor_init ∅ (Some (-1)) = Raise ValueError
  ∧ PY_SSIZE_T_MIN - 1 < 0
  ∧ ContentProcessor_init ∅ (Some (PY_SSIZE_T_MIN - 1)) = Raise OverflowError.
Proof.
  assert (H1 : -1 < 0) by lia.
  assert (H2 : PY_SSIZE_T_MIN - 1 < 0) by (vm_compute; reflexivity).
  split; [exact H1|]. split.
  { exact (proj1 (negative_capacity_rejected strptime_ref fromisoformat_ref
                    ∅ (-1)) H1). }
  split; [exact H2|].
  exact (proj1 (negative_capacity_rejected strptime_ref fromisoformat_ref
                  ∅ (PY_SSIZE_T_MIN - 1)) H2).
Defined.

Lemma empty_link_bypasses_cache_witness :
  link_of art_no_link = PStr ""
  ∧ undated strptime_ref fromisoformat_ref art_no_link
  ∧ _filter_articles_by_timestamp strptime_ref fromisoformat_ref
      (replicate 3 art_no_link) (Some last_run_2024)
      (mk_deque [PStr ""] (Some 1000%nat))
    = (Return (replicate 3 art_no_link), mk_deque [PStr ""] (Some 1000%nat)).
Proof.
  assert (H1 : link_of art_no_link = PStr "") by (vm_compute; reflexivity).
  assert (H2 : undated strptime_ref fromisoformat_ref art_no_link)
    by (intros date; vm_compute; discriminate).
  split; [exact H1|]. split; [exact H2|].
  exact (proj2 (proj2 (empty_link_bypasses_cache strptime_ref
                         fromisoformat_ref art_no_link H1) H2)
           (Some last_run_2024) 3%nat _).
Defined.

(** ** The service on the reference date functions *)

(** C10 as stated fails on the code: with a limit of [-1] the slice keeps
    all articles but the last, three here, which is more than the limit;
    and of two sources whose feeds carry the same title, the entry of
    the first is replaced by that of the second, so that none of its
    articles is handed on. *)
Lemma per_source_limit_violated :
  fst (process_source strptime_ref fromisoformat_ref isoformat_ref
         feed_a_url (Return feed_a) noon_utc fresh_processor)
  = Return (_content_feed_to_articles feed_a feed_a_url)
  ∧ fst (_collect_articles_from_sources strptime_ref fromisoformat_ref
           isoformat_ref (-1) [(feed_a_url, Return feed_a, noon_utc)]
           fresh_processor)
    = Return [(PStr "Blog",
               mk_source_entry feed_a_url
                 (take 3 (_content_feed_to_articles feed_a feed_a_url)))]
  ∧ ¬ (Z.of_nat (length (take 3 (_content_feed_to_articles feed_a
                                   feed_a_url))) ≤ -1)
  ∧ fst (_collect_articles_from_sources strptime_ref fromisoformat_ref
           isoformat_ref 3
           [(feed_a_url, Return feed_a, noon_utc);
            (feed_b_url, Return feed_b, noon_utc)]
           fresh_processor)
    = Return [(PStr "Blog",
               mk_source_entry feed_b_url
                 (_content_feed_to_articles feed_b feed_b_url))].
Proof.
  split; [vm_compute; reflexivity|].
  split; [vm_compute; reflexivity|].
  split; [vm_compute; intros H; by apply H|].
  vm_compute; reflexivity.
Qed.

Lemma per_source_limit_is_prefix_witness :
  1 ≤ 3
  ∧ _filter_articles_by_timestamp strptime_ref fromisoformat_ref
      (_content_feed_to_articles feed_a feed_a_url)
      (last_successful_run (source_metadata fresh_processor) feed_a_url)
      (non_dated_processed_urls fresh_processor)
    = (Return (_content_feed_to_articles feed_a feed_a_url),
       mk_deque [PStr "https://example.com/1"; PStr "https://example.com/2";
                 PStr "https://example.com/3"; PStr "https://example.com/4"]
         (Some 1000%nat))
  ∧ fst (collect_step strptime_ref fromisoformat_ref isoformat_ref 3 []
           (feed_a_url, Return feed_a, noon_utc) fresh_processor)
    = Return [(PStr "Blog",
               mk_source_entry feed_a_url
                 (take 3 (_content_feed_to_articles feed_a feed_a_url)))].
Proof.
  assert (H1 : 1 ≤ 3) by lia.
  assert (H2 : _filter_articles_by_timestamp strptime_ref fromisoformat_ref
      (_content_feed_to_articles feed_a feed_a_url)
      (last_successful_run (source_metadata fresh_processor) feed_a_url)
      (non_dated_processed_urls fresh_processor)
    = (Return (_content_feed_to_articles feed_a feed_a_url),
       mk_deque [PStr "https://example.com/1"; PStr "https://example.com/2";
                 PStr "https://example.com/3"; PStr "https://example.com/4"]
         (Some 1000%nat))) by (vm_compute; reflexivity).
  split; [exact H1|]. split; [exact H2|].
  pose proof (per_source_limit_is_prefix strptime_ref fromisoformat_ref
                isoformat_ref 3 [] feed_a_url feed_a noon_utc
                fresh_processor _ _ H1 H2) as [Hentry _].
  destruct (Hentry (hd ∅ (_content_feed_to_articles feed_a feed_a_url))
              (tl (_content_feed_to_articles feed_a feed_a_url)) eq_refl)
    as [Hstep _].
  rewrite Hstep. vm_compute. reflexivity.
Defined.

(** ** The further properties on concrete inputs *)

Lemma filter_keeps_deque_invariant_witness :
  deque_wf (mk_deque [PStr "https://example.com/seen"] (Some 2%nat))
  ∧ deque_wf
      (snd (_filter_articles_by_timestamp strptime_ref fromisoformat_ref
              [art_undated; art_int_date; art_new] None
              (mk_deque [PStr "https://example.com/seen"] (Some 2%nat)))).
Proof.
  assert (H : deque_wf
                (mk_deque [PStr "https://example.com/seen"] (Some 2%nat))).
  { split; [|split]; simpl; [|repeat constructor|lia].
    refine (bool_decide_unpack _ _). vm_compute. exact I. }
  split; [exact H|].
  exact (proj1 (proj2 (filter_keeps_deque_invariant strptime_ref
                         fromisoformat_ref)
                  [art_undated; art_int_date; art_new] None _ H)).
Defined.

Lemma undated_batch_not_redelivered_witness :
  has_room (empty_cache 1000) (length [art_undated; art_int_date])
  ∧ Forall (λ a, undated strptime_ref fromisoformat_ref a
                 ∧ truthy (link_of a) = true) [art_undated; art_int_date]
  ∧ _filter_articles_by_timestamp strptime_ref fromisoformat_ref
      [art_undated; art_int_date] None (empty_cache 1000)
    = (Return [art_undated; art_int_date],
       mk_deque [PStr "https://example.com/undated";
                 PStr "https://example.com/int"] (Some 1000%nat))
  ∧ _filter_articles_by_timestamp strptime_ref fromisoformat_ref
      [art_undated; art_int_date] (Some last_run_2024)
      (mk_deque [PStr "https://example.com/undated";
                 PStr "https://example.com/int"] (Some 1000%nat))
    = (Return [],
       mk_deque [PStr "https://example.com/undated";
                 PStr "https://example.com/int"] (Some 1000%nat)).
Proof.
  assert (H1 : has_room (empty_cache 1000)
                 (length [art_undated; art_int_date])).
  { unfold has_room, empty_cache. simpl. lia. }
  assert (H2 : Forall (λ a, undated strptime_ref fromisoformat_ref a
                            ∧ truthy (link_of a) = true)
                 [art_undated; art_int_date]).
  { repeat constructor; try (intros date; vm_compute; discriminate);
      vm_compute; reflexivity. }
  assert (H3 : _filter_articles_by_timestamp strptime_ref fromisoformat_ref
      [art_undated; art_int_date] None (empty_cache 1000)
    = (Return [art_undated; art_int_date],
       mk_deque [PStr "https://example.com/undated";
                 PStr "https://example.com/int"] (Some 1000%nat)))
    by (vm_compute; reflexivity).
  split; [exact H1|]. split; [exact H2|]. split; [exact H3|].
  exact (undated_batch_not_redelivered strptime_ref fromisoformat_ref
           _ None (Some last_run_2024) _ _ _ H1 H2 H3).
Defined.

Lemma first_run_returns_whole_batch_witness :
  parse_iso_timestamp fromisoformat_ref (Some "not a time") = None
  ∧ NoDup (map (λ a : article, link_of a) [art_new; art_zoned; art_undated])
  ∧ (∀ a, a ∈ [art_new; art_zoned; art_undated] →
          link_of a ∉ items (empty_cache 1000))
  ∧ fst (_filter_articles_by_timestamp strptime_ref fromisoformat_ref
           [art_new; art_zoned; art_undated] (Some "not a time")
           (empty_cache 1000))
    = Return [art_new; art_zoned; art_undated].
Proof.
  assert (H1 : parse_iso_timestamp fromisoformat_ref (Some "not a time")
               = None) by (vm_compute; reflexivity).
  assert (H2 : NoDup (map (λ a : article, link_of a)
                        [art_new; art_zoned; art_undated])).
  { refine (bool_decide_unpack _ _). vm_compute. exact I. }
  assert (H3 : ∀ a, a ∈ [art_new; art_zoned; art_undated] →
                    link_of a ∉ items (empty_cache 1000)).
  { intros a _ Hin. simpl in Hin. by apply elem_of_nil in Hin. }
  split; [exact H1|]. split; [exact H2|]. split; [exact H3|].
  exact (first_run_returns_whole_batch strptime_ref fromisoformat_ref
           _ _ _ H1 H2 H3).
Defined.

Lemma source_label_is_title_or_url_witness :
  1 ≤ 3
  ∧ fst (process_source strptime_ref fromisoformat_ref isoformat_ref
           feed_a_url (Return feed_a) noon_utc fresh_processor)
    = Return (_content_feed_to_articles feed_a feed_a_url)
  ∧ fst (collect_step strptime_ref fromisoformat_ref isoformat_ref 3 []
           (feed_a_url, Return feed_a, noon_utc) fresh_processor)
    = Return [(PStr "Blog",
               mk_source_entry feed_a_url
                 (take 3 (_content_feed_to_articles feed_a feed_a_url)))].
Proof.
  assert (H1 : 1 ≤ 3) by lia.
  assert (H2 : fst (process_source strptime_ref fromisoformat_ref
                      isoformat_ref feed_a_url (Return feed_a) noon_utc
                      fresh_processor)
               = Return (_content_feed_to_articles feed_a feed_a_url))
    by (vm_compute; reflexivity).
  split; [exact H1|]. split; [exact H2|].
  exact (source_label_is_title_or_url strptime_ref fromisoformat_ref
           isoformat_ref 3 [] feed_a_url feed_a noon_utc fresh_processor
           (hd ∅ (_content_feed_to_articles feed_a feed_a_url))
           (tl (_content_feed_to_articles feed_a feed_a_url)) H1 H2).
Defined.

Lemma validated_frequencies_make_a_daemon_witness :
  _validate_frequencies croniter_check_ref ["0 8 * * *"; "0 9 * * 0"]
  = Return tt
  ∧ NewsletterDaemon_init croniter_check_ref ["0 8 * * *"; "0 9 * * 0"]
      saturday_0700
    = Return [mk_croniter "0 8 * * *" saturday_0700;
              mk_croniter "0 9 * * 0" saturday_0700].
Proof.
  assert (H : _validate_frequencies croniter_check_ref
                ["0 8 * * *"; "0 9 * * 0"] = Return tt)
    by (vm_compute; reflexivity).
  split; [exact H|].
  exact (proj2 (proj2 (validated_frequencies_make_a_daemon
                         croniter_check_ref _ saturday_0700 H))).
Defined.

Lemma next_run_time_failure_witness :
  Forall2 (λ c t, croniter_next_ref (cron_expr c) saturday_0700 = Return t)
    [mk_croniter "0 8 * * *" sunday_0900] [saturday_0800]
  ∧ croniter_next_ref (cron_expr (mk_croniter cron_never sunday_0900))
      saturday_0700 = Raise ValueError
  ∧ _get_next_run_time croniter_next_ref saturday_0700
      [mk_croniter "0 8 * * *" sunday_0900;
       mk_croniter cron_never sunday_0900;
       mk_croniter "0 9 * * 0" sunday_0900]
    = (Raise ValueError,
       [mk_croniter "0 8 * * *" saturday_0800;
        mk_croniter cron_never saturday_0700;
        mk_croniter "0 9 * * 0" sunday_0900]).
Proof.
  assert (H1 : Forall2
    (λ c t, croniter_next_ref (cron_expr c) saturday_0700 = Return t)
    [mk_croniter "0 8 * * *" sunday_0900] [saturday_0800]).
  { constructor; [vm_compute; reflexivity|constructor]. }
  assert (H2 : croniter_next_ref
                 (cron_expr (mk_croniter cron_never sunday_0900))
                 saturday_0700 = Raise ValueError)
    by (vm_compute; reflexivity).
  split; [exact H1|]. split; [exact H2|].
  exact (next_run_time_failure croniter_next_ref saturday_0700
           [mk_croniter "0 8 * * *" sunday_0900]
           [mk_croniter "0 9 * * 0" sunday_0900]
           (mk_croniter cron_never sunday_0900) [saturday_0800] ValueError
           H1 H2).
Defined.

Lemma next_run_time_depends_on_expressions_witness :
  map cron_expr [mk_croniter "0 8 * * *" sunday_0900]
  = map cron_expr [mk_croniter "0 8 * * *" saturday_0800]
  ∧ fst (_get_next_run_time croniter_next_ref saturday_0700
           [mk_croniter "0 8 * * *" sunday_0900])
    = fst (_get_next_run_time croniter_next_ref saturday_0700
             [mk_croniter "0 8 * * *" saturday_0800]).
Proof.
  assert (H : map cron_expr [mk_croniter "0 8 * * *" sunday_0900]
              = map cron_expr [mk_croniter "0 8 * * *" saturday_0800])
    by reflexivity.
  split; [exact H|].
  exact (proj1 (next_run_time_depends_on_expressions croniter_next_ref
                  saturday_0700 saturday_0700 _ _) H).
Defined.

Lemma normalize_is_naive_and_idempotent_witness :
  normalize_datetime_to_utc_naive
    (mk_datetime 2024 1 1 2 0 0 0 (Some 18000000000))
  = Return (mk_datetime 2023 12 31 21 0 0 0 None)
  ∧ normalize_datetime_to_utc_naive (mk_datetime 2023 12 31 21 0 0 0 None)
    = Return (mk_datetime 2023 12 31 21 0 0 0 None).
Proof.
  assert (H : normalize_datetime_to_utc_naive
                (mk_datetime 2024 1 1 2 0 0 0 (Some 18000000000))
              = Return (mk_datetime 2023 12 31 21 0 0 0 None))
    by (vm_compute; reflexivity).
  split; [exact H|].
  exact (proj1 (proj2 (normalize_is_naive_and_idempotent _ _ H))).
Defined.

Lemma truncate_description_length_witness :
  ("" = "" ∨ 5 ≤ 0) ∧ truncate_description "" 5 = "".
Proof.
  assert (H : "" = "" ∨ 5 ≤ 0) by (left; reflexivity).
  split; [exact H|].
  exact (proj2 (truncate_description_length "" 5) H).
Defined.

Lemma truncate_description_fits_witness :
  Z.of_nat (String.length "short") ≤ 10
  ∧ truncate_description "short" 10 = "short".
Proof.
  assert (H : Z.of_nat (String.length "short") ≤ 10) by (simpl; lia).
  split; [exact H|].
  exact (proj1 (truncate_description_fits "short" 10) H).
Defined.

Lemma truncate_description_cuts_at_space_witness :
  3 < 12
  ∧ 12 < Z.of_nat (String.length "hello wonderful world")
  ∧ ∃ kept rest,
      truncate_description "hello wonderful world" 12
      = String.append kept "..."
      ∧ "hello wonderful world" = String.append kept rest
      ∧ kept ≠ ""
      ∧ (kept = str_slice_to "hello wonderful world" (12 - 3)
         ∨ ∃ rest', rest = String " " rest').
Proof.
  assert (H1 : 3 < 12) by lia.
  assert (H2 : 12 < Z.of_nat (String.length "hello wonderful world"))
    by (simpl; lia).
  split; [exact H1|]. split; [exact H2|].
  exact (truncate_description_cuts_at_space _ _ H1 H2).
Defined.

Lemma database_last_run_witness :
  is_Some (({[ "https://a.example/feed" := None ]} : database)
             !! "https://a.example/feed")
  ∧ last_successful_run
      (update_source_last_run isoformat_ref
         {[ "https://a.example/feed" := None ]} "https://a.example/feed"
         (mk_datetime 2024 1 6 12 0 0 0 None)) "https://a.example/feed"
    = Some "2024-01-06T12:00:00".
Proof.
  assert (H : is_Some (({[ "https://a.example/feed" := None ]} : database)
                         !! "https://a.example/feed")).
  { exists None. vm_compute. reflexivity. }
  split; [exact H|].
  exact (proj1 (proj2 (proj2 (database_last_run isoformat_ref
                                {[ "https://a.example/feed" := None ]}
                                "https://a.example/feed"
                                (mk_datetime 2024 1 6 12 0 0 0 None))))
           H).
Defined.

Lemma filter_delivers_only_newer_witness :
  parse_iso_timestamp fromisoformat_ref (Some last_run_2024)
  = Some (mk_datetime 2024 1 1 0 0 0 0 (Some utc))
  ∧ _filter_articles_by_timestamp strptime_ref fromisoformat_ref
      [art_zoned; art_new; art_undated] (Some last_run_2024)
      (empty_cache 1000)
    = (Return [art_new; art_undated],
       mk_deque [PStr "https://example.com/undated"] (Some 1000%nat))
  ∧ art_new ∈ [art_new; art_undated]
  ∧ parse_date strptime_ref fromisoformat_ref (pubDate_of art_new)
    = Return (Some (mk_datetime 2024 1 2 10 0 0 0 None))
  ∧ normalize_datetime_to_utc_naive (mk_datetime 2024 1 2 10 0 0 0 None)
    = Return (mk_datetime 2024 1 2 10 0 0 0 None)
  ∧ dt_gtb (mk_datetime 2024 1 2 10 0 0 0 None)
      (replace_tzinfo (mk_datetime 2024 1 1 0 0 0 0 (Some utc)) None)
    = true.
Proof.
  assert (H1 : parse_iso_timestamp fromisoformat_ref (Some last_run_2024)
               = Some (mk_datetime 2024 1 1 0 0 0 0 (Some utc)))
    by (vm_compute; reflexivity).
  assert (H2 : _filter_articles_by_timestamp strptime_ref fromisoformat_ref
      [art_zoned; art_new; art_undated] (Some last_run_2024)
      (empty_cache 1000)
    = (Return [art_new; art_undated],
       mk_deque [PStr "https://example.com/undated"] (Some 1000%nat)))
    by (vm_compute; reflexivity).
  assert (H3 : art_new ∈ [art_new; art_undated])
    by apply list_elem_of_here.
  assert (H4 : parse_date strptime_ref fromisoformat_ref
                 (pubDate_of art_new)
               = Return (Some (mk_datetime 2024 1 2 10 0 0 0 None)))
    by (vm_compute; reflexivity).
  assert (H5 : normalize_datetime_to_utc_naive
                 (mk_datetime 2024 1 2 10 0 0 0 None)
               = Return (mk_datetime 2024 1 2 10 0 0 0 None))
    by reflexivity.
  split; [exact H1|]. split; [exact H2|]. split; [exact H3|].
  split; [exact H4|]. split; [exact H5|].
  exact (filter_delivers_only_newer strptime_ref fromisoformat_ref
           _ _ _ _ _ _ H1 H2 art_new _ _ H3 H4 H5).
Defined.

Lemma second_pass_delivers_only_newer_witness :
  isoformat_ref (replace_tzinfo noon_utc None) ≠ ""
  ∧ fromisoformat_ref (isoformat_ref (replace_tzinfo noon_utc None))
    = Some (replace_tzinfo noon_utc None)
  ∧ fst (process_source strptime_ref fromisoformat_ref isoformat_ref
           feed_a_url (Return feed_dated) noon_utc fresh_processor)
    = Return (_content_feed_to_articles feed_dated feed_a_url)
  ∧ fst (process_source strptime_ref fromisoformat_ref isoformat_ref
           feed_a_url (Return feed_dated) later_utc
           (snd (process_source strptime_ref fromisoformat_ref
                   isoformat_ref feed_a_url (Return feed_dated) noon_utc
                   fresh_processor)))
    = Return (drop 1 (_content_feed_to_articles feed_dated feed_a_url))
  ∧ dt_gtb (mk_datetime 2024 1 7 10 0 0 0 None)
      (replace_tzinfo noon_utc None) = true.
Proof.
  assert (H1 : isoformat_ref (replace_tzinfo noon_utc None) ≠ "")
    by (vm_compute; discriminate).
  assert (H2 : fromisoformat_ref
                 (isoformat_ref (replace_tzinfo noon_utc None))
               = Some (replace_tzinfo noon_utc None))
    by (vm_compute; reflexivity).
  assert (H3 : fst (process_source strptime_ref fromisoformat_ref
                      isoformat_ref feed_a_url (Return feed_dated) noon_utc
                      fresh_processor)
               = Return (_content_feed_to_articles feed_dated feed_a_url))
    by (vm_compute; reflexivity).
  assert (H4 : fst (process_source strptime_ref fromisoformat_ref
                      isoformat_ref feed_a_url (Return feed_dated) later_utc
                      (snd (process_source strptime_ref fromisoformat_ref
                              isoformat_ref feed_a_url (Return feed_dated)
                              noon_utc fresh_processor)))
               = Return (drop 1 (_content_feed_to_articles feed_dated
                                   feed_a_url)))
    by (vm_compute; reflexivity).
  split; [exact H1|]. split; [exact H2|]. split; [exact H3|].
  split; [exact H4|].
  refine (second_pass_delivers_only_newer strptime_ref fromisoformat_ref
            isoformat_ref feed_a_url feed_dated feed_dated noon_utc later_utc
            fresh_processor _ _ _ _ H1 H2 _ _
            (default ∅ (_content_feed_to_articles feed_dated feed_a_url
                          !! 1%nat))
            (mk_datetime 2024 1 7 10 0 0 0 None)
            (mk_datetime 2024 1 7 10 0 0 0 None) _ _ _).
  - rewrite <- H3. apply surjective_pairing.
  - rewrite <- H4. apply surjective_pairing.
  - apply list_elem_of_here.
  - vm_compute. reflexivity.
  - reflexivity.
Defined.

Lemma validated_config_witness :
  validate croniter_check_ref email_matches_ref urlparse_ref a_config
  = Return tt
  ∧ 1 ≤ cfg_smtp_port a_config ≤ 65535
  ∧ NewsletterDaemon_init croniter_check_ref (cfg_frequencies a_config)
      saturday_0700
    = Return (map (λ f, mk_croniter f saturday_0700)
                (cfg_frequencies a_config)).
Proof.
  assert (H : validate croniter_check_ref email_matches_ref urlparse_ref
                a_config = Return tt) by (vm_compute; reflexivity).
  split; [exact H|].
  pose proof (proj1 (validated_config croniter_check_ref email_matches_ref
                       urlparse_ref a_config saturday_0700) H)
    as (Hport & _ & _ & _ & _ & _ & _ & Hinit).
  split; [exact Hport|exact Hinit].
Defined.
